(** * Meeting-room dashboard (app.py): booking conflict engine and
      OTP-gated board-room workflow

    A shallow embedding of the logic of [app.py].  Python values are kept
    as the program has them: a bookings row is a record of text cells (the
    CSV is read with [dtype=str]), a [datetime.time] is an (hour, minute)
    pair of integers ordered lexicographically, the OTP context is the
    dictionary stored under [st.session_state["otp_ctx"]], the rate-limit
    file is a dictionary from bucket keys to counts.

    What the program obtains from outside is an explicit input of the
    embedding: the clock, the random passcode and salt, the outcome of the
    SMTP conversation, the secrets, and SHA-256 itself (the class [Sha256],
    a parameter of the OTP helpers).  A Python exception is the [Raise]
    outcome of the [py] monad.  A script run handles one interaction: a
    submitted Quick Book form, a button of the approval panel, or an
    uploaded file.

    Not modelled: the rendering of the page; cells that pandas reads as
    missing and uploads that lack a column (a row is a record of eight
    texts); decimal digits and blanks outside ASCII; the rounding of the
    floating-point clock (a timestamp is an integer number of seconds, and
    the clock reads of one run return the same instant). *)

From Stdlib Require Import ZArith String Ascii List Lia Bool DecimalString.
From stdpp Require Import gmap strings.

Local Open Scope Z_scope.

(* ------------------------------------------------------------------ *)
(** * Python values and exceptions *)

(** The result of a Python call that may raise. *)
Inductive py (A : Type) : Type :=
  | Ret (a : A)
  | Raise.
Arguments Ret {A} a.
Arguments Raise {A}.

#[global] Instance py_ret : MRet py := fun _ a => Ret a.
#[global] Instance py_bind : MBind py := fun _ _ f m =>
  match m with
  | Ret a => f a
  | Raise => Raise
  end.

Module Str.

(** [str.isspace] on one ASCII character: TAB..CR, FS..US and the blank. *)
Definition is_space (c : ascii) : bool :=
  let n := nat_of_ascii c in
  ((9 <=? n) && (n <=? 13) || (28 <=? n) && (n <=? 32))%nat.

(** An ASCII decimal digit, and its value. *)
Definition is_digit (c : ascii) : bool :=
  let n := nat_of_ascii c in ((48 <=? n) && (n <=? 57))%nat.

Definition digit_val (c : ascii) : Z := Z.of_nat (nat_of_ascii c) - 48.

Fixpoint lstrip (s : string) : string :=
  match s with
  | String c s' => if is_space c then lstrip s' else s
  | EmptyString => EmptyString
  end.

Fixpoint rstrip (s : string) : string :=
  match s with
  | EmptyString => EmptyString
  | String c s' =>
      match rstrip s' with
      | EmptyString => if is_space c then EmptyString else String c EmptyString
      | r => String c r
      end
  end.

(** [s.strip()] *)
Definition strip (s : string) : string := rstrip (lstrip s).

(** [s.split(sep)] for a one-character separator. *)
Fixpoint split (sep : ascii) (s : string) : list string :=
  match s with
  | EmptyString => [EmptyString]
  | String c s' =>
      if Ascii.eqb c sep then EmptyString :: split sep s'
      else match split sep s' with
           | p :: ps => String c p :: ps
           | [] => [String c EmptyString]
           end
  end.

(** [s.isdigit()]: non-empty and digits only. *)
Fixpoint all_digits (s : string) : bool :=
  match s with
  | EmptyString => true
  | String c s' => is_digit c && all_digits s'
  end.

Definition isdigit (s : string) : bool :=
  match s with
  | EmptyString => false
  | _ => all_digits s
  end.

(** The blanks that [int] skips around the literal of an ASCII text:
    TAB..CR and the blank.  FS..US, which [str.strip] removes, are not
    among them: [int] raises on a text that holds one. *)
Definition is_int_space (c : ascii) : bool :=
  let n := nat_of_ascii c in ((9 <=? n) && (n <=? 13) || (n =? 32))%nat.

Fixpoint int_lstrip (s : string) : string :=
  match s with
  | String c s' => if is_int_space c then int_lstrip s' else s
  | EmptyString => EmptyString
  end.

Fixpoint all_int_space (s : string) : bool :=
  match s with
  | EmptyString => true
  | String c s' => is_int_space c && all_int_space s'
  end.

(** [sys.get_int_max_str_digits()] as the interpreter sets it (Python
    3.11): [int] raises [ValueError] on a literal of more digits. *)
Definition INT_MAX_STR_DIGITS : Z := 4300.

(** The digits of an [int] literal: decimal digits, single underscores
    allowed between two digits, then blanks to the end of the text.
    [prev] tells that the previous character was a digit, [count] is the
    number of digits read (underscores are not counted, leading zeros
    are). *)
Fixpoint int_digits (s : string) (acc count : Z) (prev : bool) : py Z :=
  match s with
  | EmptyString =>
      if prev && (count <=? INT_MAX_STR_DIGITS) then Ret acc else Raise
  | String c s' =>
      if is_digit c then int_digits s' (10 * acc + digit_val c) (count + 1) true
      else if Ascii.eqb c "_" && prev then int_digits s' acc count false
      else if prev && all_int_space s && (count <=? INT_MAX_STR_DIGITS)
           then Ret acc else Raise
  end.

(** [int(s)]: blanks, an optional sign, the digits, blanks.  [ValueError]
    otherwise. *)
Definition int (s : string) : py Z :=
  match int_lstrip s with
  | String c r =>
      if Ascii.eqb c "+" then int_digits r 0 0 false
      else if Ascii.eqb c "-" then n ← int_digits r 0 0 false; Ret (- n)
      else int_digits (String c r) 0 0 false
  | EmptyString => Raise
  end.

(** [str(n)] for an integer. *)
Definition of_Z (n : Z) : string := NilZero.string_of_int (Z.to_int n).

(** The format specification [{n:02d}]: the decimal digits of [n],
    padded with a zero to two characters. *)
Definition fmt_02d (n : Z) : string :=
  let s := of_Z n in
  if (String.length s <? 2)%nat then "0" +:+ s else s.

End Str.

(* ------------------------------------------------------------------ *)
(** * Times *)

(** [datetime.time], with the seconds and microseconds that the program
    never sets left out. *)
Record time := mk_time { hour : Z; minute : Z }.

(** The constructor [time(h, m)]: [ValueError] outside 0..23 and 0..59. *)
Definition time_of (h m : Z) : py time :=
  if (0 <=? h) && (h <? 24) && (0 <=? m) && (m <? 60)
  then Ret (mk_time h m) else Raise.

(** Python compares two times as the tuples (hour, minute, ...). *)
Definition time_lt (a b : time) : bool :=
  (hour a <? hour b) || ((hour a =? hour b) && (minute a <? minute b)).

Definition time_le (a b : time) : bool :=
  (hour a <? hour b) || ((hour a =? hour b) && (minute a <=? minute b)).

Definition time_gt (a b : time) : bool := time_lt b a.

Definition BUSINESS_HOURS : time * time := (mk_time 9 0, mk_time 19 0).
Definition SLOT_MINUTES : Z := 30.

(** [parse_time_str]: [hh, mm = s.split(":")] raises unless there are
    exactly two parts. *)
Definition parse_time_str (s : string) : py time :=
  match Str.split ":" s with
  | [hh; mm] => h ← Str.int hh; m ← Str.int mm; time_of h m
  | _ => Raise
  end.

Definition fmt_time (t : time) : string :=
  Str.fmt_02d (hour t) +:+ ":" +:+ Str.fmt_02d (minute t).

(** One or two ASCII digits, as the directives [%H] and [%M] read them. *)
Definition digits12 (s : string) : py Z :=
  match s with
  | String a EmptyString =>
      if Str.is_digit a then Ret (Str.digit_val a) else Raise
  | String a (String b EmptyString) =>
      if Str.is_digit a && Str.is_digit b
      then Ret (10 * Str.digit_val a + Str.digit_val b) else Raise
  | _ => Raise
  end.

(** [datetime.strptime(s, "%H:%M").time()]: the whole text must be an
    hour 0..23, a colon and a minute 0..59, each of one or two digits. *)
Definition strptime_HM (s : string) : py time :=
  match Str.split ":" s with
  | [hh; mm] =>
      h ← digits12 hh; m ← digits12 mm;
      if (h <=? 23) && (m <=? 59) then Ret (mk_time h m) else Raise
  | _ => Raise
  end.

(* ------------------------------------------------------------------ *)
(** * Bookings *)

(** A row of bookings.csv. *)
Record row := mk_row {
  room_id : string;
  room_name : string;
  date : string;
  start_time : string;
  end_time : string;
  booked_by : string;
  title : string;
  created_at : string
}.

(** A [pd.DataFrame] of bookings: its rows in order. *)
Abbreviation DataFrame := (list row) (only parsing).

Record Room := mk_room { id : string; name : string }.

Definition ROOMS : list Room :=
  [ mk_room "mr1" "Meeting Room 1";
    mk_room "mr2" "Meeting Room 2";
    mk_room "mr3" "Meeting Room 3";
    mk_room "br" "Board Room" ].

Definition overlaps (s1 e1 s2 e2 : time) : bool :=
  time_lt s1 e2 && time_lt s2 e1.

(** [df[(df["room_id"] == new_row["room_id"]) & (df["date"] == new_row["date"])] *)
Definition same_day (new_row : row) (df : DataFrame) : DataFrame :=
  List.filter (fun r => String.eqb (room_id r) (room_id new_row)
                        && String.eqb (date r) (date new_row)) df.

(** The loop of [validate_booking] over the rows of the same room and day. *)
Fixpoint first_conflict (start_t end_t : time) (rows : DataFrame)
  : py (option string) :=
  match rows with
  | [] => Ret None
  | r :: rows' =>
      s2 ← parse_time_str (start_time r);
      e2 ← parse_time_str (end_time r);
      if overlaps start_t end_t s2 e2
      then Ret (Some ("Conflict with existing booking " +:+ start_time r
                      +:+ "–" +:+ end_time r +:+ "."))
      else first_conflict start_t end_t rows'
  end.

Definition validate_booking (new_row : row) (df : DataFrame)
  : py (option string) :=
  start_t ← parse_time_str (start_time new_row);
  end_t ← parse_time_str (end_time new_row);
  if time_le end_t start_t then
    Ret (Some "End time must be after start time.")
  else if time_lt start_t (fst BUSINESS_HOURS)
          || time_gt end_t (snd BUSINESS_HOURS) then
    Ret (Some ("Booking must be within business hours "
               +:+ fmt_time (fst BUSINESS_HOURS) +:+ "–"
               +:+ fmt_time (snd BUSINESS_HOURS) +:+ "."))
  else if existsb (fun t => negb (minute t mod SLOT_MINUTES =? 0))
                  [start_t; end_t] then
    Ret (Some ("Time must align with " +:+ Str.of_Z SLOT_MINUTES
               +:+ "-minute slots (e.g., 09:00, 09:30, 10:00)."))
  else first_conflict start_t end_t (same_day new_row df).


(* ------------------------------------------------------------------ *)
(** * Bulk upload of bookings.csv *)

(** The function [overlaps] that the upload block defines for itself. *)
Definition upload_overlaps (a1 a2 b1 b2 : time) : bool :=
  time_lt a1 b2 && time_lt b1 a2.

(** [df.iterrows()] of a frame read by [pd.read_csv]: the rows with their
    index labels 0, 1, 2, ...; selecting rows keeps the labels. *)
Definition iterrows (df : DataFrame) : list (nat * row) :=
  combine (seq 0 (length df)) df.

(** [Series.unique()]: the distinct values in order of first appearance. *)
Fixpoint unique (l : list string) : list string :=
  match l with
  | [] => []
  | x :: l' => x :: List.filter (fun y => negb (String.eqb x y)) (unique l')
  end.

(** A [for] loop whose body appends to [err_msgs] and may raise. *)
Fixpoint for_each {A : Type} (body : A -> py (list string)) (l : list A)
  : py (list string) :=
  match l with
  | [] => Ret []
  | x :: l' => here ← body x; rest ← for_each body l'; Ret (here ++ rest)
  end.

(** The body of the two inner loops, for the rows labelled [i] and [j]. *)
Definition pair_check (rid d : string) (x y : nat * row) : py (list string) :=
  let '(i, r1) := x in
  let '(j, r2) := y in
  if (j <=? i)%nat then Ret []
  else
    s1 ← strptime_HM (start_time r1);
    e1 ← strptime_HM (end_time r1);
    s2 ← strptime_HM (start_time r2);
    e2 ← strptime_HM (end_time r2);
    if upload_overlaps s1 e1 s2 e2
    then Ret ["Overlap in " +:+ rid +:+ " on " +:+ d +:+ ": "
              +:+ start_time r1 +:+ "-" +:+ end_time r1 +:+ " vs "
              +:+ start_time r2 +:+ "-" +:+ end_time r2]
    else Ret [].

(** The rows of one room, then of one of its dates. *)
Definition rows_of_room (rid : string) (rows : list (nat * row)) :=
  List.filter (fun x => String.eqb (room_id (snd x)) rid) rows.

Definition rows_of_date (d : string) (rows : list (nat * row)) :=
  List.filter (fun x => String.eqb (date (snd x)) d) rows.

(** The value of [err_msgs] after the loops over rooms, dates and pairs. *)
Definition upload_err_msgs (up_df : DataFrame) : py (list string) :=
  for_each (fun rid =>
    let sub := rows_of_room rid (iterrows up_df) in
    for_each (fun d =>
      let sd := rows_of_date d sub in
      for_each (fun x => for_each (fun y => pair_check rid d x y) sd) sd)
      (unique (map (fun x => date (snd x)) sub)))
    (map id ROOMS).

(** [sep.join(l)] *)
Fixpoint join (sep : string) (l : list string) : string :=
  match l with
  | [] => ""
  | [x] => x
  | x :: l' => x +:+ sep +:+ join sep l'
  end.

(* ------------------------------------------------------------------ *)
(** * What a script run shows, and the state it works on *)

Inductive ui : Type :=
  | st_error (msg : string)
  | st_success (msg : string)
  | st_info (msg : string)
  | st_warning (msg : string)
  | st_caption (msg : string).

(** The value of [st.session_state["otp_ctx"]]. *)
Record OtpCtx := mk_ctx {
  salt : string;
  hash : string;
  expires_at : Z;
  attempts_left : Z;
  resend_at : Z;
  verified : bool;
  approver_email : string;
  booking_row : row
}.

(** The assignments [ctx["verified"] = True] and [ctx["attempts_left"] -= 1]. *)
Definition set_verified (b : bool) (ctx : OtpCtx) : OtpCtx :=
  mk_ctx (salt ctx) (hash ctx) (expires_at ctx) (attempts_left ctx)
         (resend_at ctx) b (approver_email ctx) (booking_row ctx).

Definition set_attempts_left (n : Z) (ctx : OtpCtx) : OtpCtx :=
  mk_ctx (salt ctx) (hash ctx) (expires_at ctx) n
         (resend_at ctx) (verified ctx) (approver_email ctx) (booking_row ctx).

(** [st.session_state]: the key [otp_ctx] may be absent; an absent
    [approver_pin_ok] reads as [False]. *)
Record session_state := mk_session {
  otp_ctx : option OtpCtx;
  approver_pin_ok : bool
}.

(** The files and the session, with [outbox] recording every call of
    [send_otp_email_to_approver] (recipient, passcode), latest last. *)
Record world := mk_world {
  bookings : DataFrame;
  session : session_state;
  otp_rate : gmap string Z;
  outbox : list (string * string)
}.

Definition set_bookings (df : DataFrame) (w : world) : world :=
  mk_world df (session w) (otp_rate w) (outbox w).
Definition set_session (ss : session_state) (w : world) : world :=
  mk_world (bookings w) ss (otp_rate w) (outbox w).
Definition set_otp_rate (data : gmap string Z) (w : world) : world :=
  mk_world (bookings w) (session w) data (outbox w).
Definition log_mail (to_email otp_plain : string) (w : world) : world :=
  mk_world (bookings w) (session w) (otp_rate w)
           (outbox w ++ [(to_email, otp_plain)]).

(** [save_bookings(up_df)] unless [err_msgs] is non-empty. *)
Definition upload_click (up_df : DataFrame) (w : world) : py (world * list ui) :=
  err_msgs ← upload_err_msgs up_df;
  match err_msgs with
  | [] => Ret (set_bookings up_df w, [st_success "Bookings uploaded and saved."])
  | _ => Ret (w, [st_error ("Upload blocked due to overlaps:\n- "
                            +:+ join "\n- " (firstn 10 err_msgs)
                            +:+ (if (10 <? length err_msgs)%nat
                                 then "\n..." else ""))])
  end.

(* ------------------------------------------------------------------ *)
(** * Settings, secrets and the outside world *)

Definition OTP_LENGTH : nat := 6.
Definition OTP_TTL_MINUTES : Z := 5.
Definition OTP_MAX_ATTEMPTS : Z := 5.
Definition OTP_RESEND_COOLDOWN_SECONDS : Z := 45.
Definition OTP_DAILY_LIMIT : Z := 50.

(** The entries of [st.secrets] that the program reads. *)
Record secrets := mk_secrets {
  APPROVER_EMAIL : string;
  APPROVER_PIN : string;
  SMTP_HOST : string;
  SMTP_PORT : Z;
  SMTP_USER : string;
  SMTP_PASS : string;
  SMTP_FROM : string
}.

(** What one script run reads from outside: the UTC clock
    ([otp_now_utc_ts], and the day that [otp_bucket_key] formats), the
    draws of [otp_random] and [otp_salt], the exception text of the SMTP
    conversation if it fails, and [datetime.now(IST).isoformat()]. *)
Record env := mk_env {
  now_utc_ts : Z;
  utc_day : string;
  otp_random : string;
  otp_salt : string;
  smtp_exception : option string;
  now_iso : string
}.

Definition nonempty (s : string) : bool :=
  match s with
  | EmptyString => false
  | _ => true
  end.

(** The character class [[^@\s]]. *)
Definition email_char (c : ascii) : bool :=
  negb (Ascii.eqb c "@") && negb (Str.is_space c).

Fixpoint all_email_chars (s : string) : bool :=
  match s with
  | EmptyString => true
  | String c s' => email_char c && all_email_chars s'
  end.

(** Some dot of [s] is followed by at least one more character. *)
Fixpoint dot_before_end (s : string) : bool :=
  match s with
  | EmptyString => false
  | String c s' => (Ascii.eqb c "." && nonempty s') || dot_before_end s'
  end.

(** [is_email]: the stripped text matches [^[^@\s]+@[^@\s]+\.[^@\s]+$],
    that is: one [@], no blank, a non-empty local part, and after the [@]
    a dot that is neither the first nor the last character. *)
Definition is_email (s : string) : bool :=
  match Str.split "@" (Str.strip s) with
  | [loc; dom] =>
      nonempty loc && all_email_chars loc && all_email_chars dom
      && match dom with
         | String _ rest => dot_before_end rest
         | EmptyString => false
         end
  | _ => false
  end.

Definition otp_bucket_key (e : env) (identifier : string) : string :=
  identifier +:+ "::" +:+ utc_day e.

(** [int(data.get(k, 0))] *)
Definition rate_count (data : gmap string Z) (k : string) : Z :=
  default 0 (data !! k).

Definition otp_can_send (e : env) (identifier : string) (data : gmap string Z)
  : bool * Z :=
  let c := rate_count data (otp_bucket_key e identifier) in
  (c <? OTP_DAILY_LIMIT, OTP_DAILY_LIMIT - c).

Definition otp_inc_send (e : env) (identifier : string) (data : gmap string Z)
  : gmap string Z :=
  let k := otp_bucket_key e identifier in
  <[k := rate_count data k + 1]> data.

Definition otp_reset (ss : session_state) : session_state :=
  mk_session None false.

(** [send_otp_email_to_approver]: the configuration check, then the SMTP
    conversation, whose outcome is read from [e]. *)
Definition send_otp_email_to_approver (cfg : secrets) (e : env)
    (to_email otp_plain : string) : bool * string :=
  if negb (nonempty (SMTP_HOST cfg) && negb (SMTP_PORT cfg =? 0)
           && nonempty (SMTP_USER cfg) && nonempty (SMTP_PASS cfg)
           && nonempty (SMTP_FROM cfg) && is_email to_email)
  then (false, "Email gateway not configured correctly.")
  else match smtp_exception e with
       | None => (true, "OTP emailed to approver.")
       | Some exn => (false, "Email error: " +:+ exn)
       end.

(* ------------------------------------------------------------------ *)
(** * OTP session, and the handlers of the page *)

(** [hashlib.sha256(b).hexdigest()] on the UTF-8 bytes of a text: the
    program is verified for whatever function this is. *)
Class Sha256 := sha256_hexdigest : string -> string.

Section Otp.

Context `{Sha256}.

Definition otp_hash (otp salt_ : string) : string :=
  sha256_hexdigest (salt_ +:+ ":" +:+ otp).

Definition otp_start_session (e : env) (booking_row_ : row)
    (approver_email_ : string) (ss : session_state) : session_state * string :=
  let otp_plain := otp_random e in
  let salt_ := otp_salt e in
  (mk_session
     (Some {| salt := salt_;
              hash := otp_hash otp_plain salt_;
              expires_at := now_utc_ts e + OTP_TTL_MINUTES * 60;
              attempts_left := OTP_MAX_ATTEMPTS;
              resend_at := now_utc_ts e + OTP_RESEND_COOLDOWN_SECONDS;
              verified := false;
              approver_email := approver_email_;
              booking_row := booking_row_ |})
     (approver_pin_ok ss),
   otp_plain).

Definition otp_resend (e : env) (ss : session_state)
  : session_state * (bool * string) :=
  match otp_ctx ss with
  | None => (ss, (false, "No OTP session."))
  | Some ctx =>
      let new_plain := otp_random e in
      let new_salt := otp_salt e in
      (mk_session
         (Some {| salt := new_salt;
                  hash := otp_hash new_plain new_salt;
                  expires_at := now_utc_ts e + OTP_TTL_MINUTES * 60;
                  attempts_left := OTP_MAX_ATTEMPTS;
                  resend_at := now_utc_ts e + OTP_RESEND_COOLDOWN_SECONDS;
                  verified := false;
                  approver_email := approver_email ctx;
                  booking_row := booking_row ctx |})
         (approver_pin_ok ss),
       (true, new_plain))
  end.

Definition otp_verify (e : env) (user_otp : string) (ss : session_state)
  : session_state * (bool * string) :=
  match otp_ctx ss with
  | None => (ss, (false, "Session missing."))
  | Some ctx =>
      if verified ctx then (ss, (true, "Already verified."))
      else if now_utc_ts e >? expires_at ctx then
        (ss, (false, "OTP expired. Please resend."))
      else if attempts_left ctx <=? 0 then
        (ss, (false, "Too many wrong attempts. Please resend."))
      else
        let digest := otp_hash (Str.strip user_otp) (salt ctx) in
        if String.eqb digest (hash ctx) then
          (mk_session (Some (set_verified true ctx)) (approver_pin_ok ss),
           (true, "Verified."))
        else
          let left := attempts_left ctx - 1 in
          (mk_session (Some (set_attempts_left left ctx)) (approver_pin_ok ss),
           (false, "Incorrect OTP. Attempts left: " +:+ Str.of_Z left))
  end.

(** The row that the Quick Book form of [room_card] builds. [qb_date] is
    the text of [qb_date.isoformat()]. *)
Definition quick_book_row (e : env) (room : Room)
    (qb_title qb_host qb_date : string) (qb_start qb_end : time) : row :=
  {| room_id := id room;
     room_name := name room;
     date := qb_date;
     start_time := fmt_time qb_start;
     end_time := fmt_time qb_end;
     booked_by := Str.strip qb_host;
     title := Str.strip qb_title;
     created_at := now_iso e |}.

(** [room_card], the branch [if submitted:]. *)
Definition room_card_submit (cfg : secrets) (e : env) (room : Room)
    (qb_title qb_host qb_date : string) (qb_start qb_end : time) (w : world)
  : py (world * list ui) :=
  if negb (nonempty qb_title) || negb (nonempty qb_host) then
    Ret (w, [st_error "Please provide Title and Booked By."])
  else
    let new_row := quick_book_row e room qb_title qb_host qb_date qb_start qb_end in
    err ← validate_booking new_row (bookings w);
    match err with
    | Some msg => Ret (w, [st_error msg])
    | None =>
        if negb (String.eqb (id room) "br") then
          Ret (set_bookings (bookings w ++ [new_row]) w,
               [st_success ("Booked " +:+ name room +:+ " · " +:+ date new_row
                            +:+ " " +:+ start_time new_row +:+ "–"
                            +:+ end_time new_row)])
        else if negb (is_email (APPROVER_EMAIL cfg)) then
          Ret (w, [st_error "Approver email not configured correctly on server."])
        else
          let '(ok_limit, _left) := otp_can_send e (APPROVER_EMAIL cfg) (otp_rate w) in
          if negb ok_limit then
            Ret (w, [st_error "Daily OTP limit reached for approver. Try later."])
          else
            let '(ss1, plain) :=
              otp_start_session e new_row (APPROVER_EMAIL cfg) (session w) in
            let w1 := log_mail (APPROVER_EMAIL cfg) plain (set_session ss1 w) in
            let '(ok_mail, msg_mail) :=
              send_otp_email_to_approver cfg e (APPROVER_EMAIL cfg) plain in
            if negb ok_mail then
              Ret (set_session (otp_reset ss1) w1,
                   [st_error ("Could not send OTP email: " +:+ msg_mail)])
            else
              Ret (set_otp_rate (otp_inc_send e (APPROVER_EMAIL cfg) (otp_rate w1)) w1,
                   [st_success "Request received. OTP emailed to approver for confirmation.";
                    st_caption "Once the approver confirms, this booking will be finalized."])
    end.

(** [otp_verification_panel], the button "Unlock Approval". The panel
    shows it only while a context exists and the PIN is not yet accepted. *)
Definition unlock_click (cfg : secrets) (pin_try : string) (w : world)
  : world * list ui :=
  match otp_ctx (session w) with
  | None => (w, [])
  | Some ctx =>
      if approver_pin_ok (session w) then (w, [])
      else if nonempty pin_try && String.eqb pin_try (APPROVER_PIN cfg) then
        (set_session (mk_session (otp_ctx (session w)) true) w,
         [st_success "Approval panel unlocked."])
      else (w, [st_error "Invalid PIN."])
  end.

(** [otp_verification_panel], the button "Verify OTP". *)
Definition verify_click (e : env) (user_otp : string) (w : world)
  : world * list ui :=
  match otp_ctx (session w) with
  | None => (w, [])
  | Some ctx =>
      if negb (approver_pin_ok (session w)) then (w, [])
      else if negb (nonempty user_otp && Str.isdigit user_otp
                    && (String.length user_otp =? OTP_LENGTH)%nat) then
        (w, [st_error "Please enter a valid 6-digit numeric OTP."])
      else
        let '(ss1, (ok, msg)) := otp_verify e user_otp (session w) in
        if ok then
          let r := booking_row ctx in
          (set_session (otp_reset ss1) (set_bookings (bookings w ++ [r]) w),
           [st_success ("✅ Approved & Booked: " +:+ room_name r +:+ " · "
                        +:+ date r +:+ " " +:+ start_time r +:+ "–"
                        +:+ end_time r)])
        else (set_session ss1 w, [st_error msg])
  end.

(** [otp_verification_panel], the button "Resend OTP", which is disabled
    (and so never reports a click) until [resend_at]. *)
Definition resend_click (cfg : secrets) (e : env) (w : world)
  : world * list ui :=
  match otp_ctx (session w) with
  | None => (w, [])
  | Some ctx =>
      if negb (approver_pin_ok (session w)) then (w, [])
      else
        let can_resend := now_utc_ts e >=? resend_at ctx in
        if negb can_resend then (w, [])
        else
          let '(ss1, (ok, new_plain)) := otp_resend e (session w) in
          if ok then
            let w1 := log_mail (approver_email ctx) new_plain (set_session ss1 w) in
            let '(ok_mail, msg_mail) :=
              send_otp_email_to_approver cfg e (approver_email ctx) new_plain in
            if ok_mail then (w1, [st_info "New OTP emailed to approver."])
            else (w1, [st_error ("Resend failed: " +:+ msg_mail)])
          else (set_session ss1 w, [])
  end.

(** One interaction with the page. *)
Inductive event : Type :=
  | Book (room : Room) (qb_title qb_host qb_date : string) (qb_start qb_end : time)
  | Unlock (pin_try : string)
  | Verify (user_otp : string)
  | Resend
  | Upload (up_df : DataFrame).

Definition handle (cfg : secrets) (e : env) (ev : event) (w : world)
  : py (world * list ui) :=
  match ev with
  | Book room t h d s f => room_card_submit cfg e room t h d s f w
  | Unlock pin_try => Ret (unlock_click cfg pin_try w)
  | Verify user_otp => Ret (verify_click e user_otp w)
  | Resend => Ret (resend_click cfg e w)
  | Upload up_df => upload_click up_df w
  end.

(** A script run that raises leaves the files and the session as they
    were: every handler raises, if at all, before its first write. *)
Definition step (cfg : secrets) (w : world) (x : env * event) : world :=
  match handle cfg (fst x) (snd x) w with
  | Ret (w', _) => w'
  | Raise => w
  end.

Definition run (cfg : secrets) (w : world) (xs : list (env * event)) : world :=
  fold_left (step cfg) xs w.

End Otp.

(* ------------------------------------------------------------------ *)
(** * Now and next of a room, and the defaults of the Quick Book form *)

From Stdlib Require Import Sorted.

(** A [datetime.date]: its ordinal and the text of [isoformat()]. *)
Record Date := mk_date { toordinal : Z; isoformat : string }.

(** [dt_ist(d, t)]: an instant of the IST calendar, in seconds. IST has no
    daylight saving, so the instants of a day are its midnight plus the
    time of day.  [now_ist()] is read in whole seconds: every instant it is
    compared with is a whole minute. *)
Definition dt_ist (d : Date) (t : time) : Z :=
  86400 * toordinal d + 3600 * hour t + 60 * minute t.

(** [series.apply(parse_time_str)]: raises as soon as one cell does. *)
Fixpoint apply_parse_time_str (cells : list string) : py (list time) :=
  match cells with
  | [] => Ret []
  | c :: cells' =>
      t ← parse_time_str c; ts ← apply_parse_time_str cells'; Ret (t :: ts)
  end.

(** [sort_values(by="start_time_t")] on rows paired with their parsed
    start: ascending.  pandas does not promise an order among rows of equal
    start; here they keep the order they had. *)
Fixpoint insert_by_start (x : row * time) (l : list (row * time))
  : list (row * time) :=
  match l with
  | [] => [x]
  | y :: l' =>
      if time_le (snd x) (snd y) then x :: y :: l'
      else y :: insert_by_start x l'
  end.

Definition sort_by_start (l : list (row * time)) : list (row * time) :=
  fold_right insert_by_start [] l.

(** The rows of the room on the day, parsed and sorted as the function
    does when there is at least one. *)
Definition today_rows (df : DataFrame) (room_id_ : string) (today : Date)
  : py DataFrame :=
  let rows := List.filter (fun r => String.eqb (room_id r) room_id_
                                    && String.eqb (date r) (isoformat today)) df in
  match rows with
  | [] => Ret []
  | _ =>
      starts ← apply_parse_time_str (map start_time rows);
      _ ← apply_parse_time_str (map end_time rows);
      Ret (map fst (sort_by_start (combine rows starts)))
  end.

(** The loop over the sorted rows: the row that holds [now], if one is
    met, and the first row met before it that starts after [now]. *)
Fixpoint now_next_loop (today : Date) (now : Z) (rows : DataFrame)
    (next_row : option row) : py (option row * option row) :=
  match rows with
  | [] => Ret (None, next_row)
  | r :: rows' =>
      s ← parse_time_str (start_time r);
      e ← parse_time_str (end_time r);
      let sdt := dt_ist today s in
      let edt := dt_ist today e in
      if (sdt <=? now) && (now <? edt) then Ret (Some r, next_row)
      else
        now_next_loop today now rows'
          (match next_row with
           | None => if sdt >? now then Some r else None
           | Some _ => next_row
           end)
  end.

(** The end of [room_status_for_today]: state, label, current row and
    next row, for what the loop found. *)
Definition status_result (found : option row * option row)
  : string * string * option row * option row :=
  match found with
  | (Some current_row, next_row) =>
      ("occupied",
       "Occupied · " +:+ start_time current_row +:+ "–" +:+ end_time current_row,
       Some current_row, next_row)
  | (None, Some next_row) =>
      ("available",
       "Available · Next: " +:+ start_time next_row +:+ "–" +:+ end_time next_row,
       None, Some next_row)
  | (None, None) => ("available", "Available all day", None, None)
  end.

Definition room_status_for_today (now : Z) (df : DataFrame) (room_id_ : string)
    (today : Date) : py (string * string * option row * option row) :=
  rows ← today_rows df room_id_ today;
  found ← now_next_loop today now rows None;
  Ret (status_result found).

Definition STARTING_SOON_MIN : Z := 15.

(** A double quote, for the HTML of the pills. *)
Definition dq : string := String (ascii_of_nat 34) EmptyString.

Definition span_pill (cls text : string) : string :=
  "<span class=" +:+ dq +:+ "pill " +:+ cls +:+ dq +:+ ">" +:+ text +:+ "</span>".

Definition status_pill (state : string) (starting_soon : bool) : string :=
  if String.eqb state "occupied" then span_pill "pill-red" "Occupied"
  else if starting_soon then span_pill "pill-amber" "Starting Soon"
  else span_pill "pill-green" "Available".

(** The head of [room_card]: the pill it shows. [now] is the clock as
    [room_status_for_today] read it, [now2] as [room_card] reads it
    afterwards for the time left until the next meeting. *)
Definition room_card_pill (now now2 : Z) (df : DataFrame) (room : Room)
    (today : Date) : py string :=
  status ← room_status_for_today now df (id room) today;
  let '(state, _, _, next_row) := status in
  starting_soon ←
    (match next_row with
     | Some r =>
         if String.eqb state "available" then
           ns ← parse_time_str (start_time r);
           let diff := dt_ist today ns - now2 in
           Ret ((diff <=? STARTING_SOON_MIN * 60) && (diff >? 0))
         else Ret false
     | None => Ret false
     end);
  Ret (status_pill state starting_soon).

(** The time of day of [datetime.combine(d, t) + timedelta(minutes=n)]. *)
Definition plus_minutes (t : time) (n : Z) : time :=
  let total := (60 * hour t + minute t + n) mod 1440 in
  mk_time (total / 60) (total mod 60).

(** The default of the "Start" input for the clock time [now_time]
    (seconds already dropped), and of the "End" input. *)
Definition start_default (now_time : time) : time :=
  mk_time (hour (plus_minutes now_time SLOT_MINUTES))
          (if minute now_time <? 30 then 0 else 30).

Definition end_default (now_time : time) : time :=
  plus_minutes (start_default now_time) SLOT_MINUTES.

(* ------------------------------------------------------------------ *)
(** * The properties in the words of the specification *)

(** The two time cells of a row, read as [validate_booking] reads them. *)
Definition row_times (r : row) : py (time * time) :=
  s ← parse_time_str (start_time r);
  e ← parse_time_str (end_time r);
  Ret (s, e).

(** A time inside the closed range of the business hours. *)
Definition within_hours (t : time) : Prop :=
  time_le (fst BUSINESS_HOURS) t = true /\ time_le t (snd BUSINESS_HOURS) = true.

(** A time that is a whole number of slots after midnight. *)
Definition on_slot_grid (t : time) : Prop :=
  (60 * hour t + minute t) mod SLOT_MINUTES = 0.

(** The overlap test on the half-open intervals [s1, e1) and [s2, e2):
    start1 < end2 and start2 < end1. *)
Definition intervals_overlap (s1 e1 s2 e2 : time) : Prop :=
  time_lt s1 e2 = true /\ time_lt s2 e1 = true.

(** [r] is a reservation of the room and day of [new_row]. *)
Definition same_room_and_date (new_row r : row) : Prop :=
  room_id r = room_id new_row /\ date r = date new_row.


(** The two time cells of a row, read as the upload block reads them. *)
Definition upload_times (r : row) : py (time * time) :=
  s ← strptime_HM (start_time r);
  e ← strptime_HM (end_time r);
  Ret (s, e).

(** Every row of a frame reads as two times, for each of the readers. *)
Definition readable (df : DataFrame) : Prop :=
  Forall (fun r => exists s e, row_times r = Ret (s, e)) df.

Definition upload_readable (df : DataFrame) : Prop :=
  Forall (fun r => exists s e, upload_times r = Ret (s, e)) df.

Definition fixed_room (rid : string) : Prop := In rid (map id ROOMS).

(** Every two rows of the upload that share a fixed room and a date read
    as times and do not overlap. *)
Definition upload_clean (up_df : DataFrame) : Prop :=
  forall i j r1 r2,
    (i < j)%nat -> up_df !! i = Some r1 -> up_df !! j = Some r2 ->
    fixed_room (room_id r1) ->
    room_id r2 = room_id r1 -> date r2 = date r1 ->
    exists s1 e1 s2 e2,
      upload_times r1 = Ret (s1, e1) /\ upload_times r2 = Ret (s2, e2)
      /\ ~ intervals_overlap s1 e1 s2 e2.

(** Two committed reservations of one room and date whose intervals
    overlap. *)
Definition overlapping_pair (df : DataFrame) : Prop :=
  exists i j r1 r2 s1 e1 s2 e2,
    (i < j)%nat /\ df !! i = Some r1 /\ df !! j = Some r2
    /\ room_id r2 = room_id r1 /\ date r2 = date r1
    /\ row_times r1 = Ret (s1, e1) /\ row_times r2 = Ret (s2, e2)
    /\ intervals_overlap s1 e1 s2 e2.

(** The no-overlap invariant on the rooms of the dashboard: every two
    committed reservations of one fixed room and date read as times and do
    not overlap. *)
Definition no_overlap_fixed (df : DataFrame) : Prop :=
  forall i j r1 r2,
    (i < j)%nat -> df !! i = Some r1 -> df !! j = Some r2 ->
    fixed_room (room_id r1) ->
    room_id r2 = room_id r1 -> date r2 = date r1 ->
    exists s1 e1 s2 e2,
      row_times r1 = Ret (s1, e1) /\ row_times r2 = Ret (s2, e2)
      /\ ~ intervals_overlap s1 e1 s2 e2.

(** The state after an upload; a run that raises has written nothing. *)
Definition after_upload (up_df : DataFrame) (w : world) : world :=
  match upload_click up_df w with
  | Ret (w', _) => w'
  | Raise => w
  end.

(** Consecutive calls of [otp_verify], each with its clock and candidate:
    the session after the last one and the results in order. *)
Fixpoint otp_verify_each `{Sha256} (xs : list (env * string)) (ss : session_state)
  : session_state * list (bool * string) :=
  match xs with
  | [] => (ss, [])
  | (e, user_otp) :: xs' =>
      let '(ss1, r) := otp_verify e user_otp ss in
      let '(ss2, rs) := otp_verify_each xs' ss1 in
      (ss2, r :: rs)
  end.

(** The candidate [user_otp] does not hash to the stored digest of [ctx]. *)
Definition digest_mismatch `{Sha256} (user_otp : string) (ctx : OtpCtx) : Prop :=
  otp_hash (Str.strip user_otp) (salt ctx) <> hash ctx.

(** A value that [datetime.time] can hold. *)
Definition valid_time (t : time) : Prop :=
  0 <= hour t < 24 /\ 0 <= minute t < 60.

(** [parse_time_str] reads back what [fmt_time] wrote for hour [h] and
    minute [m]. *)
Definition reads_back (h m : Z) : bool :=
  match parse_time_str (fmt_time (mk_time h m)) with
  | Ret t => (hour t =? h) && (minute t =? m)
  | Raise => false
  end.

(* ------------------------------------------------------------------ *)
(** * Further notions used to state what the code does *)

(** [strptime] reads back what [fmt_time] wrote for hour [h], minute [m]. *)
Definition reads_back_upload (h m : Z) : bool :=
  match strptime_HM (fmt_time (mk_time h m)) with
  | Ret t => (hour t =? h) && (minute t =? m)
  | Raise => false
  end.

(** The clicks of the approval panel. *)
Definition panel_event (ev : event) : bool :=
  match ev with
  | Unlock _ | Verify _ | Resend => true
  | Book _ _ _ _ _ _ | Upload _ => false
  end.

(** The line that the upload block reports for the rows [r1], [r2]. *)
Definition overlap_message (r1 r2 : row) : string :=
  "Overlap in " +:+ room_id r1 +:+ " on " +:+ date r1 +:+ ": "
  +:+ start_time r1 +:+ "-" +:+ end_time r1 +:+ " vs "
  +:+ start_time r2 +:+ "-" +:+ end_time r2.

(** [r] is a row of the room on the day that reads as the times [s], [e]. *)
Definition row_of_day (df : DataFrame) (room_id_ : string) (today : Date)
    (r : row) (s e : time) : Prop :=
  In r df /\ room_id r = room_id_ /\ date r = isoformat today
  /\ row_times r = Ret (s, e).

(** The interval of [s], [e] on the day holds the instant [now]. *)
Definition holds_now (today : Date) (now : Z) (s e : time) : Prop :=
  dt_ist today s <= now < dt_ist today e.

(** The default times of the form agree with the slot grid, and the end
    is half an hour after the start (checked for one clock time). *)
Definition defaults_ok (h m : Z) : bool :=
  let s := start_default (mk_time h m) in
  let e := end_default (mk_time h m) in
  (0 <=? hour s) && (hour s <? 24) && ((minute s =? 0) || (minute s =? 30))
  && (0 <=? hour e) && (hour e <? 24) && ((minute e =? 0) || (minute e =? 30))
  && ((60 * hour e + minute e) =? (60 * hour s + minute s + 30) mod 1440)
  && (if m <? 30 then (hour s =? h) && (minute s =? 0)
      else (hour s =? (h + 1) mod 24) && (minute s =? 30)).

(** What [otp_verify] may change of a context: the attempts, downwards
    and not below zero, and the verified flag, upwards. *)
Definition verify_frame (ctx ctx' : OtpCtx) : Prop :=
  salt ctx' = salt ctx /\ hash ctx' = hash ctx
  /\ expires_at ctx' = expires_at ctx /\ resend_at ctx' = resend_at ctx
  /\ approver_email ctx' = approver_email ctx
  /\ booking_row ctx' = booking_row ctx
  /\ attempts_left ctx' <= attempts_left ctx
  /\ (0 <= attempts_left ctx -> 0 <= attempts_left ctx')
  /\ (verified ctx = true -> verified ctx' = true).

(** Rows paired with their parsed start are in ascending order of it. *)
Definition key_le (a b : row * time) : Prop := time_le (snd a) (snd b) = true.

(** Every row of the room on the day reads as two times. *)
Definition day_readable (df : DataFrame) (room_id_ : string) (today : Date) : Prop :=
  forall r, In r df -> room_id r = room_id_ -> date r = isoformat today ->
            exists s e, row_times r = Ret (s, e).

(** [n] is a row of the day that starts after [now], and none that starts
    after [now] starts earlier. *)
Definition earliest_upcoming (df : DataFrame) (room_id_ : string) (today : Date)
    (now : Z) (n : row) (s : time) : Prop :=
  (exists e, row_of_day df room_id_ today n s e)
  /\ now < dt_ist today s
  /\ forall r s' e', row_of_day df room_id_ today r s' e' ->
                     now < dt_ist today s' -> dt_ist today s <= dt_ist today s'.

(** The pairs that the loop runs over: each row with the start it reads
    as, and with an end that reads. *)
Definition parsed_pairs (l : list (row * time)) : Prop :=
  Forall (fun p => parse_time_str (start_time (fst p)) = Ret (snd p)
                   /\ exists e, parse_time_str (end_time (fst p)) = Ret e) l.

(* ------------------------------------------------------------------ *)
(** * Concrete rows and states used in the examples *)

Definition booking (rid d s e : string) : row :=
  mk_row rid "" d s e "host" "title" "".

(** The example of the specification: Meeting Room 1 on 2024-01-01. *)
Definition existing_10_11 : row := booking "mr1" "2024-01-01" "10:00" "11:00".
Definition cand_1030_1130 : row := booking "mr1" "2024-01-01" "10:30" "11:30".
Definition cand_11_1130 : row := booking "mr1" "2024-01-01" "11:00" "11:30".

Definition empty_world : world :=
  mk_world [] (mk_session None false) ∅ [].

(** Two overlapping rows of a room that is not one of [ROOMS]. *)
Definition up_unknown_room : DataFrame :=
  [ booking "annex" "2024-01-01" "10:00" "11:00";
    booking "annex" "2024-01-01" "10:30" "11:30" ].

(** Two overlapping rows of Meeting Room 1, and two that abut. *)
Definition up_overlap_mr1 : DataFrame := [existing_10_11; cand_1030_1130].
Definition up_abutting_mr1 : DataFrame := [existing_10_11; cand_11_1130].

Definition world_with (df : DataFrame) : world :=
  mk_world df (mk_session None false) ∅ [].

(** A stand-in for SHA-256 in the concrete runs: the text itself. *)
Definition text_digest : Sha256 := fun s => s.

Definition demo_secrets : secrets :=
  mk_secrets "boss@example.com" "4321" "smtp.example.com" 465
             "bot@example.com" "secret" "bot@example.com".

(** A run at UTC second [now] that draws the passcode [otp] and the salt
    "5a17", and whose SMTP conversation succeeds. *)
Definition env_at (now : Z) (otp : string) : env :=
  mk_env now "2024-01-01" otp "5a17" None "2024-01-01T10:00:00+05:30".


Definition mr1 : Room := mk_room "mr1" "Meeting Room 1".
Definition br : Room := mk_room "br" "Board Room".

(** A board-room request for 10:00-11:00 is pending when a bookings file
    holding a board-room reservation for 10:30-11:30 is uploaded; then the
    approver unlocks the panel and enters the passcode that was mailed. *)
Definition stale_approval : list (env * event) :=
  [ (env_at 1000 "123456",
      Book br "Board meeting" "Ann" "2024-01-01" (mk_time 10 0) (mk_time 11 0));
    (env_at 1010 "", Upload [booking "br" "2024-01-01" "10:30" "11:30"]);
    (env_at 1020 "", Unlock "4321");
    (env_at 1030 "", Verify "123456") ].

Definition pending_10_11 : row :=
  quick_book_row (env_at 1000 "123456") br "Board meeting" "Ann" "2024-01-01"
                 (mk_time 10 0) (mk_time 11 0).

(** The context that the request of [stale_approval] leaves pending. *)
Definition pending_ctx `{Sha256} : OtpCtx :=
  mk_ctx "5a17" (otp_hash "123456" "5a17") 1300 5 1045 false
         "boss@example.com" pending_10_11.

(** The state of [stale_approval] before the passcode is entered. *)
Definition before_approval `{Sha256} : world :=
  mk_world [booking "br" "2024-01-01" "10:30" "11:30"]
           (mk_session (Some pending_ctx) true)
           (<["boss@example.com::2024-01-01" := 1]> ∅)
           [("boss@example.com", "123456")].

(** A state in which the same request is pending, the panel is unlocked
    and the store holds a board-room reservation for 11:00-12:00. *)
Definition approval_ready `{Sha256} : world :=
  mk_world [booking "br" "2024-01-01" "11:00" "12:00"]
           (mk_session (Some pending_ctx) true)
           (<["boss@example.com::2024-01-01" := 1]> ∅)
           [("boss@example.com", "123456")].

(** A session that is already verified, and whose passcode expired at
    second 1300 with no attempt left. *)
Definition verified_ctx : OtpCtx :=
  mk_ctx "5a17" "d1g357" 1300 5 1045 true "boss@example.com" pending_10_11.

Definition spent_ctx : OtpCtx :=
  mk_ctx "5a17" "d1g357" 1300 0 1045 false "boss@example.com" pending_10_11.

Definition session_of (ctx : OtpCtx) : session_state := mk_session (Some ctx) true.

(** The session that a request made at second 1000 starts, with the
    passcode 123456; five wrong candidates entered before it expires. *)
Definition fresh_session `{Sha256} : session_state :=
  fst (otp_start_session (env_at 1000 "123456") pending_10_11
                         "boss@example.com" (mk_session None true)).

Definition five_wrong : list (env * string) :=
  [ (env_at 1010 "", "000000"); (env_at 1020 "", "111111");
    (env_at 1030 "", "222222"); (env_at 1040 "", "333333");
    (env_at 1050 "", "444444") ].

(** A resend at second [now] that draws the passcode [otp] and the salt
    "77c0". *)
Definition env_resend (now : Z) (otp : string) : env :=
  mk_env now "2024-01-01" otp "77c0" None "2024-01-01T10:00:00+05:30".

(** A state in which the approver was mailed 50 passcodes on 2024-01-01. *)
Definition limit_reached : world :=
  mk_world [] (mk_session None false)
           (<["boss@example.com::2024-01-01" := 50]> ∅) [].

(** A day, and rows of Meeting Room 1 on it, for the status of the room. *)
Definition jan_1 : Date := mk_date 738886 "2024-01-01".

Definition day_rows : DataFrame :=
  [ booking "mr1" "2024-01-01" "14:00" "15:00";
    booking "mr2" "2024-01-01" "10:00" "12:00";
    booking "mr1" "2024-01-01" "10:00" "11:00";
    booking "mr1" "2024-01-01" "11:00" "12:00" ].

(** The instant [h]:[m]:[s] of [jan_1]. *)
Definition jan_1_at (h m s : Z) : Z := 86400 * 738886 + 3600 * h + 60 * m + s.

(** A state with the request of [stale_approval] pending and the panel
    still locked. *)
Definition locked_pending `{Sha256} : world :=
  mk_world [] (mk_session (Some pending_ctx) false)
           (<["boss@example.com::2024-01-01" := 1]> ∅)
           [("boss@example.com", "123456")].

(* ------------------------------------------------------------------ *)
(** * Lemmas: order of times *)

Lemma time_lt_true a b :
  time_lt a b = true <->
  hour a < hour b \/ (hour a = hour b /\ minute a < minute b).
Proof.
  unfold time_lt. rewrite orb_true_iff, andb_true_iff, !Z.ltb_lt, Z.eqb_eq.
  tauto.
Qed.

Lemma time_le_true a b :
  time_le a b = true <->
  hour a < hour b \/ (hour a = hour b /\ minute a <= minute b).
Proof.
  unfold time_le.
  rewrite orb_true_iff, andb_true_iff, Z.ltb_lt, Z.leb_le, Z.eqb_eq. tauto.
Qed.

Lemma time_lt_false a b :
  time_lt a b = false <->
  ~ (hour a < hour b \/ (hour a = hour b /\ minute a < minute b)).
Proof. rewrite <- time_lt_true. now destruct (time_lt a b). Qed.

Lemma time_le_false a b :
  time_le a b = false <->
  ~ (hour a < hour b \/ (hour a = hour b /\ minute a <= minute b)).
Proof. rewrite <- time_le_true. now destruct (time_le a b). Qed.

(** Goals about the order of times, reduced to linear arithmetic. *)
Ltac time_order :=
  unfold intervals_overlap, within_hours, overlaps, upload_overlaps,
         time_gt, BUSINESS_HOURS in *;
  cbn [fst snd] in *;
  rewrite ?andb_true_iff, ?andb_false_iff in *;
  rewrite ?time_lt_true, ?time_lt_false, ?time_le_true, ?time_le_false in *;
  cbn [hour minute] in *; lia.

Lemma overlaps_sym s1 e1 s2 e2 : overlaps s1 e1 s2 e2 = overlaps s2 e2 s1 e1.
Proof. unfold overlaps. apply andb_comm. Qed.

Lemma overlaps_iff s1 e1 s2 e2 :
  overlaps s1 e1 s2 e2 = true <-> intervals_overlap s1 e1 s2 e2.
Proof. unfold overlaps, intervals_overlap. apply andb_true_iff. Qed.

Lemma upload_overlaps_eq a1 a2 b1 b2 :
  upload_overlaps a1 a2 b1 b2 = overlaps a1 a2 b1 b2.
Proof. reflexivity. Qed.

Lemma minute_on_grid t : minute t mod SLOT_MINUTES = 0 <-> on_slot_grid t.
Proof.
  unfold on_slot_grid, SLOT_MINUTES.
  replace (60 * hour t + minute t) with (minute t + (2 * hour t) * 30) by lia.
  now rewrite Z.mod_add.
Qed.

(* ------------------------------------------------------------------ *)
(** * Lemmas: [validate_booking] *)

Lemma row_times_Ret r s e :
  row_times r = Ret (s, e) <->
  parse_time_str (start_time r) = Ret s /\ parse_time_str (end_time r) = Ret e.
Proof.
  unfold row_times.
  destruct (parse_time_str (start_time r)); simpl;
    [destruct (parse_time_str (end_time r)); simpl|]; split;
    try (intros [? ?]); try intros ?; try split; congruence.
Qed.

Lemma first_conflict_None start_t end_t rows :
  first_conflict start_t end_t rows = Ret None <->
  Forall (fun r => exists s2 e2, row_times r = Ret (s2, e2)
                                 /\ overlaps start_t end_t s2 e2 = false) rows.
Proof.
  induction rows as [|r rows IH]; simpl.
  - split; [constructor | reflexivity].
  - rewrite Forall_cons_iff, <- IH. clear IH. unfold row_times.
    destruct (parse_time_str (start_time r)) as [s2|]; simpl.
    2: { split; [discriminate | intros [(? & ? & ? & _) _]; discriminate]. }
    destruct (parse_time_str (end_time r)) as [e2|]; simpl.
    2: { split; [discriminate | intros [(? & ? & ? & _) _]; discriminate]. }
    destruct (overlaps start_t end_t s2 e2) eqn:Hov.
    + split; [discriminate|].
      intros [(s & e & Heq & Hno) _]. congruence.
    + split; [intros H; split; [eauto | exact H] | tauto].
Qed.

(** Every row parses: the loop returns, with a conflict or with none. *)
Lemma first_conflict_returns start_t end_t rows :
  Forall (fun r => exists s2 e2, row_times r = Ret (s2, e2)) rows ->
  exists res, first_conflict start_t end_t rows = Ret res.
Proof.
  induction 1 as [|r rows (s2 & e2 & Hr) _ IH]; simpl; [eauto|].
  apply row_times_Ret in Hr as [-> ->]. simpl.
  destruct (overlaps start_t end_t s2 e2); eauto.
Qed.

Lemma elem_of_same_day new_row df r :
  In r (same_day new_row df) <-> In r df /\ same_room_and_date new_row r.
Proof.
  unfold same_day, same_room_and_date. rewrite filter_In, andb_true_iff.
  now rewrite !String.eqb_eq.
Qed.

(** The accepting runs of [validate_booking], check by check. *)
Lemma validate_booking_None new_row df :
  validate_booking new_row df = Ret None <->
  exists start_t end_t,
    row_times new_row = Ret (start_t, end_t)
    /\ time_le end_t start_t = false
    /\ time_lt start_t (fst BUSINESS_HOURS) = false
    /\ time_gt end_t (snd BUSINESS_HOURS) = false
    /\ minute start_t mod SLOT_MINUTES = 0
    /\ minute end_t mod SLOT_MINUTES = 0
    /\ Forall (fun r => exists s2 e2, row_times r = Ret (s2, e2)
                                      /\ overlaps start_t end_t s2 e2 = false)
              (same_day new_row df).
Proof.
  split.
  - unfold validate_booking. intros H.
    destruct (parse_time_str (start_time new_row)) as [s|] eqn:Hs;
      cbn [mbind py_bind] in H; [|discriminate].
    destruct (parse_time_str (end_time new_row)) as [e|] eqn:He;
      cbn [mbind py_bind] in H; [|discriminate].
    exists s, e. split; [now apply row_times_Ret|].
    destruct (time_le e s); [discriminate|].
    destruct (time_lt s (fst BUSINESS_HOURS)); [discriminate|].
    destruct (time_gt e (snd BUSINESS_HOURS)); [discriminate|].
    cbn [orb existsb] in H.
    destruct (Z.eqb_spec (minute s mod SLOT_MINUTES) 0); [|discriminate].
    destruct (Z.eqb_spec (minute e mod SLOT_MINUTES) 0); [|discriminate].
    cbn [negb orb] in H. apply first_conflict_None in H. tauto.
  - intros (s & e & Heq & H1 & H2 & H3 & H4 & H5 & H6).
    apply row_times_Ret in Heq as [Hs He].
    unfold validate_booking. rewrite Hs, He. cbn [mbind py_bind].
    rewrite H1, H2, H3. cbn [orb existsb].
    rewrite H4, H5. cbn [Z.eqb negb orb]. now apply first_conflict_None.
Qed.

Lemma validate_booking_returns new_row df start_t end_t :
  row_times new_row = Ret (start_t, end_t) ->
  readable df ->
  exists res, validate_booking new_row df = Ret res.
Proof.
  intros Hnew Hdf. apply row_times_Ret in Hnew as [Hs He].
  unfold validate_booking. rewrite Hs, He. cbn [mbind py_bind].
  destruct (time_le end_t start_t); [eauto|].
  destruct (_ || _); [eauto|].
  destruct (existsb _ _); [eauto|].
  apply first_conflict_returns.
  unfold readable in Hdf. rewrite List.Forall_forall in Hdf |- *.
  intros r Hr. apply Hdf. now apply elem_of_same_day in Hr as [? _].
Qed.

(** C4. ConflictValidator: for a candidate whose cells read as the times
    [start_t], [end_t] and a store whose rows all read as times,
    [validate_booking] returns no error exactly when end > start, both
    times lie within 09:00..19:00, both are on the 30-minute grid, and the
    half-open interval of the candidate overlaps (start1 < end2 and
    start2 < end1) no existing reservation of the same room and date.  In
    particular a candidate that passes the first three checks and that
    every reservation of its room and date ends no later than its start
    (abutting when equal) or starts no earlier than its end is accepted,
    and a candidate overlapping one of them is rejected with a message. *)
Theorem validate_booking_accepts_iff (new_row : row) (df : DataFrame)
    (start_t end_t : time) :
  row_times new_row = Ret (start_t, end_t) ->
  readable df ->
  (validate_booking new_row df = Ret None <->
     time_lt start_t end_t = true
     /\ within_hours start_t /\ within_hours end_t
     /\ on_slot_grid start_t /\ on_slot_grid end_t
     /\ forall r s2 e2,
          In r df -> same_room_and_date new_row r ->
          row_times r = Ret (s2, e2) ->
          ~ intervals_overlap start_t end_t s2 e2)
  /\ (time_lt start_t end_t = true ->
      within_hours start_t -> within_hours end_t ->
      on_slot_grid start_t -> on_slot_grid end_t ->
      (forall r s2 e2,
          In r df -> same_room_and_date new_row r ->
          row_times r = Ret (s2, e2) ->
          time_le e2 start_t = true \/ time_le end_t s2 = true) ->
      validate_booking new_row df = Ret None)
  /\ (forall r s2 e2,
        In r df -> same_room_and_date new_row r ->
        row_times r = Ret (s2, e2) ->
        intervals_overlap start_t end_t s2 e2 ->
        exists msg, validate_booking new_row df = Ret (Some msg)).
Proof.
  intros Hnew Hdf.
  assert (Hiff : validate_booking new_row df = Ret None <->
     time_lt start_t end_t = true
     /\ within_hours start_t /\ within_hours end_t
     /\ on_slot_grid start_t /\ on_slot_grid end_t
     /\ forall r s2 e2,
          In r df -> same_room_and_date new_row r ->
          row_times r = Ret (s2, e2) ->
          ~ intervals_overlap start_t end_t s2 e2).
  { rewrite validate_booking_None. split.
    - intros (s & e & Heq & Hle & Hopen & Hclose & Hms & Hme & Hall).
      assert (s = start_t /\ e = end_t) as [-> ->] by (split; congruence).
      apply minute_on_grid in Hms, Hme.
      split_and!; try assumption; try (clear - Hle Hopen Hclose; time_order).
      intros r s2 e2 Hr Hsame Hrt Hov.
      rewrite List.Forall_forall in Hall.
      destruct (Hall r) as (s2' & e2' & Hrt' & Hno).
      { apply elem_of_same_day. now split. }
      assert (s2' = s2 /\ e2' = e2) as [-> ->] by (split; congruence).
      apply overlaps_iff in Hov. congruence.
    - intros (Hlt & Hs & He & Hgs & Hge & Hall).
      exists start_t, end_t.
      apply minute_on_grid in Hgs, Hge.
      split_and!; try assumption; try (clear - Hlt Hs He; time_order).
      rewrite List.Forall_forall. intros r Hr.
      apply elem_of_same_day in Hr as [Hr Hsame].
      unfold readable in Hdf. rewrite List.Forall_forall in Hdf.
      destruct (Hdf r Hr) as (s2 & e2 & Hrt).
      exists s2, e2. split; [assumption|].
      destruct (overlaps start_t end_t s2 e2) eqn:Hov; [|reflexivity].
      apply overlaps_iff in Hov. now destruct (Hall r s2 e2). }
  split; [exact Hiff|]. split.
  - intros Hlt Hs He Hgs Hge Hall. apply Hiff.
    split_and!; try assumption.
    intros r s2 e2 Hr Hsame Hrt Hov.
    destruct (Hall r s2 e2 Hr Hsame Hrt) as [H|H]; clear - H Hov; time_order.
  - intros r s2 e2 Hr Hsame Hrt Hov.
    destruct (validate_booking_returns new_row df start_t end_t Hnew Hdf)
      as [[msg|] Hres]; [eauto|].
    apply Hiff in Hres as (_ & _ & _ & _ & _ & Hall).
    now destruct (Hall r s2 e2).
Qed.

(** The example of the specification, through the theorem: next to the
    reservation 10:00-11:00 the abutting candidate 11:00-11:30 is accepted. *)
Lemma validate_booking_accepts_iff_witness :
  row_times cand_11_1130 = Ret (mk_time 11 0, mk_time 11 30)
  /\ readable [existing_10_11]
  /\ validate_booking cand_11_1130 [existing_10_11] = Ret None.
Proof.
  assert (H1 : row_times cand_11_1130 = Ret (mk_time 11 0, mk_time 11 30))
    by reflexivity.
  assert (H2 : readable [existing_10_11]).
  { repeat constructor. exists (mk_time 10 0), (mk_time 11 0). reflexivity. }
  split; [exact H1|]. split; [exact H2|].
  apply (proj1 (proj2 (validate_booking_accepts_iff _ _ _ _ H1 H2)));
    try (vm_compute; auto; fail).
  intros r s2 e2 [<-|[]] _ Hrt. vm_compute in Hrt.
  injection Hrt as <- <-. left. reflexivity.
Defined.

Example validate_overlapping_rejected :
  validate_booking cand_1030_1130 [existing_10_11]
  = Ret (Some "Conflict with existing booking 10:00–11:00.").
Proof. reflexivity. Qed.

Example validate_off_grid_rejected :
  validate_booking (booking "mr1" "2024-01-01" "09:15" "10:00") []
  = Ret (Some "Time must align with 30-minute slots (e.g., 09:00, 09:30, 10:00).")
  /\ validate_booking (booking "mr1" "2024-01-01" "09:30" "10:00") [] = Ret None.
Proof. split; reflexivity. Qed.

Example validate_hours_rejected :
  validate_booking (booking "mr1" "2024-01-01" "08:30" "10:00") []
  = Ret (Some "Booking must be within business hours 09:00–19:00.")
  /\ validate_booking (booking "mr1" "2024-01-01" "18:30" "19:30") []
     = Ret (Some "Booking must be within business hours 09:00–19:00.")
  /\ validate_booking (booking "mr1" "2024-01-01" "10:00" "10:00") []
     = Ret (Some "End time must be after start time.").
Proof. repeat split; reflexivity. Qed.

(* ------------------------------------------------------------------ *)
(** * Lemmas: [fmt_time] and [parse_time_str] *)

Lemma reads_back_all :
  forallb (fun h => forallb (fun m => reads_back (Z.of_nat h) (Z.of_nat m))
                            (seq 0 60)) (seq 0 24) = true.
Proof. vm_compute. reflexivity. Qed.

(** The text that the form writes for a time reads back as that time. *)
Lemma parse_fmt_time t : valid_time t -> parse_time_str (fmt_time t) = Ret t.
Proof.
  destruct t as [h m]. intros [Hh Hm]. cbn [hour minute] in Hh, Hm.
  pose proof reads_back_all as Hall.
  rewrite forallb_forall in Hall.
  specialize (Hall (Z.to_nat h)). rewrite forallb_forall in Hall.
  assert (Hr : reads_back (Z.of_nat (Z.to_nat h)) (Z.of_nat (Z.to_nat m)) = true).
  { apply Hall; apply in_seq; lia. }
  rewrite !Z2Nat.id in Hr by lia. unfold reads_back in Hr.
  destruct (parse_time_str (fmt_time (mk_time h m))) as [[h' m']|]; [|discriminate].
  cbn [hour minute] in Hr. apply andb_true_iff in Hr as [->%Z.eqb_eq ->%Z.eqb_eq].
  reflexivity.
Qed.

Lemma quick_book_row_times e room t h d s f :
  valid_time s -> valid_time f ->
  row_times (quick_book_row e room t h d s f) = Ret (s, f).
Proof.
  intros Hs Hf. apply row_times_Ret. cbn [quick_book_row start_time end_time].
  split; now apply parse_fmt_time.
Qed.

(* ------------------------------------------------------------------ *)
(** * Lemmas: the two readers of a time cell *)

Lemma digit_facts c :
  Str.is_digit c = true ->
  Str.is_space c = false /\ Ascii.eqb c "+" = false /\ Ascii.eqb c "-" = false
  /\ 0 <= Str.digit_val c <= 9.
Proof.
  destruct c as [[] [] [] [] [] [] [] []]; vm_compute;
    try discriminate; intros _; repeat split; congruence.
Qed.

Lemma digit_not_int_space c :
  Str.is_digit c = true -> Str.is_int_space c = false.
Proof.
  destruct c as [[] [] [] [] [] [] [] []]; vm_compute;
    try discriminate; reflexivity.
Qed.

Lemma digits12_int s n : digits12 s = Ret n -> Str.int s = Ret n /\ 0 <= n.
Proof.
  destruct s as [|a [|b [|? ?]]]; simpl; try discriminate.
  - destruct (Str.is_digit a) eqn:Ha; [|discriminate]. intros [= <-].
    destruct (digit_facts a Ha) as (_ & Hp & Hm & Hv).
    unfold Str.int. cbn [Str.int_lstrip].
    rewrite (digit_not_int_space a Ha), Hp, Hm.
    cbn [Str.int_digits]. rewrite Ha. cbn [Str.int_digits].
    split; [reflexivity | lia].
  - destruct (Str.is_digit a) eqn:Ha; [|discriminate].
    destruct (Str.is_digit b) eqn:Hb; [|discriminate]. simpl. intros [= <-].
    destruct (digit_facts a Ha) as (_ & Hp & Hm & Hv).
    destruct (digit_facts b Hb) as (_ & _ & _ & Hv').
    unfold Str.int. cbn [Str.int_lstrip].
    rewrite (digit_not_int_space a Ha), Hp, Hm.
    cbn [Str.int_digits]. rewrite Ha. cbn [Str.int_digits]. rewrite Hb.
    cbn [Str.int_digits]. split; [reflexivity | lia].
Qed.

(** What [strptime] accepts, [parse_time_str] reads as the same time. *)
Lemma strptime_parse_time_str s t :
  strptime_HM s = Ret t -> parse_time_str s = Ret t.
Proof.
  unfold strptime_HM, parse_time_str.
  destruct (Str.split ":" s) as [|hh [|mm [|? ?]]]; try discriminate.
  destruct (digits12 hh) as [h|] eqn:Hh; [|discriminate].
  destruct (digits12 mm) as [m|] eqn:Hm; [|discriminate].
  cbn [mbind py_bind].
  apply digits12_int in Hh as [-> Hh0], Hm as [-> Hm0]. cbn [mbind py_bind].
  unfold time_of.
  destruct (Z.leb_spec h 23), (Z.leb_spec m 59); try discriminate.
  intros [= <-].
  destruct (Z.leb_spec 0 h), (Z.ltb_spec h 24), (Z.leb_spec 0 m),
    (Z.ltb_spec m 60); try lia. reflexivity.
Qed.

Lemma upload_times_row_times r s e :
  upload_times r = Ret (s, e) -> row_times r = Ret (s, e).
Proof.
  unfold upload_times. intros H. apply row_times_Ret.
  destruct (strptime_HM (start_time r)) eqn:Hs; [|discriminate].
  destruct (strptime_HM (end_time r)) eqn:He; [|discriminate].
  injection H as <- <-. split; now apply strptime_parse_time_str.
Qed.

Lemma upload_times_Ret r s e :
  upload_times r = Ret (s, e) <->
  strptime_HM (start_time r) = Ret s /\ strptime_HM (end_time r) = Ret e.
Proof.
  unfold upload_times.
  destruct (strptime_HM (start_time r)); cbn [mbind py_bind];
    [destruct (strptime_HM (end_time r)); cbn [mbind py_bind]|]; split;
    try (intros [? ?]); try intros ?; try split; congruence.
Qed.

(* ------------------------------------------------------------------ *)
(** * Lemmas: the loops of the upload block *)

Lemma for_each_nil {A : Type} (body : A -> py (list string)) (l : list A) :
  for_each body l = Ret [] <-> forall x, In x l -> body x = Ret [].
Proof.
  induction l as [|x l IH]; simpl.
  - split; [intros _ ? [] | reflexivity].
  - destruct (body x) as [here|] eqn:Hx; cbn [mbind py_bind].
    2: { split; [discriminate|]. intros H. specialize (H x (or_introl eq_refl)).
         congruence. }
    destruct (for_each body l) as [rest|] eqn:Hl; cbn [mbind py_bind].
    2: { split; [discriminate|]. intros H.
         assert (Raise = Ret ([] : list string)); [|discriminate].
         apply IH. intros y Hy. apply H. now right. }
    split.
    + intros [= Happ]. apply app_eq_nil in Happ as [-> ->].
      intros y [<-|Hy]; [assumption|]. apply IH; [reflexivity | assumption].
    + intros H. rewrite (H x (or_introl eq_refl)) in Hx. injection Hx as <-.
      assert (Hr : Ret rest = Ret []) by (apply IH; intros y Hy; apply H; now right).
      now injection Hr as ->.
Qed.

Lemma In_combine_seq (df : DataFrame) k i r :
  In (i, r) (combine (seq k (length df)) df) <->
  (k <= i)%nat /\ df !! (i - k)%nat = Some r.
Proof.
  revert k. induction df as [|r0 df IH]; intros k; simpl.
  - split; [intros [] | intros [_ H]; discriminate].
  - rewrite IH. split.
    + intros [[= <- <-]|[Hk Hl]].
      * split; [lia|]. now rewrite Nat.sub_diag.
      * split; [lia|]. replace (i - k)%nat with (S (i - S k)) by lia. exact Hl.
    + intros [Hk Hl]. destruct (i - k)%nat as [|n] eqn:Hn.
      * left. injection Hl as <-. f_equal. lia.
      * right. split; [lia|]. replace (i - S k)%nat with n by lia. exact Hl.
Qed.

Lemma In_iterrows df i r : In (i, r) (iterrows df) <-> df !! i = Some r.
Proof.
  unfold iterrows. rewrite In_combine_seq, Nat.sub_0_r.
  split; [tauto | split; [lia | assumption]].
Qed.

Lemma In_unique x l : In x (unique l) <-> In x l.
Proof.
  induction l as [|y l IH]; simpl; [tauto|].
  rewrite filter_In, IH, negb_true_iff, String.eqb_neq.
  destruct (String.eqb_spec y x); [tauto|]. split; [tauto|]. intros [?|?]; tauto.
Qed.

Lemma pair_check_nil rid d i r1 j r2 :
  pair_check rid d (i, r1) (j, r2) = Ret [] <->
  (j <= i)%nat \/
  exists s1 e1 s2 e2,
    upload_times r1 = Ret (s1, e1) /\ upload_times r2 = Ret (s2, e2)
    /\ ~ intervals_overlap s1 e1 s2 e2.
Proof.
  unfold pair_check.
  destruct (Nat.leb_spec j i) as [Hji|Hji]; [tauto|].
  setoid_rewrite upload_times_Ret.
  destruct (strptime_HM (start_time r1)) as [s1|]; cbn [mbind py_bind].
  2: { split; [discriminate|]. intros [?|(?&?&?&?&[? ?]&_)]; [lia|discriminate]. }
  destruct (strptime_HM (end_time r1)) as [e1|]; cbn [mbind py_bind].
  2: { split; [discriminate|]. intros [?|(?&?&?&?&[? ?]&_)]; [lia|discriminate]. }
  destruct (strptime_HM (start_time r2)) as [s2|]; cbn [mbind py_bind].
  2: { split; [discriminate|]. intros [?|(?&?&?&?&_&[? ?]&_)]; [lia|discriminate]. }
  destruct (strptime_HM (end_time r2)) as [e2|]; cbn [mbind py_bind].
  2: { split; [discriminate|]. intros [?|(?&?&?&?&_&[? ?]&_)]; [lia|discriminate]. }
  rewrite upload_overlaps_eq.
  destruct (overlaps s1 e1 s2 e2) eqn:Hov.
  - split; [discriminate|]. intros [?|(?&?&?&?&[? ?]&[? ?]&Hno)]; [lia|].
    destruct Hno. apply overlaps_iff. congruence.
  - split; [|reflexivity]. intros _. right. exists s1, e1, s2, e2.
    split_and!; try reflexivity. rewrite <- overlaps_iff. congruence.
Qed.

(** No message and no exception: exactly the clean uploads. *)
Lemma upload_err_msgs_nil up_df :
  upload_err_msgs up_df = Ret [] <-> upload_clean up_df.
Proof.
  unfold upload_err_msgs, upload_clean, fixed_room.
  rewrite for_each_nil. split.
  - intros H i j r1 r2 Hij H1 H2 Hroom Hr Hd.
    specialize (H _ Hroom). rewrite for_each_nil in H.
    assert (Hin1 : In (i, r1) (rows_of_date (date r1)
                     (rows_of_room (room_id r1) (iterrows up_df)))).
    { unfold rows_of_date, rows_of_room. rewrite !filter_In, In_iterrows.
      simpl. now rewrite !String.eqb_refl. }
    assert (Hin2 : In (j, r2) (rows_of_date (date r1)
                     (rows_of_room (room_id r1) (iterrows up_df)))).
    { unfold rows_of_date, rows_of_room. rewrite !filter_In, In_iterrows.
      simpl. now rewrite Hr, Hd, !String.eqb_refl. }
    specialize (H (date r1)). rewrite for_each_nil in H.
    assert (Hd1 : In (date r1) (unique (map (fun x => date (snd x))
                     (rows_of_room (room_id r1) (iterrows up_df))))).
    { apply In_unique, in_map_iff. exists (i, r1). split; [reflexivity|].
      unfold rows_of_room. rewrite filter_In, In_iterrows. simpl.
      now rewrite String.eqb_refl. }
    specialize (H Hd1 _ Hin1). rewrite for_each_nil in H.
    specialize (H _ Hin2). apply pair_check_nil in H as [?|?]; [lia|assumption].
  - intros H rid Hrid. rewrite for_each_nil. intros d _.
    rewrite for_each_nil. intros [i r1] Hin1.
    rewrite for_each_nil. intros [j r2] Hin2.
    unfold rows_of_date, rows_of_room in Hin1, Hin2.
    rewrite !filter_In, In_iterrows in Hin1, Hin2. simpl in Hin1, Hin2.
    destruct Hin1 as [[H1 Hr1] Hd1], Hin2 as [[H2 Hr2] Hd2].
    apply String.eqb_eq in Hr1, Hd1, Hr2, Hd2. subst rid d.
    apply pair_check_nil.
    destruct (Nat.leb_spec j i) as [Hji|Hji]; [now left | right].
    now apply (H i j).
Qed.

(* ------------------------------------------------------------------ *)
(** * Bulk upload: all or nothing *)

Lemma upload_click_clean up_df w :
  upload_clean up_df ->
  upload_click up_df w
  = Ret (set_bookings up_df w, [st_success "Bookings uploaded and saved."]).
Proof.
  intros Hc. apply upload_err_msgs_nil in Hc.
  unfold upload_click. now rewrite Hc.
Qed.

Lemma upload_click_not_clean up_df w :
  ~ upload_clean up_df -> after_upload up_df w = w.
Proof.
  intros Hc. rewrite <- upload_err_msgs_nil in Hc.
  unfold after_upload, upload_click.
  destruct (upload_err_msgs up_df) as [[|m ms]|]; cbn [mbind py_bind];
    [now destruct Hc | reflexivity | reflexivity].
Qed.

Lemma upload_click_cases up_df w :
  after_upload up_df w = w
  \/ (upload_clean up_df /\ after_upload up_df w = set_bookings up_df w).
Proof.
  unfold after_upload, upload_click.
  destruct (upload_err_msgs up_df) as [[|m ms]|] eqn:He; cbn [mbind py_bind];
    [right | now left | now left].
  split; [now apply upload_err_msgs_nil | reflexivity].
Qed.

(** C3 (as amended). Bulk import is all-or-nothing on the fixed rooms: the
    upload is saved, replacing the store, exactly when every two rows that
    share a fixed room and a date read as times and do not overlap; in
    every other case the state is left as it was.  So a pairwise overlap
    inside a (fixed room, date) group rejects the whole upload, and an
    upload whose rows all read as times and that has no such overlap
    replaces the store.  Groups of rows whose room is not one of the fixed
    rooms are not examined. *)
Theorem upload_all_or_nothing (up_df : DataFrame) (w : world) :
  (upload_click up_df w
   = Ret (set_bookings up_df w, [st_success "Bookings uploaded and saved."])
   <-> upload_clean up_df)
  /\ (~ upload_clean up_df -> after_upload up_df w = w)
  /\ (forall i j r1 r2 s1 e1 s2 e2,
        (i < j)%nat -> up_df !! i = Some r1 -> up_df !! j = Some r2 ->
        fixed_room (room_id r1) ->
        room_id r2 = room_id r1 -> date r2 = date r1 ->
        upload_times r1 = Ret (s1, e1) -> upload_times r2 = Ret (s2, e2) ->
        intervals_overlap s1 e1 s2 e2 ->
        after_upload up_df w = w)
  /\ (upload_readable up_df ->
      (forall i j r1 r2 s1 e1 s2 e2,
        (i < j)%nat -> up_df !! i = Some r1 -> up_df !! j = Some r2 ->
        fixed_room (room_id r1) ->
        room_id r2 = room_id r1 -> date r2 = date r1 ->
        upload_times r1 = Ret (s1, e1) -> upload_times r2 = Ret (s2, e2) ->
        ~ intervals_overlap s1 e1 s2 e2) ->
      after_upload up_df w = set_bookings up_df w).
Proof.
  split_and!.
  - split; [|apply upload_click_clean].
    unfold upload_click. intros Hres. apply upload_err_msgs_nil.
    destruct (upload_err_msgs up_df) as [[|m ms]|]; cbn [mbind py_bind] in Hres;
      [reflexivity | discriminate | discriminate].
  - apply upload_click_not_clean.
  - intros i j r1 r2 s1 e1 s2 e2 Hij H1 H2 Hfix Hr Hd Ht1 Ht2 Hov.
    apply upload_click_not_clean. intros Hc.
    destruct (Hc i j r1 r2 Hij H1 H2 Hfix Hr Hd)
      as (s1' & e1' & s2' & e2' & Ht1' & Ht2' & Hno).
    apply Hno. congruence.
  - intros Hread Hno. unfold after_upload.
    rewrite upload_click_clean; [reflexivity|].
    intros i j r1 r2 Hij H1 H2 Hfix Hr Hd.
    unfold upload_readable in Hread. rewrite List.Forall_forall in Hread.
    destruct (Hread r1) as (s1 & e1 & Ht1).
    { apply list_elem_of_In, list_elem_of_lookup. eauto. }
    destruct (Hread r2) as (s2 & e2 & Ht2).
    { apply list_elem_of_In, list_elem_of_lookup. eauto. }
    exists s1, e1, s2, e2. split_and!; try assumption. eauto 10.
Qed.

(** An upload with the overlapping rows 10:00-11:00 and 10:30-11:30 of
    Meeting Room 1 leaves the store as it was. *)
Lemma upload_all_or_nothing_witness :
  after_upload up_overlap_mr1 (world_with [cand_11_1130]) = world_with [cand_11_1130].
Proof.
  apply (proj1 (proj2 (proj2 (upload_all_or_nothing up_overlap_mr1
                                (world_with [cand_11_1130]))))
           0%nat 1%nat existing_10_11 cand_1030_1130
           (mk_time 10 0) (mk_time 11 0) (mk_time 10 30) (mk_time 11 30));
    first [reflexivity | lia | now left | split; reflexivity].
Defined.

(** C3, counterexample. Two rows of the room "annex", which is not one of
    the fixed rooms, overlap on 2024-01-01 (10:00-11:00 and 10:30-11:30),
    and the upload is saved all the same, replacing the store. *)
Lemma upload_unknown_room_accepted :
  (exists r1 r2 s1 e1 s2 e2,
      up_unknown_room !! 0%nat = Some r1 /\ up_unknown_room !! 1%nat = Some r2
      /\ room_id r2 = room_id r1 /\ date r2 = date r1
      /\ upload_times r1 = Ret (s1, e1) /\ upload_times r2 = Ret (s2, e2)
      /\ intervals_overlap s1 e1 s2 e2)
  /\ upload_click up_unknown_room (world_with [existing_10_11])
     = Ret (world_with up_unknown_room,
            [st_success "Bookings uploaded and saved."])
  /\ world_with up_unknown_room <> world_with [existing_10_11].
Proof.
  split_and!.
  - exists (booking "annex" "2024-01-01" "10:00" "11:00"),
           (booking "annex" "2024-01-01" "10:30" "11:30"),
           (mk_time 10 0), (mk_time 11 0), (mk_time 10 30), (mk_time 11 30).
    split_and!; try reflexivity. split; reflexivity.
  - reflexivity.
  - discriminate.
Qed.

Example upload_overlap_rejected :
  upload_click up_overlap_mr1 (world_with [cand_11_1130])
  = Ret (world_with [cand_11_1130],
         [st_error "Upload blocked due to overlaps:\n- Overlap in mr1 on 2024-01-01: 10:00-11:00 vs 10:30-11:30"]).
Proof. reflexivity. Qed.

Example upload_abutting_accepted :
  upload_click up_abutting_mr1 (world_with [])
  = Ret (world_with up_abutting_mr1, [st_success "Bookings uploaded and saved."]).
Proof. reflexivity. Qed.

Example upload_unreadable_raises :
  upload_click [existing_10_11; booking "mr1" "2024-01-01" "11h" "12h"]
               (world_with []) = Raise.
Proof. reflexivity. Qed.

(* ------------------------------------------------------------------ *)
(** * The no-overlap invariant *)

Lemma upload_clean_no_overlap up_df : upload_clean up_df -> no_overlap_fixed up_df.
Proof.
  intros Hc i j r1 r2 Hij H1 H2 Hfix Hr Hd.
  destruct (Hc i j r1 r2 Hij H1 H2 Hfix Hr Hd) as (s1 & e1 & s2 & e2 & Ht1 & Ht2 & Hno).
  exists s1, e1, s2, e2. split_and!; [| |assumption]; now apply upload_times_row_times.
Qed.

(** Appending a row that [validate_booking] accepts keeps the invariant. *)
Lemma no_overlap_fixed_snoc df new_row :
  no_overlap_fixed df ->
  validate_booking new_row df = Ret None ->
  no_overlap_fixed (df ++ [new_row]).
Proof.
  intros Hinv Hval i j r1 r2 Hij H1 H2 Hfix Hr Hd.
  apply validate_booking_None in Hval
    as (start_t & end_t & Hnew & _ & _ & _ & _ & _ & Hall).
  assert (Hj : (j < length (df ++ [new_row]))%nat) by (eapply lookup_lt_Some; eauto).
  rewrite length_app in Hj. simpl in Hj.
  destruct (decide (j < length df)%nat) as [Hlt|Hge].
  - rewrite lookup_app_l in H1, H2 by lia. now apply (Hinv i j).
  - assert (j = length df) as -> by lia.
    rewrite lookup_app_l in H1 by lia.
    rewrite lookup_app_r, Nat.sub_diag in H2 by lia. injection H2 as <-.
    rewrite List.Forall_forall in Hall.
    destruct (Hall r1) as (s2 & e2 & Ht1 & Hno).
    { apply elem_of_same_day. split; [|split; congruence].
      apply list_elem_of_In, list_elem_of_lookup. eauto. }
    exists s2, e2, start_t, end_t. split_and!; try assumption.
    rewrite <- overlaps_iff, overlaps_sym. congruence.
Qed.

Section WorkflowFacts.

Context `{Sha256}.

(** What a submitted Quick Book form does to the store: nothing, or, for a
    room other than the board room, append the validated row. *)
Lemma room_card_submit_bookings cfg e room t h d s f w w' msgs :
  room_card_submit cfg e room t h d s f w = Ret (w', msgs) ->
  bookings w' = bookings w
  \/ (String.eqb (id room) "br" = false
      /\ validate_booking (quick_book_row e room t h d s f) (bookings w) = Ret None
      /\ bookings w' = bookings w ++ [quick_book_row e room t h d s f]).
Proof.
  unfold room_card_submit.
  destruct (negb (nonempty t) || negb (nonempty h)); [intros [= <- _]; now left|].
  destruct (validate_booking _ (bookings w)) as [[msg|]|] eqn:Hval;
    cbn [mbind py_bind]; [intros [= <- _]; now left | | discriminate].
  destruct (String.eqb (id room) "br") eqn:Hbr; cbn [negb].
  - destruct (negb (is_email _)); [intros [= <- _]; now left|].
    unfold otp_can_send, otp_start_session.
    destruct (negb _); [intros [= <- _]; now left|].
    destruct (send_otp_email_to_approver _ _ _ _) as [[] msg_mail]; cbn [negb];
      intros [= <- _]; now left.
  - intros [= <- _]. right. now split_and!.
Qed.

Lemma unlock_click_bookings cfg pin_try w :
  bookings (fst (unlock_click cfg pin_try w)) = bookings w.
Proof.
  unfold unlock_click. destruct (otp_ctx (session w)); [|reflexivity].
  destruct (approver_pin_ok (session w)); [reflexivity|].
  now destruct (nonempty pin_try && _).
Qed.

Lemma resend_click_frame cfg e w :
  bookings (fst (resend_click cfg e w)) = bookings w
  /\ otp_rate (fst (resend_click cfg e w)) = otp_rate w.
Proof.
  unfold resend_click. destruct (otp_ctx (session w)) as [ctx|] eqn:Hctx; [|now split].
  destruct (negb (approver_pin_ok (session w))); [now split|].
  destruct (negb (now_utc_ts e >=? resend_at ctx)); [now split|].
  unfold otp_resend. rewrite Hctx.
  now destruct (send_otp_email_to_approver _ _ _ _) as [[] msg_mail].
Qed.

(** What "Verify OTP" does to the store: nothing, or append the pending
    row of the session. *)
Lemma verify_click_bookings e user_otp w :
  bookings (fst (verify_click e user_otp w)) = bookings w
  \/ exists ctx, otp_ctx (session w) = Some ctx
       /\ bookings (fst (verify_click e user_otp w))
          = bookings w ++ [booking_row ctx].
Proof.
  unfold verify_click. destruct (otp_ctx (session w)) as [ctx|] eqn:Hctx; [|now left].
  destruct (negb (approver_pin_ok (session w))); [now left|].
  destruct (negb _); [now left|].
  destruct (otp_verify e user_otp (session w)) as [ss1 [[] msg]]; [|now left].
  right. exists ctx. now split.
Qed.

(** The store after any interaction other than "Verify OTP". *)
Lemma step_bookings cfg w e ev :
  (forall user_otp, ev <> Verify user_otp) ->
  bookings (step cfg w (e, ev)) = bookings w
  \/ (exists new_row, validate_booking new_row (bookings w) = Ret None
        /\ bookings (step cfg w (e, ev)) = bookings w ++ [new_row])
  \/ (exists up_df, upload_clean up_df /\ bookings (step cfg w (e, ev)) = up_df).
Proof.
  intros Hev. unfold step. cbn [fst snd].
  destruct ev as [room t h d s f|pin_try|user_otp| |up_df]; cbn [handle].
  - destruct (room_card_submit cfg e room t h d s f w) as [[w' msgs]|] eqn:Hs;
      [|now left].
    apply room_card_submit_bookings in Hs as [?|(_ & ? & ?)]; [now left|].
    right. left. eauto.
  - left. apply unlock_click_bookings.
  - now destruct (Hev user_otp).
  - left. apply resend_click_frame.
  - pose proof (upload_click_cases up_df w) as Hc. unfold after_upload in Hc.
    destruct (upload_click up_df w) as [[w' msgs]|]; [|now left].
    destruct Hc as [->|[Hclean ->]]; [now left|].
    right. right. eauto.
Qed.

End WorkflowFacts.

(* ------------------------------------------------------------------ *)
(** * The invariant along the interactions *)

Lemma no_overlap_fixed_singleton r : no_overlap_fixed [r].
Proof.
  intros i j r1 r2 Hij H1 H2. apply lookup_lt_Some in H2. simpl in H2. lia.
Qed.

(** C1 (as amended). The no-overlap invariant on the fixed rooms.  An
    accepted bulk upload establishes it, whatever the store held before:
    the store becomes the upload, in which no two reservations of one
    fixed room and date overlap.  From a store in which it holds, every
    interaction leads to such a store again - the direct booking of an
    ungated room, which appends the validated row, an upload, every click
    of the approval panel - provided that, when the interaction is a
    "Verify OTP" with a request pending, the pending row still passes
    [validate_booking] on the store as it is now.  (The approval of a
    pending row that no longer does is the one commit that can break
    it.) *)
Theorem no_overlap_fixed_kept `{Sha256} (cfg : secrets) (w : world) (e : env) :
  (forall up_df,
     upload_click up_df w
     = Ret (set_bookings up_df w, [st_success "Bookings uploaded and saved."]) ->
     bookings (step cfg w (e, Upload up_df)) = up_df /\ no_overlap_fixed up_df)
  /\ (no_overlap_fixed (bookings w) ->
      (forall ev,
         (forall user_otp ctx,
            ev = Verify user_otp -> otp_ctx (session w) = Some ctx ->
            validate_booking (booking_row ctx) (bookings w) = Ret None) ->
         no_overlap_fixed (bookings (step cfg w (e, ev))))
      /\ (forall room t h d s f,
            String.eqb (id room) "br" = false ->
            nonempty t = true -> nonempty h = true ->
            validate_booking (quick_book_row e room t h d s f) (bookings w)
            = Ret None ->
            bookings (step cfg w (e, Book room t h d s f))
            = bookings w ++ [quick_book_row e room t h d s f])
      /\ (forall up_df, upload_clean up_df ->
            bookings (step cfg w (e, Upload up_df)) = up_df)).
Proof.
  split.
  - intros up_df Hok. unfold step. cbn [fst snd handle]. rewrite Hok.
    split; [reflexivity|]. apply upload_clean_no_overlap, upload_err_msgs_nil.
    unfold upload_click in Hok.
    destruct (upload_err_msgs up_df) as [[|m ms]|]; cbn [mbind py_bind] in Hok;
      [reflexivity | discriminate | discriminate].
  - intros Hinv. split_and!.
    + intros ev Hev.
      destruct ev as [room t h d s f|pin_try|user_otp| |up_df];
        try (match goal with
             | |- no_overlap_fixed (bookings (step cfg w (e, ?ev))) =>
                 destruct (step_bookings cfg w e ev ltac:(intros ?; discriminate))
                   as [->|[(new_row & Hval & ->)|(up_df' & Hclean & ->)]]
             end;
             [exact Hinv | now apply no_overlap_fixed_snoc
              | now apply upload_clean_no_overlap]).
      unfold step. cbn [fst snd handle].
      destruct (verify_click_bookings e user_otp w) as [Hsame|(ctx & Hctx & Happ)];
        destruct (verify_click e user_otp w) as [w' msgs]; cbn [fst] in *.
      * now rewrite Hsame.
      * rewrite Happ. apply no_overlap_fixed_snoc; [exact Hinv|].
        exact (Hev user_otp ctx eq_refl Hctx).
    + intros room t h d s f Hbr Ht Hh Hval.
      unfold step. cbn [fst snd handle]. unfold room_card_submit.
      rewrite Ht, Hh, Hval. cbn [negb orb mbind py_bind]. now rewrite Hbr.
    + intros up_df Hclean. unfold step. cbn [fst snd handle].
      now rewrite upload_click_clean.
Qed.

Section InvariantRuns.

#[local] Existing Instance text_digest.

(** With the board room taken for 11:00-12:00 and a request for
    10:00-11:00 pending, the entry of the mailed passcode appends the
    pending row, which abuts the reservation: the invariant holds on. *)
Lemma no_overlap_fixed_kept_witness :
  no_overlap_fixed (bookings approval_ready)
  /\ bookings (step demo_secrets approval_ready (env_at 1030 "", Verify "123456"))
     = [booking "br" "2024-01-01" "11:00" "12:00"; pending_10_11]
  /\ no_overlap_fixed
       (bookings (step demo_secrets approval_ready
                       (env_at 1030 "", Verify "123456"))).
Proof.
  pose proof (no_overlap_fixed_singleton (booking "br" "2024-01-01" "11:00" "12:00"))
    as H1.
  split_and!; [exact H1 | reflexivity |].
  apply (proj1 (proj2 (no_overlap_fixed_kept demo_secrets approval_ready
                         (env_at 1030 "")) H1)).
  intros user_otp ctx _ [= <-]. reflexivity.
Defined.

End InvariantRuns.

Example direct_booking_run :
  bookings (step (H := text_digest) demo_secrets (world_with [existing_10_11])
                 (env_at 1000 "123456",
                  Book mr1 "Sync" " Ann " "2024-01-01" (mk_time 11 0) (mk_time 11 30)))
  = [existing_10_11;
     mk_row "mr1" "Meeting Room 1" "2024-01-01" "11:00" "11:30" "Ann" "Sync"
            "2024-01-01T10:00:00+05:30"].
Proof. reflexivity. Qed.

Lemma overlapping_pair_nil : ~ overlapping_pair [].
Proof. intros (i & j & r1 & r2 & ? & ? & ? & ? & _ & H1 & _). discriminate. Qed.

(** C1, counterexample. From the empty store, (1) the upload of two
    overlapping rows of the room "annex" is saved, and (2) the approval of
    a board-room request that was pending while a conflicting reservation
    was uploaded is committed: each leaves two committed reservations of
    one room and date that overlap. *)
Lemma no_overlap_broken :
  ~ overlapping_pair (bookings empty_world)
  /\ overlapping_pair (bookings (after_upload up_unknown_room empty_world))
  /\ overlapping_pair
       (bookings (run (H := text_digest) demo_secrets empty_world stale_approval)).
Proof.
  split_and!.
  - apply overlapping_pair_nil.
  - exists 0%nat, 1%nat,
      (booking "annex" "2024-01-01" "10:00" "11:00"),
      (booking "annex" "2024-01-01" "10:30" "11:30"),
      (mk_time 10 0), (mk_time 11 0), (mk_time 10 30), (mk_time 11 30).
    split_and!; try reflexivity; [lia | split; reflexivity].
  - exists 0%nat, 1%nat,
      (booking "br" "2024-01-01" "10:30" "11:30"), pending_10_11,
      (mk_time 10 30), (mk_time 11 30), (mk_time 10 0), (mk_time 11 0).
    split_and!; try reflexivity; [lia | split; reflexivity].
Qed.

(* ------------------------------------------------------------------ *)
(** * Lemmas: texts of digits *)

Lemma rstrip_no_space s :
  (forall c, In c (list_ascii_of_string s) -> Str.is_space c = false) ->
  Str.rstrip s = s.
Proof.
  induction s as [|c s IH]; simpl; [reflexivity|]. intros Hs.
  rewrite IH by (intros; apply Hs; now right).
  destruct s; [|reflexivity]. now rewrite (Hs c (or_introl eq_refl)).
Qed.

Lemma all_digits_no_space s c :
  Str.all_digits s = true -> In c (list_ascii_of_string s) -> Str.is_space c = false.
Proof.
  induction s as [|a s IH]; simpl; [intros _ []|].
  intros [Ha Hs]%andb_true_iff [<-|Hc]; [|now apply IH].
  now apply digit_facts in Ha.
Qed.

(** [strip] leaves a text of digits as it is. *)
Lemma strip_digits s : Str.all_digits s = true -> Str.strip s = s.
Proof.
  intros Hs. unfold Str.strip.
  assert (Str.lstrip s = s) as ->.
  { destruct s as [|a s]; [reflexivity|]. simpl in *.
    apply andb_true_iff in Hs as [Ha _]. apply digit_facts in Ha as [-> _].
    reflexivity. }
  apply rstrip_no_space. intros c. now apply all_digits_no_space.
Qed.

Section OtpFacts.

Context `{Sha256}.


Lemma stale_approval_before :
  run demo_secrets empty_world (firstn 3 stale_approval) = before_approval.
Proof. vm_compute. reflexivity. Qed.

(** C2, the run that shows the defect: the board-room request for
    10:00-11:00 is approved with the mailed passcode after a reservation
    for 10:30-11:30 reached the store.  Validation would now report the
    conflict, yet the handler commits the pending row next to the other
    one, shows the success message and clears the session. *)
Theorem stale_approval_commits :
  run demo_secrets empty_world (firstn 3 stale_approval) = before_approval
  /\ validate_booking pending_10_11 (bookings before_approval)
     = Ret (Some "Conflict with existing booking 10:30–11:30.")
  /\ handle demo_secrets (env_at 1030 "") (Verify "123456") before_approval
     = Ret (mk_world [booking "br" "2024-01-01" "10:30" "11:30"; pending_10_11]
                     (mk_session None false)
                     (otp_rate before_approval) (outbox before_approval),
            [st_success "✅ Approved & Booked: Board Room · 2024-01-01 10:00–11:00"])
  /\ bookings (run demo_secrets empty_world stale_approval)
     = [booking "br" "2024-01-01" "10:30" "11:30"; pending_10_11].
Proof.
  assert (Hv : handle demo_secrets (env_at 1030 "") (Verify "123456") before_approval
     = Ret (mk_world [booking "br" "2024-01-01" "10:30" "11:30"; pending_10_11]
                     (mk_session None false)
                     (otp_rate before_approval) (outbox before_approval),
            [st_success "✅ Approved & Booked: Board Room · 2024-01-01 10:00–11:00"])).
  { cbn. rewrite String.eqb_refl. reflexivity. }
  split_and!; [apply stale_approval_before | reflexivity | exact Hv |].
  change stale_approval
    with (firstn 3 stale_approval ++ [(env_at 1030 "", Verify "123456")]).
  unfold run. rewrite fold_left_app.
  fold (run demo_secrets empty_world (firstn 3 stale_approval)).
  rewrite stale_approval_before. cbn [fold_left]. unfold step.
  cbn [fst snd]. now rewrite Hv.
Qed.

End OtpFacts.

(* ------------------------------------------------------------------ *)
(** * [otp_verify]: the outcomes *)

Section VerifyFacts.

Context `{Sha256}.

Lemma otp_verify_mismatch e user_otp ss ctx :
  otp_ctx ss = Some ctx -> verified ctx = false ->
  now_utc_ts e <= expires_at ctx -> 0 < attempts_left ctx ->
  digest_mismatch user_otp ctx ->
  otp_verify e user_otp ss
  = (mk_session (Some (set_attempts_left (attempts_left ctx - 1) ctx))
                (approver_pin_ok ss),
     (false, "Incorrect OTP. Attempts left: " +:+ Str.of_Z (attempts_left ctx - 1))).
Proof.
  intros Hctx Hv Hexp Hleft Hne. unfold otp_verify. rewrite Hctx, Hv.
  destruct (Z.gtb_spec (now_utc_ts e) (expires_at ctx)); [lia|].
  destruct (Z.leb_spec (attempts_left ctx) 0); [lia|].
  apply String.eqb_neq in Hne. now rewrite Hne.
Qed.

Lemma otp_verify_match e user_otp ss ctx :
  otp_ctx ss = Some ctx -> verified ctx = false ->
  now_utc_ts e <= expires_at ctx -> 0 < attempts_left ctx ->
  otp_hash (Str.strip user_otp) (salt ctx) = hash ctx ->
  otp_verify e user_otp ss
  = (mk_session (Some (set_verified true ctx)) (approver_pin_ok ss),
     (true, "Verified.")).
Proof.
  intros Hctx Hv Hexp Hleft Heq. unfold otp_verify. rewrite Hctx, Hv.
  destruct (Z.gtb_spec (now_utc_ts e) (expires_at ctx)); [lia|].
  destruct (Z.leb_spec (attempts_left ctx) 0); [lia|].
  now rewrite Heq, String.eqb_refl.
Qed.

Lemma otp_verify_locked e user_otp ss ctx :
  otp_ctx ss = Some ctx -> verified ctx = false ->
  now_utc_ts e <= expires_at ctx -> attempts_left ctx <= 0 ->
  otp_verify e user_otp ss
  = (ss, (false, "Too many wrong attempts. Please resend.")).
Proof.
  intros Hctx Hv Hexp Hleft. unfold otp_verify. rewrite Hctx, Hv.
  destruct (Z.gtb_spec (now_utc_ts e) (expires_at ctx)); [lia|].
  now destruct (Z.leb_spec (attempts_left ctx) 0); [|lia].
Qed.

Lemma otp_verify_expired e user_otp ss ctx :
  otp_ctx ss = Some ctx -> verified ctx = false ->
  now_utc_ts e > expires_at ctx ->
  otp_verify e user_otp ss = (ss, (false, "OTP expired. Please resend.")).
Proof.
  intros Hctx Hv Hexp. unfold otp_verify. rewrite Hctx, Hv.
  now destruct (Z.gtb_spec (now_utc_ts e) (expires_at ctx)); [|lia].
Qed.

(** C5 (as amended). The outcomes of [otp_verify], in the order in which
    the checks are made: no session fails with "Session missing."; else an
    already verified session succeeds and is left as it is (also past its
    expiry); else now > expiry fails as expired; else attempts_left <= 0
    fails as locked; else a candidate whose salted hash equals the stored
    one sets verified and succeeds, and any other candidate takes one from
    attempts_left and fails, reporting the new count. *)
Theorem otp_verify_outcomes (e : env) (user_otp : string) (ss : session_state) :
  (otp_ctx ss = None ->
     otp_verify e user_otp ss = (ss, (false, "Session missing.")))
  /\ (forall ctx, otp_ctx ss = Some ctx ->
      (verified ctx = true ->
         otp_verify e user_otp ss = (ss, (true, "Already verified.")))
      /\ (verified ctx = false -> now_utc_ts e > expires_at ctx ->
            otp_verify e user_otp ss = (ss, (false, "OTP expired. Please resend.")))
      /\ (verified ctx = false -> now_utc_ts e <= expires_at ctx ->
          attempts_left ctx <= 0 ->
            otp_verify e user_otp ss
            = (ss, (false, "Too many wrong attempts. Please resend.")))
      /\ (verified ctx = false -> now_utc_ts e <= expires_at ctx ->
          0 < attempts_left ctx ->
          otp_hash (Str.strip user_otp) (salt ctx) = hash ctx ->
            otp_verify e user_otp ss
            = (mk_session (Some (set_verified true ctx)) (approver_pin_ok ss),
               (true, "Verified.")))
      /\ (verified ctx = false -> now_utc_ts e <= expires_at ctx ->
          0 < attempts_left ctx ->
          otp_hash (Str.strip user_otp) (salt ctx) <> hash ctx ->
            otp_verify e user_otp ss
            = (mk_session (Some (set_attempts_left (attempts_left ctx - 1) ctx))
                          (approver_pin_ok ss),
               (false, "Incorrect OTP. Attempts left: "
                       +:+ Str.of_Z (attempts_left ctx - 1))))).
Proof.
  split.
  - intros Hctx. unfold otp_verify. now rewrite Hctx.
  - intros ctx Hctx. split_and!.
    + intros Hv. unfold otp_verify. now rewrite Hctx, Hv.
    + now apply otp_verify_expired.
    + now apply otp_verify_locked.
    + now apply otp_verify_match.
    + now apply otp_verify_mismatch.
Qed.

End VerifyFacts.

Section VerifyRuns.

#[local] Existing Instance text_digest.

(** The outcomes on a pending request whose passcode is entered in time:
    the right passcode, then a wrong one. *)
Lemma otp_verify_outcomes_witness :
  otp_verify (H := text_digest) (env_at 1030 "") "123456" (session_of pending_ctx)
  = (session_of (set_verified true pending_ctx), (true, "Verified."))
  /\ otp_verify (H := text_digest) (env_at 1030 "") "000000" (session_of pending_ctx)
     = (session_of (set_attempts_left 4 pending_ctx),
        (false, "Incorrect OTP. Attempts left: 4")).
Proof.
  pose proof (proj2 (otp_verify_outcomes (H := text_digest) (env_at 1030 "") "123456"
                       (session_of pending_ctx)) pending_ctx eq_refl)
    as (_ & _ & _ & Hok & _).
  pose proof (proj2 (otp_verify_outcomes (H := text_digest) (env_at 1030 "") "000000"
                       (session_of pending_ctx)) pending_ctx eq_refl)
    as (_ & _ & _ & _ & Hbad).
  split.
  - apply Hok; [reflexivity | vm_compute; discriminate | reflexivity | reflexivity].
  - apply Hbad; [reflexivity | vm_compute; discriminate | reflexivity | discriminate].
Defined.

(** C5, counterexample. At second 2000, past the expiry 1300: an already
    verified session makes [otp_verify] succeed instead of failing as
    expired, and a session with no attempt left fails as expired, not as
    locked. *)
Lemma otp_verify_check_order :
  now_utc_ts (env_at 2000 "") > expires_at verified_ctx
  /\ otp_verify (H := text_digest) (env_at 2000 "") "123456" (session_of verified_ctx)
     = (session_of verified_ctx, (true, "Already verified."))
  /\ attempts_left spent_ctx <= 0
  /\ otp_verify (H := text_digest) (env_at 2000 "") "123456" (session_of spent_ctx)
     = (session_of spent_ctx, (false, "OTP expired. Please resend.")).
Proof. split_and!; first [reflexivity | vm_compute; discriminate]. Qed.

End VerifyRuns.

(* ------------------------------------------------------------------ *)
(** * Lockout and resend *)

Section LockoutFacts.

Context `{Sha256}.

Lemma otp_verify_each_cons e c xs ss :
  otp_verify_each ((e, c) :: xs) ss
  = (fst (otp_verify_each xs (fst (otp_verify e c ss))),
     snd (otp_verify e c ss) :: snd (otp_verify_each xs (fst (otp_verify e c ss)))).
Proof.
  cbn [otp_verify_each]. destruct (otp_verify e c ss) as [ss1 r]. cbn [fst snd].
  now destruct (otp_verify_each xs ss1).
Qed.

(** A wrong candidate entered in time on an unverified session with
    attempts left: the session afterwards, and the result. *)
Lemma otp_verify_wrong e c pin ctx :
  verified ctx = false -> now_utc_ts e <= expires_at ctx ->
  0 < attempts_left ctx -> digest_mismatch c ctx ->
  otp_verify e c (mk_session (Some ctx) pin)
  = (mk_session (Some (set_attempts_left (attempts_left ctx - 1) ctx)) pin,
     (false, "Incorrect OTP. Attempts left: " +:+ Str.of_Z (attempts_left ctx - 1))).
Proof. intros. now apply otp_verify_mismatch. Qed.

Lemma otp_resend_session e ss ctx :
  otp_ctx ss = Some ctx ->
  otp_resend e ss
  = (mk_session
       (Some (mk_ctx (otp_salt e) (otp_hash (otp_random e) (otp_salt e))
                     (now_utc_ts e + OTP_TTL_MINUTES * 60) OTP_MAX_ATTEMPTS
                     (now_utc_ts e + OTP_RESEND_COOLDOWN_SECONDS) false
                     (approver_email ctx) (booking_row ctx)))
       (approver_pin_ok ss),
     (true, otp_random e)).
Proof. intros Hctx. unfold otp_resend. now rewrite Hctx. Qed.

(** C6 (as amended). On a fresh session (5 attempts), five consecutive
    candidates that do not hash to the stored digest, entered before the
    expiry, fail one after the other reporting 4, 3, 2, 1 and 0 attempts
    left: the fifth result is still the mismatch report, and it leaves the
    session locked out.  From then on every attempt fails, whatever the
    passcode, and leaves the session as it is; before the expiry it fails as
    locked ("Too many wrong attempts").  A resend sets the counter to 5
    again, and the passcode it draws then verifies. *)
Theorem lockout_after_five_wrong (e0 : env) (r : row) (approver : string)
    (ss0 : session_state) (xs : list (env * string)) :
  let ss := fst (otp_start_session e0 r approver ss0) in
  let expiry := now_utc_ts e0 + OTP_TTL_MINUTES * 60 in
  length xs = 5%nat ->
  Forall (fun x => now_utc_ts (fst x) <= expiry
                   /\ otp_hash (Str.strip (snd x)) (otp_salt e0)
                      <> otp_hash (otp_random e0) (otp_salt e0)) xs ->
  let ss5 := fst (otp_verify_each xs ss) in
  snd (otp_verify_each xs ss)
  = [ (false, "Incorrect OTP. Attempts left: 4");
      (false, "Incorrect OTP. Attempts left: 3");
      (false, "Incorrect OTP. Attempts left: 2");
      (false, "Incorrect OTP. Attempts left: 1");
      (false, "Incorrect OTP. Attempts left: 0") ]
  /\ attempts_left <$> otp_ctx ss5 = Some 0
  /\ (forall e6 otp6,
        fst (snd (otp_verify e6 otp6 ss5)) = false
        /\ fst (otp_verify e6 otp6 ss5) = ss5)
  /\ (forall e6 otp6, now_utc_ts e6 <= expiry ->
        otp_verify e6 otp6 ss5
        = (ss5, (false, "Too many wrong attempts. Please resend.")))
  /\ (forall e7,
        attempts_left <$> otp_ctx (fst (otp_resend e7 ss5)) = Some OTP_MAX_ATTEMPTS
        /\ forall e8,
             Str.all_digits (otp_random e7) = true ->
             now_utc_ts e8 <= now_utc_ts e7 + OTP_TTL_MINUTES * 60 ->
             snd (otp_verify e8 (otp_random e7) (fst (otp_resend e7 ss5)))
             = (true, "Verified.")).
Proof.
  intros ss expiry Hlen Hall.
  destruct xs as [|[e1 c1] [|[e2 c2] [|[e3 c3] [|[e4 c4] [|[e5 c5] [|? ?]]]]]];
    try discriminate Hlen. clear Hlen.
  repeat match goal with
         | Hx : Forall _ (_ :: _) |- _ =>
             apply Forall_cons_1 in Hx as [[? ?] Hx]
         end.
  clear Hall. cbn [fst snd] in *.
  set (ctx0 := mk_ctx (otp_salt e0) (otp_hash (otp_random e0) (otp_salt e0))
                      expiry OTP_MAX_ATTEMPTS
                      (now_utc_ts e0 + OTP_RESEND_COOLDOWN_SECONDS) false
                      approver r).
  assert (Hss : ss = mk_session (Some ctx0) (approver_pin_ok ss0)) by reflexivity.
  assert (Hrun : otp_verify_each
                   [(e1, c1); (e2, c2); (e3, c3); (e4, c4); (e5, c5)] ss
                 = (mk_session (Some (set_attempts_left 0 ctx0)) (approver_pin_ok ss0),
                    [ (false, "Incorrect OTP. Attempts left: 4");
                      (false, "Incorrect OTP. Attempts left: 3");
                      (false, "Incorrect OTP. Attempts left: 2");
                      (false, "Incorrect OTP. Attempts left: 1");
                      (false, "Incorrect OTP. Attempts left: 0") ])).
  { rewrite Hss.
    do 5 (rewrite otp_verify_each_cons, otp_verify_wrong;
          [cbn [fst snd] | reflexivity | assumption | reflexivity | assumption]).
    reflexivity. }
  rewrite Hrun. cbn [fst snd].
  set (ss5 := mk_session (Some (set_attempts_left 0 ctx0)) (approver_pin_ok ss0)).
  split_and!; try reflexivity.
  - intros e6 otp6. unfold otp_verify. cbn.
    destruct (now_utc_ts e6 >? expiry); now split.
  - intros e6 otp6 He6. now apply (otp_verify_locked e6 otp6 ss5 (set_attempts_left 0 ctx0)).
  - intros e7. split; [reflexivity|]. intros e8 Hdig He8.
    erewrite otp_resend_session by reflexivity. cbn [fst].
    erewrite otp_verify_match; try reflexivity; cbn; [assumption | ].
    now rewrite strip_digits.
Qed.

End LockoutFacts.

Section LockoutRuns.

#[local] Existing Instance text_digest.

Lemma lockout_after_five_wrong_witness :
  length five_wrong = 5%nat
  /\ snd (otp_verify_each five_wrong fresh_session)
     = [ (false, "Incorrect OTP. Attempts left: 4");
         (false, "Incorrect OTP. Attempts left: 3");
         (false, "Incorrect OTP. Attempts left: 2");
         (false, "Incorrect OTP. Attempts left: 1");
         (false, "Incorrect OTP. Attempts left: 0") ]
  /\ forall e6 otp6,
       fst (snd (otp_verify e6 otp6 (fst (otp_verify_each five_wrong fresh_session))))
       = false.
Proof.
  assert (Hall : Forall (fun x : env * string =>
              now_utc_ts (fst x) <= now_utc_ts (env_at 1000 "123456") + OTP_TTL_MINUTES * 60
              /\ otp_hash (Str.strip (snd x)) (otp_salt (env_at 1000 "123456"))
                 <> otp_hash (otp_random (env_at 1000 "123456"))
                             (otp_salt (env_at 1000 "123456"))) five_wrong).
  { repeat constructor; vm_compute; discriminate. }
  pose proof (lockout_after_five_wrong (env_at 1000 "123456") pending_10_11
                "boss@example.com" (mk_session None true) five_wrong eq_refl Hall)
    as (Hres & _ & Hfail & _).
  split; [reflexivity|]. split; [exact Hres|].
  intros e6 otp6. apply Hfail.
Defined.

(** C6, counterexample. After four wrong candidates, the fifth one
    (444444, at second 1050) gets the mismatch report with 0 attempts left,
    which is not the lockout failure; that one is the result of the sixth
    attempt, here with the right passcode. *)
Lemma fifth_wrong_attempt_not_locked :
  snd (otp_verify_each five_wrong fresh_session) !! 4%nat
  = Some (false, "Incorrect OTP. Attempts left: 0")
  /\ (false, "Incorrect OTP. Attempts left: 0")
     <> (false, "Too many wrong attempts. Please resend.")
  /\ snd (otp_verify (env_at 1060 "") "123456"
                     (fst (otp_verify_each five_wrong fresh_session)))
     = (false, "Too many wrong attempts. Please resend.").
Proof. split_and!; [reflexivity | discriminate | reflexivity]. Qed.

End LockoutRuns.

(* ------------------------------------------------------------------ *)
(** * Resend *)

Section ResendFacts.

Context `{Sha256}.

(** C7 (as amended). Without a session [otp_resend] fails.  With one it
    replaces the salt and the hash by those of the freshly drawn salt and
    passcode, which it returns, sets the expiry to now + TTL, the attempts
    to the maximum and the earliest next resend to now + cooldown, and
    keeps the approver and the pending row; a click on "Resend OTP" before
    that instant does nothing.  Afterwards a candidate, the old passcode
    included, fails whenever its hash under the new salt differs from the
    new hash; when the two are equal (as when the same passcode is drawn
    again) it verifies. *)
Theorem otp_resend_rotates (e : env) (ss : session_state) :
  (otp_ctx ss = None -> otp_resend e ss = (ss, (false, "No OTP session.")))
  /\ (forall ctx, otp_ctx ss = Some ctx ->
      let ctx' := mk_ctx (otp_salt e) (otp_hash (otp_random e) (otp_salt e))
                         (now_utc_ts e + OTP_TTL_MINUTES * 60) OTP_MAX_ATTEMPTS
                         (now_utc_ts e + OTP_RESEND_COOLDOWN_SECONDS) false
                         (approver_email ctx) (booking_row ctx) in
      let ss' := mk_session (Some ctx') (approver_pin_ok ss) in
      otp_resend e ss = (ss', (true, otp_random e))
      /\ (forall cfg e2 w, session w = ss' ->
            now_utc_ts e2 < now_utc_ts e + OTP_RESEND_COOLDOWN_SECONDS ->
            resend_click cfg e2 w = (w, []))
      /\ (forall e2 old,
            otp_hash (Str.strip old) (otp_salt e)
            <> otp_hash (otp_random e) (otp_salt e) ->
            fst (snd (otp_verify e2 old ss')) = false)
      /\ (forall e2 old,
            otp_hash (Str.strip old) (otp_salt e)
            = otp_hash (otp_random e) (otp_salt e) ->
            now_utc_ts e2 <= now_utc_ts e + OTP_TTL_MINUTES * 60 ->
            otp_verify e2 old ss'
            = (mk_session (Some (set_verified true ctx')) (approver_pin_ok ss),
               (true, "Verified.")))).
Proof.
  split.
  - intros Hctx. unfold otp_resend. now rewrite Hctx.
  - intros ctx Hctx ctx' ss'. split_and!.
    + now apply otp_resend_session.
    + intros cfg e2 w Hw He2. unfold resend_click. rewrite Hw. cbn.
      destruct (approver_pin_ok ss); [|reflexivity]. cbn.
      destruct (Z.geb_spec (now_utc_ts e2)
                  (now_utc_ts e + OTP_RESEND_COOLDOWN_SECONDS)); [lia|reflexivity].
    + intros e2 old Hne. unfold otp_verify. cbn.
      destruct (_ >? _); [reflexivity|].
      apply String.eqb_neq in Hne. now rewrite Hne.
    + intros e2 old Heq He2.
      now apply (otp_verify_match e2 old ss' ctx').
Qed.

End ResendFacts.

Section ResendRuns.

#[local] Existing Instance text_digest.

(** After the resend at second 1100 draws 654321, the old passcode 123456
    fails and the new one verifies. *)
Lemma otp_resend_rotates_witness :
  otp_resend (env_resend 1100 "654321") fresh_session
  = (mk_session
       (Some (mk_ctx "77c0" "77c0:654321" 1400 5 1145 false "boss@example.com"
                     pending_10_11)) true,
     (true, "654321"))
  /\ fst (snd (otp_verify (env_at 1150 "") "123456"
                 (fst (otp_resend (env_resend 1100 "654321") fresh_session))))
     = false.
Proof.
  pose proof (proj2 (otp_resend_rotates (env_resend 1100 "654321") fresh_session)
                _ eq_refl) as (Hre & _ & Hold & _).
  split; [exact Hre|]. rewrite Hre. apply Hold. discriminate.
Defined.

(** C7, counterexample. The resend at second 1100 draws the passcode
    123456 again (with the new salt 77c0): the old passcode verifies. *)
Lemma old_passcode_drawn_again :
  snd (otp_verify (env_at 1010 "") "123456" fresh_session) = (true, "Verified.")
  /\ snd (otp_resend (env_resend 1100 "123456") fresh_session) = (true, "123456")
  /\ snd (otp_verify (env_at 1150 "") "123456"
            (fst (otp_resend (env_resend 1100 "123456") fresh_session)))
     = (true, "Verified.").
Proof. split_and!; reflexivity. Qed.

End ResendRuns.

(* ------------------------------------------------------------------ *)
(** * The board-room request: delivery failure and the daily limit *)

Section RequestFacts.

Context `{Sha256}.




(** C9. Once the counter of the approver for the current UTC day has
    reached the daily limit, a board-room request changes nothing: no
    session is created, no mail is handed to the sender, nothing is
    committed; and a request that passed validation and the approver check
    is answered with the daily-limit error. *)
Theorem daily_limit_blocks_request (cfg : secrets) (e : env) (room : Room)
    (t h d : string) (s f : time) (w : world) :
  String.eqb (id room) "br" = true ->
  OTP_DAILY_LIMIT <= rate_count (otp_rate w) (otp_bucket_key e (APPROVER_EMAIL cfg)) ->
  step cfg w (e, Book room t h d s f) = w
  /\ (nonempty t = true -> nonempty h = true ->
      validate_booking (quick_book_row e room t h d s f) (bookings w) = Ret None ->
      is_email (APPROVER_EMAIL cfg) = true ->
      room_card_submit cfg e room t h d s f w
      = Ret (w, [st_error "Daily OTP limit reached for approver. Try later."])).
Proof.
  intros Hbr Hlim.
  assert (Hcan : fst (otp_can_send e (APPROVER_EMAIL cfg) (otp_rate w)) = false).
  { unfold otp_can_send. cbn [fst]. apply Z.ltb_ge. exact Hlim. }
  split.
  - unfold step. cbn [fst snd handle]. unfold room_card_submit.
    destruct (negb (nonempty t) || negb (nonempty h)); [reflexivity|].
    destruct (validate_booking _ (bookings w)) as [[msg|]|];
      cbn [mbind py_bind]; [reflexivity | | reflexivity].
    rewrite Hbr. cbn [negb].
    destruct (negb (is_email _)); [reflexivity|].
    destruct (otp_can_send e (APPROVER_EMAIL cfg) (otp_rate w)) as [ok_limit left_].
    cbn [fst] in Hcan. now rewrite Hcan.
  - intros Ht Hh Hval Hmail. unfold room_card_submit.
    rewrite Ht, Hh, Hval, Hbr, Hmail. cbn [negb orb mbind py_bind].
    destruct (otp_can_send e (APPROVER_EMAIL cfg) (otp_rate w)) as [ok_limit left_].
    cbn [fst] in Hcan. now rewrite Hcan.
Qed.

(** C10. The resend path never touches the rate file: a click on "Resend
    OTP" leaves the daily counter as it is, also when it rotates the
    passcode and hands the new one to the sender, and so does any number of
    such clicks in a row. *)
Theorem resend_keeps_send_count (cfg : secrets) (w : world) :
  (forall e, otp_rate (fst (resend_click cfg e w)) = otp_rate w)
  /\ (forall es, otp_rate (run cfg w (map (fun e => (e, Resend)) es)) = otp_rate w)
  /\ (forall e ctx,
        otp_ctx (session w) = Some ctx -> approver_pin_ok (session w) = true ->
        resend_at ctx <= now_utc_ts e ->
        session (fst (resend_click cfg e w)) = fst (otp_resend e (session w))
        /\ outbox (fst (resend_click cfg e w))
           = outbox w ++ [(approver_email ctx, otp_random e)]
        /\ otp_rate (fst (resend_click cfg e w)) = otp_rate w).
Proof.
  split_and!.
  - intros e. apply resend_click_frame.
  - intros es. revert w. induction es as [|e es IH]; intros w; [reflexivity|].
    cbn [map run fold_left]. fold (run cfg). unfold run in IH |- *.
    rewrite IH. unfold step. cbn [fst snd handle]. apply resend_click_frame.
  - intros e ctx Hctx Hpin Hat. unfold resend_click. rewrite Hctx, Hpin.
    cbn [negb]. destruct (Z.geb_spec (now_utc_ts e) (resend_at ctx)); [|lia].
    cbn [negb]. unfold otp_resend. rewrite Hctx.
    now destruct (send_otp_email_to_approver _ _ _ _) as [[] msg_mail].
Qed.

End RequestFacts.

Section RequestRuns.

#[local] Existing Instance text_digest.


(** The fifty-first request of the day. *)
Lemma daily_limit_blocks_request_witness :
  OTP_DAILY_LIMIT
  <= rate_count (otp_rate limit_reached)
                (otp_bucket_key (env_at 1000 "123456") (APPROVER_EMAIL demo_secrets))
  /\ room_card_submit demo_secrets (env_at 1000 "123456") br
                      "Board meeting" "Ann" "2024-01-01" (mk_time 10 0) (mk_time 11 0)
                      limit_reached
     = Ret (limit_reached,
            [st_error "Daily OTP limit reached for approver. Try later."]).
Proof.
  assert (Hlim : OTP_DAILY_LIMIT
                 <= rate_count (otp_rate limit_reached)
                      (otp_bucket_key (env_at 1000 "123456")
                                      (APPROVER_EMAIL demo_secrets)))
    by (vm_compute; discriminate).
  split; [exact Hlim|].
  apply (proj2 (daily_limit_blocks_request demo_secrets (env_at 1000 "123456") br
                  "Board meeting" "Ann" "2024-01-01" (mk_time 10 0) (mk_time 11 0)
                  limit_reached eq_refl Hlim)); reflexivity.
Defined.

(** Two resends in a row, each after the cooldown: two more mails, the
    counter still at 1. *)
Lemma resend_keeps_send_count_witness :
  otp_rate (run demo_secrets before_approval
                [(env_resend 1100 "654321", Resend); (env_resend 1200 "777777", Resend)])
  = otp_rate before_approval
  /\ outbox (run demo_secrets before_approval
                 [(env_resend 1100 "654321", Resend); (env_resend 1200 "777777", Resend)])
     = [("boss@example.com", "123456"); ("boss@example.com", "654321");
        ("boss@example.com", "777777")].
Proof.
  split; [|reflexivity].
  apply (proj1 (proj2 (resend_keeps_send_count demo_secrets before_approval))
           [env_resend 1100 "654321"; env_resend 1200 "777777"]).
Defined.

End RequestRuns.

(* ------------------------------------------------------------------ *)
(** * Further properties: texts of times *)

Lemma reads_back_upload_all :
  forallb (fun h => forallb (fun m => reads_back_upload (Z.of_nat h) (Z.of_nat m))
                            (seq 0 60)) (seq 0 24) = true.
Proof. vm_compute. reflexivity. Qed.

Lemma strptime_fmt_time t : valid_time t -> strptime_HM (fmt_time t) = Ret t.
Proof.
  destruct t as [h m]. intros [Hh Hm]. cbn [hour minute] in Hh, Hm.
  pose proof reads_back_upload_all as Hall.
  rewrite forallb_forall in Hall.
  specialize (Hall (Z.to_nat h)). rewrite forallb_forall in Hall.
  assert (Hr : reads_back_upload (Z.of_nat (Z.to_nat h)) (Z.of_nat (Z.to_nat m)) = true).
  { apply Hall; apply in_seq; lia. }
  rewrite !Z2Nat.id in Hr by lia. unfold reads_back_upload in Hr.
  destruct (strptime_HM (fmt_time (mk_time h m))) as [[h' m']|]; [|discriminate].
  cbn [hour minute] in Hr. apply andb_true_iff in Hr as [->%Z.eqb_eq ->%Z.eqb_eq].
  reflexivity.
Qed.

(** Whatever [parse_time_str] returns is a time of day. *)
Lemma parse_time_str_valid s t : parse_time_str s = Ret t -> valid_time t.
Proof.
  unfold parse_time_str.
  destruct (Str.split ":" s) as [|hh [|mm [|? ?]]]; try discriminate.
  destruct (Str.int hh) as [h|]; [|discriminate].
  destruct (Str.int mm) as [m|]; [|discriminate].
  cbn [mbind py_bind]. unfold time_of.
  destruct (Z.leb_spec 0 h), (Z.ltb_spec h 24), (Z.leb_spec 0 m),
    (Z.ltb_spec m 60); try discriminate.
  intros [= <-]. unfold valid_time. cbn [hour minute]. lia.
Qed.

(** X1. Round trip of the time texts: what [fmt_time] writes for a time
    of day, [parse_time_str] and the [strptime] of the upload block both
    read back as that time. *)
Theorem fmt_time_round_trip (t : time) :
  valid_time t ->
  parse_time_str (fmt_time t) = Ret t /\ strptime_HM (fmt_time t) = Ret t.
Proof. intros Ht. split; [now apply parse_fmt_time | now apply strptime_fmt_time]. Qed.

Lemma fmt_time_round_trip_witness :
  valid_time (mk_time 9 5)
  /\ fmt_time (mk_time 9 5) = "09:05"
  /\ parse_time_str "09:05" = Ret (mk_time 9 5).
Proof.
  assert (Hv : valid_time (mk_time 9 5)) by (unfold valid_time; cbn; lia).
  split; [exact Hv|]. split; [reflexivity|].
  exact (proj1 (fmt_time_round_trip (mk_time 9 5) Hv)).
Defined.

(* ------------------------------------------------------------------ *)
(** * Further properties: [validate_booking] *)

Lemma same_day_app new_row df1 df2 :
  same_day new_row (df1 ++ df2) = same_day new_row df1 ++ same_day new_row df2.
Proof. unfold same_day. apply List.filter_app. Qed.

Lemma same_day_other new_row r :
  room_id r <> room_id new_row \/ date r <> date new_row ->
  same_day new_row [r] = [].
Proof.
  intros Hne. unfold same_day. cbn [List.filter].
  destruct (String.eqb_spec (room_id r) (room_id new_row)) as [Hr|_]; [|reflexivity].
  destruct (String.eqb_spec (date r) (date new_row)) as [Hd|_]; [|reflexivity].
  now destruct Hne.
Qed.

Lemma same_day_same new_row r :
  same_room_and_date new_row r -> same_day new_row [r] = [r].
Proof.
  intros [Hr Hd]. unfold same_day. cbn [List.filter].
  now rewrite Hr, Hd, !String.eqb_refl.
Qed.

(** The outcome of [validate_booking] is a function of the rows of the
    room and date of the candidate. *)
Lemma validate_booking_same_day new_row df df' :
  same_day new_row df = same_day new_row df' ->
  validate_booking new_row df = validate_booking new_row df'.
Proof. intros Heq. unfold validate_booking. now rewrite Heq. Qed.

(** X2. Rooms and days are independent: a row of another room or of
    another date, wherever it stands in the store and whatever its cells
    hold, does not change the outcome of [validate_booking]. *)
Theorem validate_booking_ignores_other_groups (new_row r : row) (df1 df2 : DataFrame) :
  room_id r <> room_id new_row \/ date r <> date new_row ->
  validate_booking new_row (df1 ++ r :: df2) = validate_booking new_row (df1 ++ df2).
Proof.
  intros Hne. apply validate_booking_same_day.
  change (r :: df2) with ([r] ++ df2).
  now rewrite !same_day_app, (same_day_other new_row r Hne).
Qed.

(** A row of Meeting Room 2 with unreadable cells next to a request for
    Meeting Room 1. *)
Lemma validate_booking_ignores_other_groups_witness :
  validate_booking cand_11_1130
    [existing_10_11; booking "mr2" "2024-01-01" "soon" "later"]
  = Ret None.
Proof.
  refine (eq_trans (validate_booking_ignores_other_groups cand_11_1130
                      (booking "mr2" "2024-01-01" "soon" "later")
                      [existing_10_11] [] _) _).
  - left. discriminate.
  - reflexivity.
Defined.

(** X3. Compatible requests commute: if a candidate [a] is accepted on
    a store and [b] is accepted once [a] is appended, then [b] is accepted
    on the store as it was and [a] is accepted once [b] is appended. *)
Theorem compatible_bookings_commute (a b : row) (df : DataFrame) :
  validate_booking a df = Ret None ->
  validate_booking b (df ++ [a]) = Ret None ->
  validate_booking b df = Ret None /\ validate_booking a (df ++ [b]) = Ret None.
Proof.
  intros Ha Hb.
  apply validate_booking_None in Ha
    as (sa & ea & Hta & Ha1 & Ha2 & Ha3 & Ha4 & Ha5 & Halla).
  apply validate_booking_None in Hb
    as (sb & eb & Htb & Hb1 & Hb2 & Hb3 & Hb4 & Hb5 & Hallb).
  rewrite same_day_app in Hallb. apply Forall_app in Hallb as [Hallb Hba].
  split; apply validate_booking_None.
  - exists sb, eb. now split_and!.
  - exists sa, ea. split_and!; try assumption.
    rewrite same_day_app. apply Forall_app. split; [assumption|].
    unfold same_day in Hba |- *. cbn [List.filter] in Hba |- *.
    destruct (String.eqb_spec (room_id a) (room_id b)) as [Hr|Hr];
      destruct (String.eqb_spec (room_id b) (room_id a)) as [Hr'|Hr'];
      try congruence; cbn [andb]; [|constructor].
    destruct (String.eqb_spec (date a) (date b)) as [Hd|Hd];
      destruct (String.eqb_spec (date b) (date a)) as [Hd'|Hd'];
      try congruence; [|constructor].
    apply Forall_cons_1 in Hba as [(s & e & Hs & Hov) _].
    constructor; [|constructor].
    exists sb, eb. split; [assumption|].
    assert (s = sa /\ e = ea) as [-> ->] by (split; congruence).
    now rewrite overlaps_sym.
Qed.

Lemma compatible_bookings_commute_witness :
  validate_booking cand_11_1130 [] = Ret None
  /\ validate_booking existing_10_11 [cand_11_1130] = Ret None.
Proof.
  apply (compatible_bookings_commute existing_10_11 cand_11_1130 []); reflexivity.
Defined.

(* ------------------------------------------------------------------ *)
(** * Further properties: requests through the form *)

Section FormFacts.

Context `{Sha256}.

(** X4. No double booking through the form: a request whose interval
    overlaps a committed reservation of the same room and date is answered
    with an error and changes nothing, for every room (gated or not), when
    the store is readable. *)
Theorem overlapping_request_rejected (cfg : secrets) (e : env) (room : Room)
    (t h d : string) (s f : time) (w : world) (r : row) (s1 f1 : time) :
  readable (bookings w) -> valid_time s -> valid_time f ->
  In r (bookings w) -> room_id r = id room -> date r = d ->
  row_times r = Ret (s1, f1) -> intervals_overlap s f s1 f1 ->
  exists msg, room_card_submit cfg e room t h d s f w = Ret (w, [st_error msg]).
Proof.
  intros Hread Hs Hf Hin Hroom Hdate Hr Hov. unfold room_card_submit.
  destruct (negb (nonempty t) || negb (nonempty h)); [eauto|].
  pose proof (quick_book_row_times e room t h d s f Hs Hf) as Hnew.
  destruct (validate_booking_returns _ _ _ _ Hnew Hread) as [[msg|] Hval];
    rewrite Hval; cbn [mbind py_bind]; [eauto|].
  exfalso. apply validate_booking_None in Hval
    as (s' & f' & Hnew' & _ & _ & _ & _ & _ & Hall).
  assert (s' = s /\ f' = f) as [-> ->] by (split; congruence).
  rewrite List.Forall_forall in Hall.
  destruct (Hall r) as (s2 & f2 & Hr' & Hno).
  { apply elem_of_same_day. split; [assumption|]. now split. }
  assert (s2 = s1 /\ f2 = f1) as [-> ->] by (split; congruence).
  apply overlaps_iff in Hov. congruence.
Qed.

End FormFacts.

Section FormRuns.

#[local] Existing Instance text_digest.

(** 10:30-11:30 in Meeting Room 1 next to the reservation 10:00-11:00. *)
Lemma overlapping_request_rejected_witness :
  exists msg,
    room_card_submit demo_secrets (env_at 1000 "123456") mr1 "Sync" "Ann"
                     "2024-01-01" (mk_time 10 30) (mk_time 11 30)
                     (world_with [existing_10_11])
    = Ret (world_with [existing_10_11], [st_error msg]).
Proof.
  apply (overlapping_request_rejected demo_secrets (env_at 1000 "123456") mr1
           "Sync" "Ann" "2024-01-01" (mk_time 10 30) (mk_time 11 30)
           (world_with [existing_10_11]) existing_10_11 (mk_time 10 0) (mk_time 11 0));
    try reflexivity; try (unfold valid_time; cbn; lia).
  - repeat constructor. exists (mk_time 10 0), (mk_time 11 0). reflexivity.
  - now left.
  - split; reflexivity.
Defined.

End FormRuns.

(* ------------------------------------------------------------------ *)
(** * Further properties: the rate limiter *)

Lemma string_length_app (a b : string) :
  String.length (a +:+ b) = (String.length a + String.length b)%nat.
Proof.
  induction a as [|c a IH]; [reflexivity|].
  change (String c a +:+ b) with (String c (a +:+ b)).
  cbn [String.length]. now rewrite IH.
Qed.

Lemma string_app_inj_r (a b t : string) : a +:+ t = b +:+ t -> a = b.
Proof.
  revert b. induction a as [|c a IH]; intros [|c' b] Heq.
  - reflexivity.
  - apply (f_equal String.length) in Heq.
    rewrite !string_length_app in Heq. cbn [String.length] in Heq. lia.
  - apply (f_equal String.length) in Heq.
    rewrite !string_length_app in Heq. cbn [String.length] in Heq. lia.
  - change (String c (a +:+ t) = String c' (b +:+ t)) in Heq.
    injection Heq as -> Heq. f_equal. now apply IH.
Qed.

Lemma otp_bucket_key_day e e' identifier :
  otp_bucket_key e' identifier = otp_bucket_key e identifier -> utc_day e' = utc_day e.
Proof.
  unfold otp_bucket_key. intros Heq.
  apply String.app_inj in Heq. now apply (String.app_inj "::") in Heq.
Qed.

Lemma otp_bucket_key_identifier e e' identifier identifier' :
  utc_day e' = utc_day e ->
  otp_bucket_key e' identifier' = otp_bucket_key e identifier ->
  identifier' = identifier.
Proof.
  unfold otp_bucket_key. intros -> Heq. now apply string_app_inj_r in Heq.
Qed.

Lemma rate_count_inc e identifier (data : gmap string Z) :
  rate_count (otp_inc_send e identifier data) (otp_bucket_key e identifier)
  = rate_count data (otp_bucket_key e identifier) + 1.
Proof. unfold otp_inc_send, rate_count. now rewrite lookup_insert_eq. Qed.

Lemma otp_inc_send_other e identifier (data : gmap string Z) k :
  k <> otp_bucket_key e identifier ->
  otp_inc_send e identifier data !! k = data !! k.
Proof. intros Hk. unfold otp_inc_send. now rewrite lookup_insert_ne. Qed.

(** X5. Counting sends: [n] recorded sends add exactly [n] to the count
    of the bucket of the identifier and day and leave every other key of
    the file alone; from an empty file, [otp_can_send] then allows a send
    exactly while [n] is below the daily limit and reports limit - [n] as
    remaining. *)
Theorem otp_inc_send_counts (e : env) (identifier : string) (data : gmap string Z) :
  (forall n : nat,
     rate_count (Nat.iter n (otp_inc_send e identifier) data)
                (otp_bucket_key e identifier)
     = rate_count data (otp_bucket_key e identifier) + Z.of_nat n)
  /\ (forall (n : nat) k, k <> otp_bucket_key e identifier ->
        Nat.iter n (otp_inc_send e identifier) data !! k = data !! k)
  /\ (forall n : nat,
        otp_can_send e identifier (Nat.iter n (otp_inc_send e identifier) ∅)
        = (Z.of_nat n <? OTP_DAILY_LIMIT, OTP_DAILY_LIMIT - Z.of_nat n)).
Proof.
  assert (Hcount : forall (d : gmap string Z) (n : nat),
     rate_count (Nat.iter n (otp_inc_send e identifier) d)
                (otp_bucket_key e identifier)
     = rate_count d (otp_bucket_key e identifier) + Z.of_nat n).
  { intros d n. induction n as [|n IH]; [cbn; lia|].
    rewrite Nat.iter_succ, rate_count_inc, IH. lia. }
  split_and!.
  - apply Hcount.
  - intros n k Hk. induction n as [|n IH]; [reflexivity|].
    rewrite Nat.iter_succ. now rewrite otp_inc_send_other.
  - intros n. unfold otp_can_send. rewrite Hcount.
    unfold rate_count at 1 2. rewrite lookup_empty. cbn [default].
    now rewrite Z.add_0_l.
Qed.

(** X6. Buckets are separate: a send recorded for an identifier on one
    UTC day does not change what [otp_can_send] answers for the same
    identifier on another day, nor for another identifier on that day. *)
Theorem rate_buckets_are_separate (e e' : env) (identifier identifier' : string)
    (data : gmap string Z) :
  (identifier' = identifier /\ utc_day e' <> utc_day e)
  \/ (utc_day e' = utc_day e /\ identifier' <> identifier) ->
  otp_can_send e' identifier' (otp_inc_send e identifier data)
  = otp_can_send e' identifier' data.
Proof.
  intros Hsep.
  assert (Hk : otp_bucket_key e' identifier' <> otp_bucket_key e identifier).
  { intros Heq. destruct Hsep as [[-> Hday]|[Hday Hid]].
    - now apply otp_bucket_key_day in Heq.
    - now apply otp_bucket_key_identifier in Heq. }
  unfold otp_can_send, rate_count. now rewrite otp_inc_send_other.
Qed.

(** The fifty sends of 2024-01-01 do not count on 2024-01-02. *)
Lemma rate_buckets_are_separate_witness :
  otp_can_send (mk_env 90000 "2024-01-02" "" "" None "") "boss@example.com"
               (otp_inc_send (env_at 1000 "") "boss@example.com"
                             (<["boss@example.com::2024-01-01" := 49]> ∅))
  = (true, 50).
Proof.
  refine (eq_trans (rate_buckets_are_separate (env_at 1000 "")
                      (mk_env 90000 "2024-01-02" "" "" None "")
                      "boss@example.com" "boss@example.com" _ _) _).
  - left. split; [reflexivity | discriminate].
  - reflexivity.
Defined.

(* ------------------------------------------------------------------ *)
(** * Further properties: the approval panel *)

Section PanelFacts.

Context `{Sha256}.

(** The PIN flag after a submitted form: as before, or dropped. *)
Lemma room_card_submit_pin cfg e room t h d s f w w' msgs :
  room_card_submit cfg e room t h d s f w = Ret (w', msgs) ->
  approver_pin_ok (session w') = approver_pin_ok (session w)
  \/ approver_pin_ok (session w') = false.
Proof.
  unfold room_card_submit.
  destruct (negb (nonempty t) || negb (nonempty h)); [intros [= <- _]; now left|].
  destruct (validate_booking _ (bookings w)) as [[msg|]|];
    cbn [mbind py_bind]; [intros [= <- _]; now left | | discriminate].
  destruct (negb (String.eqb (id room) "br")); [intros [= <- _]; now left|].
  destruct (negb (is_email _)); [intros [= <- _]; now left|].
  unfold otp_can_send, otp_start_session.
  destruct (negb _); [intros [= <- _]; now left|]. cbv zeta.
  destruct (send_otp_email_to_approver _ _ _ _) as [[] msg_mail]; cbn [negb];
    intros [= <- _]; [now left | now right].
Qed.

Lemma upload_click_session up_df w w' msgs :
  upload_click up_df w = Ret (w', msgs) -> session w' = session w.
Proof.
  unfold upload_click.
  destruct (upload_err_msgs up_df) as [[|m ms]|]; cbn [mbind py_bind];
    [| |discriminate]; now intros [= <- _].
Qed.

(** With the panel locked, a click that does not carry the PIN changes
    nothing if it is a click of the panel, and leaves the panel locked in
    every case. *)
Lemma locked_step cfg w e ev :
  approver_pin_ok (session w) = false ->
  (APPROVER_PIN cfg = "" \/ ev <> Unlock (APPROVER_PIN cfg)) ->
  approver_pin_ok (session (step cfg w (e, ev))) = false
  /\ (panel_event ev = true -> step cfg w (e, ev) = w).
Proof.
  intros Hpin Hev. unfold step. cbn [fst snd].
  destruct ev as [room t h d s f|pin_try|user_otp| |up_df]; cbn [handle panel_event].
  - split; [|discriminate].
    destruct (room_card_submit cfg e room t h d s f w) as [[w' msgs]|] eqn:Hs;
      [|assumption].
    apply room_card_submit_pin in Hs as [->| ->]; [assumption | reflexivity].
  - assert (Hno : nonempty pin_try && String.eqb pin_try (APPROVER_PIN cfg) = false).
    { destruct Hev as [->|Hne].
      - destruct pin_try; reflexivity.
      - destruct (String.eqb_spec pin_try (APPROVER_PIN cfg)) as [->|_];
          [now destruct Hne | apply andb_false_r]. }
    unfold unlock_click. destruct (otp_ctx (session w)); [|now split].
    rewrite Hpin, Hno. now split.
  - unfold verify_click. destruct (otp_ctx (session w)); [|now split].
    rewrite Hpin. now split.
  - unfold resend_click. destruct (otp_ctx (session w)); [|now split].
    rewrite Hpin. now split.
  - split; [|discriminate].
    destruct (upload_click up_df w) as [[w' msgs]|] eqn:Hu; [|assumption].
    apply upload_click_session in Hu. now rewrite Hu.
Qed.

(** X7. The PIN gates the panel: from a state with the panel locked,
    along any interactions among which no "Unlock Approval" carries the
    approver PIN, the panel stays locked and every click on "Verify OTP",
    "Resend OTP" or "Unlock Approval" is without effect: the run ends as if
    those clicks had not been made.  With an empty PIN in the secrets no
    input unlocks the panel at all. *)
Theorem locked_panel_is_inert (cfg : secrets) (w : world) (xs : list (env * event)) :
  approver_pin_ok (session w) = false ->
  (APPROVER_PIN cfg = "" \/ forall e, ~ In (e, Unlock (APPROVER_PIN cfg)) xs) ->
  approver_pin_ok (session (run cfg w xs)) = false
  /\ run cfg w xs
     = run cfg w (List.filter (fun x => negb (panel_event (snd x))) xs).
Proof.
  revert w. induction xs as [|[e ev] xs IH]; intros w Hpin Hxs; [now split|].
  assert (Hev : APPROVER_PIN cfg = "" \/ ev <> Unlock (APPROVER_PIN cfg)).
  { destruct Hxs as [?|Hno]; [now left | right].
    intros ->. apply (Hno e). now left. }
  assert (Hxs' : APPROVER_PIN cfg = ""
                 \/ forall e0, ~ In (e0, Unlock (APPROVER_PIN cfg)) xs).
  { destruct Hxs as [?|Hno]; [now left | right].
    intros e0 Hin. apply (Hno e0). now right. }
  destruct (locked_step cfg w e ev Hpin Hev) as [Hpin' Hsame].
  cbn [run fold_left List.filter snd]. fold (run cfg).
  destruct (panel_event ev) eqn:Hp; cbn [negb].
  - rewrite (Hsame eq_refl). now apply IH.
  - cbn [fold_left]. fold (run cfg). now apply IH.
Qed.



(** A click on "Verify OTP" either leaves the store as it is or clears
    the session. *)
Lemma verify_click_cases e user_otp w :
  bookings (fst (verify_click e user_otp w)) = bookings w
  \/ otp_ctx (session (fst (verify_click e user_otp w))) = None.
Proof.
  unfold verify_click. destruct (otp_ctx (session w)); [|now left].
  destruct (negb (approver_pin_ok (session w))); [now left|].
  destruct (negb _); [now left|].
  destruct (otp_verify e user_otp (session w)) as [ss1 [[] msg]]; [now right | now left].
Qed.

Lemma no_session_step cfg w e ev :
  otp_ctx (session w) = None -> panel_event ev = true -> step cfg w (e, ev) = w.
Proof.
  intros Hctx Hev. unfold step. cbn [fst snd].
  destruct ev as [room t h d s f|pin_try|user_otp| |up_df]; try discriminate;
    cbn [handle].
  - unfold unlock_click. now rewrite Hctx.
  - unfold verify_click. now rewrite Hctx.
  - unfold resend_click. now rewrite Hctx.
Qed.

Lemma no_session_run cfg w xs :
  otp_ctx (session w) = None ->
  Forall (fun x => panel_event (snd x) = true) xs ->
  run cfg w xs = w.
Proof.
  intros Hctx Hxs. induction Hxs as [|[e ev] xs Hev _ IH]; [reflexivity|].
  cbn [run fold_left]. fold (run cfg). cbn [snd] in Hev.
  now rewrite no_session_step.
Qed.

(** X9. A request is approved at most once: when a click on "Verify OTP"
    has changed the store, no further click of the panel (verify, resend,
    unlock) changes anything until a new request is made. *)
Theorem approval_commits_once (cfg : secrets) (e : env) (user_otp : string)
    (w : world) (xs : list (env * event)) :
  bookings (step cfg w (e, Verify user_otp)) <> bookings w ->
  Forall (fun x => panel_event (snd x) = true) xs ->
  run cfg (step cfg w (e, Verify user_otp)) xs = step cfg w (e, Verify user_otp).
Proof.
  intros Hchg Hxs. apply no_session_run; [|assumption].
  unfold step in *. cbn [fst snd handle] in *.
  destruct (verify_click_cases e user_otp w) as [Hsame|Hnone]; [|assumption].
  destruct (verify_click e user_otp w) as [w' msgs]. cbn [fst] in *. now destruct Hchg.
Qed.

Lemma otp_verify_frame e user_otp ss ctx :
  otp_ctx ss = Some ctx ->
  exists ctx', otp_ctx (fst (otp_verify e user_otp ss)) = Some ctx'
               /\ approver_pin_ok (fst (otp_verify e user_otp ss)) = approver_pin_ok ss
               /\ verify_frame ctx ctx'.
Proof.
  intros Hctx. unfold otp_verify. rewrite Hctx. unfold verify_frame.
  destruct (verified ctx) eqn:Hv; [exists ctx; cbn [fst]; split_and!; auto; lia|].
  destruct (_ >? _); [exists ctx; cbn [fst]; split_and!; auto; lia|].
  destruct (Z.leb_spec (attempts_left ctx) 0);
    [exists ctx; cbn [fst]; split_and!; auto; lia|].
  destruct (String.eqb _ _);
    [exists (set_verified true ctx)
    | exists (set_attempts_left (attempts_left ctx - 1) ctx)];
    cbn; intuition (try congruence; try lia).
Qed.

(** X10. Attempts never touch what is pending: whatever candidates are
    entered and whenever, [otp_verify] keeps the salt, the hash, the
    expiry, the resend instant, the approver and the pending row of the
    session, never raises the attempts left and never takes them below
    zero, and never takes back a verification. *)
Theorem otp_verify_each_keeps_pending (xs : list (env * string))
    (ss : session_state) (ctx : OtpCtx) :
  otp_ctx ss = Some ctx ->
  exists ctx',
    otp_ctx (fst (otp_verify_each xs ss)) = Some ctx'
    /\ approver_pin_ok (fst (otp_verify_each xs ss)) = approver_pin_ok ss
    /\ verify_frame ctx ctx'.
Proof.
  revert ss ctx. induction xs as [|[e c] xs IH]; intros ss ctx Hctx.
  - exists ctx. cbn. unfold verify_frame. split_and!; auto; lia.
  - rewrite otp_verify_each_cons. cbn [fst].
    destruct (otp_verify_frame e c ss ctx Hctx) as (ctx1 & Hctx1 & Hpin1 & Hf1).
    destruct (IH _ _ Hctx1) as (ctx2 & Hctx2 & Hpin2 & Hf2).
    exists ctx2. split; [assumption|]. split; [congruence|].
    unfold verify_frame in *. intuition (try congruence; try lia).
Qed.

(** X11. An expired passcode approves nothing: while the pending session
    is unverified, clicks on "Verify OTP" made after its expiry leave the
    whole state as it is, whatever is entered. *)
Theorem expired_request_is_not_approved (cfg : secrets) (w : world) (ctx : OtpCtx)
    (xs : list (env * string)) :
  otp_ctx (session w) = Some ctx -> verified ctx = false ->
  Forall (fun x => now_utc_ts (fst x) > expires_at ctx) xs ->
  run cfg w (map (fun x => (fst x, Verify (snd x))) xs) = w.
Proof.
  intros Hctx Hv Hxs. induction Hxs as [|[e c] xs He _ IH]; [reflexivity|].
  cbn [map run fold_left fst snd]. fold (run cfg).
  assert (Hstep : step cfg w (e, Verify c) = w).
  { unfold step. cbn [fst snd handle]. unfold verify_click. rewrite Hctx.
    destruct (negb (approver_pin_ok (session w))); [reflexivity|].
    destruct (negb _); [reflexivity|].
    rewrite (otp_verify_expired e c (session w) ctx Hctx Hv He).
    destruct w as [b ss r o]. reflexivity. }
  now rewrite Hstep.
Qed.

End PanelFacts.

Section PanelRuns.

#[local] Existing Instance text_digest.

(** The right passcode, a resend and a wrong PIN on the locked panel. *)
Lemma locked_panel_is_inert_witness :
  approver_pin_ok (session locked_pending) = false
  /\ run demo_secrets locked_pending
         [ (env_at 1010 "", Verify "123456"); (env_resend 1100 "654321", Resend);
           (env_at 1110 "", Unlock "0000") ]
     = locked_pending.
Proof.
  split; [reflexivity|].
  refine (proj2 (locked_panel_is_inert demo_secrets locked_pending
                   [ (env_at 1010 "", Verify "123456");
                     (env_resend 1100 "654321", Resend);
                     (env_at 1110 "", Unlock "0000") ] eq_refl _)).
  right. intros e [Hin|[Hin|[Hin|[]]]]; discriminate.
Defined.


(** After the approval of [stale_approval], three more clicks. *)
Lemma approval_commits_once_witness :
  run demo_secrets (step demo_secrets before_approval (env_at 1030 "", Verify "123456"))
      [ (env_at 1040 "", Verify "123456"); (env_resend 1100 "654321", Resend);
        (env_at 1110 "", Unlock "4321") ]
  = step demo_secrets before_approval (env_at 1030 "", Verify "123456").
Proof.
  apply (approval_commits_once demo_secrets (env_at 1030 "") "123456" before_approval).
  - vm_compute. discriminate.
  - repeat constructor.
Defined.

(** Five wrong candidates on the fresh session. *)
Lemma otp_verify_each_keeps_pending_witness :
  exists ctx',
    otp_ctx (fst (otp_verify_each five_wrong fresh_session)) = Some ctx'
    /\ approver_pin_ok (fst (otp_verify_each five_wrong fresh_session))
       = approver_pin_ok fresh_session
    /\ verify_frame pending_ctx ctx'.
Proof.
  apply (otp_verify_each_keeps_pending five_wrong fresh_session pending_ctx).
  reflexivity.
Defined.

(** The right passcode, one second and then long after the expiry. *)
Lemma expired_request_is_not_approved_witness :
  run demo_secrets before_approval
      [ (env_at 1301 "", Verify "123456"); (env_at 2000 "", Verify "123456") ]
  = before_approval.
Proof.
  apply (expired_request_is_not_approved demo_secrets before_approval pending_ctx
           [ (env_at 1301 "", "123456"); (env_at 2000 "", "123456") ]);
    try reflexivity.
  repeat constructor.
Defined.

End PanelRuns.

(* ------------------------------------------------------------------ *)
(** * Further properties: the upload block *)

Lemma first_conflict_raises start_t end_t r rows :
  row_times r = Raise -> Forall (fun r' => r' = r) rows -> rows <> [] ->
  first_conflict start_t end_t rows = Raise.
Proof.
  intros Hr Hall Hne. destruct Hall as [|r' rows -> _]; [now destruct Hne|].
  cbn [first_conflict]. unfold row_times in Hr.
  destruct (parse_time_str (start_time r)); [|reflexivity]. cbn [mbind py_bind] in *.
  destruct (parse_time_str (end_time r)); [discriminate | reflexivity].
Qed.

(** X12. Rows that are alone in their group are not read: an upload in
    which no two rows share a fixed room and a date is saved whatever its
    time cells hold.  If such a row does not read as times, then after the
    upload [validate_booking] raises for every request of its room and date
    that passes the checks on its own times. *)
Theorem unread_rows_break_booking (up_df : DataFrame) (w : world)
    (r new_row : row) (s e : time) :
  (forall i j r1 r2,
     (i < j)%nat -> up_df !! i = Some r1 -> up_df !! j = Some r2 ->
     fixed_room (room_id r1) -> room_id r2 = room_id r1 -> date r2 <> date r1) ->
  In r up_df -> row_times r = Raise -> same_room_and_date new_row r ->
  (forall r', In r' up_df -> same_room_and_date new_row r' -> r' = r) ->
  row_times new_row = Ret (s, e) ->
  time_lt s e = true -> within_hours s -> within_hours e ->
  on_slot_grid s -> on_slot_grid e ->
  upload_click up_df w
  = Ret (set_bookings up_df w, [st_success "Bookings uploaded and saved."])
  /\ validate_booking new_row (bookings (after_upload up_df w)) = Raise.
Proof.
  intros Halone Hin Hr Hsame Honly Hnew Hlt Hs He Hgs Hge.
  assert (Hclean : upload_clean up_df).
  { intros i j r1 r2 Hij H1 H2 Hfix Hroom Hdate.
    now destruct (Halone i j r1 r2 Hij H1 H2 Hfix Hroom). }
  assert (Hup : upload_click up_df w
                = Ret (set_bookings up_df w, [st_success "Bookings uploaded and saved."]))
    by now apply upload_click_clean.
  split; [exact Hup|]. unfold after_upload. rewrite Hup. cbn [set_bookings bookings].
  apply row_times_Ret in Hnew as [Hps Hpe].
  unfold validate_booking. rewrite Hps, Hpe. cbn [mbind py_bind].
  apply minute_on_grid in Hgs, Hge.
  assert (H1 : time_le e s = false) by (clear - Hlt; time_order).
  assert (H2 : time_lt s (fst BUSINESS_HOURS) = false) by (clear - Hs; time_order).
  assert (H3 : time_gt e (snd BUSINESS_HOURS) = false) by (clear - He; time_order).
  rewrite H1, H2, H3. cbn [orb existsb]. rewrite Hgs, Hge. cbn [Z.eqb negb orb].
  apply (first_conflict_raises s e r); [assumption | |].
  - rewrite List.Forall_forall. intros r' Hr'.
    apply elem_of_same_day in Hr' as [Hr' Hgrp]. now apply Honly.
  - intros Hnil. assert (Hin' : In r (same_day new_row up_df))
      by (apply elem_of_same_day; now split).
    now rewrite Hnil in Hin'.
Qed.

(** One row of Meeting Room 1 with the cells "11h" and "12h". *)
Lemma unread_rows_break_booking_witness :
  upload_click [booking "mr1" "2024-01-01" "11h" "12h"] (world_with [existing_10_11])
  = Ret (world_with [booking "mr1" "2024-01-01" "11h" "12h"],
         [st_success "Bookings uploaded and saved."])
  /\ validate_booking cand_11_1130
       (bookings (after_upload [booking "mr1" "2024-01-01" "11h" "12h"]
                               (world_with [existing_10_11])))
     = Raise.
Proof.
  apply (unread_rows_break_booking [booking "mr1" "2024-01-01" "11h" "12h"]
           (world_with [existing_10_11]) (booking "mr1" "2024-01-01" "11h" "12h")
           cand_11_1130 (mk_time 11 0) (mk_time 11 30));
    try reflexivity; try (split; reflexivity).
  - intros i j r1 r2 Hij H1 H2. apply lookup_lt_Some in H2. cbn in H2. lia.
  - now left.
  - intros r' [<-|[]] _. reflexivity.
Defined.

Lemma for_each_In {A : Type} (body : A -> py (list string)) (l : list A) msgs :
  for_each body l = Ret msgs ->
  forall m, In m msgs <-> exists x ms, In x l /\ body x = Ret ms /\ In m ms.
Proof.
  revert msgs. induction l as [|x l IH]; intros msgs; cbn [for_each].
  - intros [= <-] m. split; [intros [] | intros (? & ? & [] & _)].
  - destruct (body x) as [here|] eqn:Hx; cbn [mbind py_bind]; [|discriminate].
    destruct (for_each body l) as [rest|]; cbn [mbind py_bind]; [|discriminate].
    intros [= <-] m. rewrite in_app_iff, (IH rest eq_refl m). split.
    + intros [Hm|(y & ms & Hy & Hb & Hm)].
      * exists x, here. split_and!; [now left | assumption | assumption].
      * exists y, ms. split_and!; [now right | assumption | assumption].
    + intros (y & ms & [<-|Hy] & Hb & Hm).
      * left. congruence.
      * right. eauto.
Qed.

Lemma for_each_body_Ret {A : Type} (body : A -> py (list string)) (l : list A) msgs x :
  for_each body l = Ret msgs -> In x l -> exists ms, body x = Ret ms.
Proof.
  revert msgs. induction l as [|y l IH]; intros msgs; cbn [for_each]; [intros _ []|].
  destruct (body y) as [here|] eqn:Hy; cbn [mbind py_bind]; [|discriminate].
  destruct (for_each body l) as [rest|]; cbn [mbind py_bind]; [|discriminate].
  intros _ [<-|Hx]; [eauto | now apply (IH rest)].
Qed.

(** What the body of the inner loops reports for two rows. *)
Lemma pair_check_In rid d i r1 j r2 ms m :
  pair_check rid d (i, r1) (j, r2) = Ret ms -> In m ms ->
  (i < j)%nat
  /\ exists s1 e1 s2 e2,
       upload_times r1 = Ret (s1, e1) /\ upload_times r2 = Ret (s2, e2)
       /\ intervals_overlap s1 e1 s2 e2
       /\ m = "Overlap in " +:+ rid +:+ " on " +:+ d +:+ ": "
              +:+ start_time r1 +:+ "-" +:+ end_time r1 +:+ " vs "
              +:+ start_time r2 +:+ "-" +:+ end_time r2.
Proof.
  unfold pair_check.
  destruct (Nat.leb_spec j i) as [Hji|Hji]; [intros [= <-] []|].
  setoid_rewrite upload_times_Ret.
  destruct (strptime_HM (start_time r1)) as [s1|]; cbn [mbind py_bind]; [|discriminate].
  destruct (strptime_HM (end_time r1)) as [e1|]; cbn [mbind py_bind]; [|discriminate].
  destruct (strptime_HM (start_time r2)) as [s2|]; cbn [mbind py_bind]; [|discriminate].
  destruct (strptime_HM (end_time r2)) as [e2|]; cbn [mbind py_bind]; [|discriminate].
  rewrite upload_overlaps_eq.
  destruct (overlaps s1 e1 s2 e2) eqn:Hov; intros [= <-]; [|intros []].
  intros [<-|[]]. split; [assumption|].
  exists s1, e1, s2, e2. split_and!; try reflexivity. now apply overlaps_iff.
Qed.

Lemma pair_check_overlap rid d i r1 j r2 s1 e1 s2 e2 :
  (i < j)%nat ->
  upload_times r1 = Ret (s1, e1) -> upload_times r2 = Ret (s2, e2) ->
  intervals_overlap s1 e1 s2 e2 ->
  pair_check rid d (i, r1) (j, r2)
  = Ret ["Overlap in " +:+ rid +:+ " on " +:+ d +:+ ": "
         +:+ start_time r1 +:+ "-" +:+ end_time r1 +:+ " vs "
         +:+ start_time r2 +:+ "-" +:+ end_time r2].
Proof.
  intros Hij [H1 H2]%upload_times_Ret [H3 H4]%upload_times_Ret Hov.
  unfold pair_check. destruct (Nat.leb_spec j i); [lia|].
  rewrite H1, H2, H3, H4. cbn [mbind py_bind].
  apply overlaps_iff in Hov. rewrite upload_overlaps_eq, Hov. reflexivity.
Qed.

Lemma In_group up_df rid d i r :
  In (i, r) (rows_of_date d (rows_of_room rid (iterrows up_df))) <->
  up_df !! i = Some r /\ room_id r = rid /\ date r = d.
Proof.
  unfold rows_of_date, rows_of_room. rewrite !filter_In, In_iterrows.
  cbn [snd]. rewrite !String.eqb_eq. tauto.
Qed.

(** X13. The report of a blocked upload is exact: when the loops of the
    upload block end without an exception, the lines of [err_msgs] are
    exactly the lines of the pairs of rows, the earlier one first, that
    share a fixed room and a date and whose intervals overlap. *)
Theorem upload_reports_every_overlap (up_df : DataFrame) (msgs : list string) :
  upload_err_msgs up_df = Ret msgs ->
  forall m,
    In m msgs <->
    exists i j r1 r2 s1 e1 s2 e2,
      (i < j)%nat /\ up_df !! i = Some r1 /\ up_df !! j = Some r2
      /\ fixed_room (room_id r1) /\ room_id r2 = room_id r1 /\ date r2 = date r1
      /\ upload_times r1 = Ret (s1, e1) /\ upload_times r2 = Ret (s2, e2)
      /\ intervals_overlap s1 e1 s2 e2
      /\ m = overlap_message r1 r2.
Proof.
  intros Hres m. unfold upload_err_msgs in Hres. split.
  - intros Hm.
    apply (for_each_In _ _ _ Hres) in Hm as (rid & ms1 & Hrid & H1 & Hm).
    apply (for_each_In _ _ _ H1) in Hm as (d & ms2 & Hd & H2 & Hm).
    apply (for_each_In _ _ _ H2) in Hm as ([i r1] & ms3 & Hx & H3 & Hm).
    apply (for_each_In _ _ _ H3) in Hm as ([j r2] & ms4 & Hy & H4 & Hm).
    apply In_group in Hx as (Hi & Hr1 & Hd1), Hy as (Hj & Hr2 & Hd2).
    destruct (pair_check_In _ _ _ _ _ _ _ _ H4 Hm)
      as (Hij & s1 & e1 & s2 & e2 & Ht1 & Ht2 & Hov & ->).
    exists i, j, r1, r2, s1, e1, s2, e2. subst rid d.
    split_and!; try assumption; try congruence. reflexivity.
  - intros (i & j & r1 & r2 & s1 & e1 & s2 & e2
            & Hij & Hi & Hj & Hfix & Hr & Hd & Ht1 & Ht2 & Hov & ->).
    assert (Hx : In (i, r1) (rows_of_date (date r1)
                   (rows_of_room (room_id r1) (iterrows up_df))))
      by now apply In_group.
    assert (Hy : In (j, r2) (rows_of_date (date r1)
                   (rows_of_room (room_id r1) (iterrows up_df))))
      by now apply In_group.
    assert (Hdate : In (date r1) (unique (map (fun x => date (snd x))
                      (rows_of_room (room_id r1) (iterrows up_df))))).
    { apply In_unique, in_map_iff. exists (i, r1). split; [reflexivity|].
      unfold rows_of_room. rewrite filter_In, In_iterrows. cbn [snd].
      now rewrite String.eqb_refl. }
    destruct (for_each_body_Ret _ _ _ _ Hres Hfix) as [ms1 H1].
    destruct (for_each_body_Ret _ _ _ _ H1 Hdate) as [ms2 H2].
    destruct (for_each_body_Ret _ _ _ _ H2 Hx) as [ms3 H3].
    apply (for_each_In _ _ _ Hres). exists (room_id r1), ms1. split_and!; try assumption.
    apply (for_each_In _ _ _ H1). exists (date r1), ms2. split_and!; try assumption.
    apply (for_each_In _ _ _ H2). exists (i, r1), ms3. split_and!; try assumption.
    apply (for_each_In _ _ _ H3). eexists (j, r2), _. split_and!; [assumption | |].
    + now apply (pair_check_overlap _ _ i r1 j r2 s1 e1 s2 e2).
    + now left.
Qed.

(** The upload of the two overlapping rows of Meeting Room 1. *)
Lemma upload_reports_every_overlap_witness :
  upload_err_msgs up_overlap_mr1
  = Ret ["Overlap in mr1 on 2024-01-01: 10:00-11:00 vs 10:30-11:30"]
  /\ In (overlap_message existing_10_11 cand_1030_1130)
        ["Overlap in mr1 on 2024-01-01: 10:00-11:00 vs 10:30-11:30"].
Proof.
  split; [reflexivity|].
  apply (proj2 (upload_reports_every_overlap up_overlap_mr1 _ eq_refl _)).
  exists 0%nat, 1%nat, existing_10_11, cand_1030_1130,
    (mk_time 10 0), (mk_time 11 0), (mk_time 10 30), (mk_time 11 30).
  split_and!; try reflexivity; [lia | now left | split; reflexivity].
Defined.

(* ------------------------------------------------------------------ *)
(** * Further properties: now and next of a room *)

Lemma time_le_dt today a b :
  valid_time a -> valid_time b -> time_le a b = true ->
  dt_ist today a <= dt_ist today b.
Proof.
  unfold valid_time, dt_ist. intros Ha Hb Hle. apply time_le_true in Hle. lia.
Qed.

Lemma time_le_total a b : time_le a b = false -> time_le b a = true.
Proof. intros Hab. time_order. Qed.

Lemma time_le_trans a b c :
  time_le a b = true -> time_le b c = true -> time_le a c = true.
Proof. intros Hab Hbc. time_order. Qed.

Lemma insert_by_start_In x l y :
  In y (insert_by_start x l) <-> y = x \/ In y l.
Proof.
  induction l as [|z l IH]; cbn [insert_by_start In]; [intuition|].
  destruct (time_le (snd x) (snd z)); cbn [In]; [intuition|].
  rewrite IH. intuition.
Qed.

Lemma sort_by_start_In l y : In y (sort_by_start l) <-> In y l.
Proof.
  induction l as [|x l IH]; cbn [sort_by_start fold_right In]; [tauto|].
  fold (sort_by_start l). rewrite insert_by_start_In, IH. intuition.
Qed.

Lemma insert_by_start_sorted x l :
  StronglySorted key_le l -> StronglySorted key_le (insert_by_start x l).
Proof.
  induction 1 as [|z l Hl IH Hz]; cbn [insert_by_start].
  - repeat constructor.
  - destruct (time_le (snd x) (snd z)) eqn:Hxz.
    + constructor; [now constructor|]. constructor; [exact Hxz|].
      rewrite List.Forall_forall in Hz |- *. intros y Hy.
      unfold key_le in *. eapply time_le_trans; [exact Hxz | now apply Hz].
    + constructor; [assumption|].
      rewrite List.Forall_forall in Hz |- *. intros y Hy.
      apply insert_by_start_In in Hy as [->|Hy]; [|now apply Hz].
      now apply time_le_total.
Qed.

Lemma sort_by_start_sorted l : StronglySorted key_le (sort_by_start l).
Proof.
  induction l as [|x l IH]; cbn [sort_by_start fold_right]; [constructor|].
  now apply insert_by_start_sorted.
Qed.

(** The parsed column next to its rows. *)
Lemma apply_parse_time_str_Ret (cell : row -> string) (rows : DataFrame) :
  Forall (fun r => exists t, parse_time_str (cell r) = Ret t) rows ->
  exists ts,
    apply_parse_time_str (map cell rows) = Ret ts
    /\ (forall r, In r rows -> exists t, In (r, t) (combine rows ts))
    /\ (forall r t, In (r, t) (combine rows ts) -> parse_time_str (cell r) = Ret t).
Proof.
  induction 1 as [|r rows [t Ht] _ (ts & Hts & Hin & Hout)];
    cbn [map apply_parse_time_str].
  - exists []. split; [reflexivity|]. split; [intros ? [] | intros ? ? []].
  - rewrite Ht, Hts. cbn [mbind py_bind]. exists (t :: ts).
    split; [reflexivity|]. cbn [combine In]. split.
    + intros r' [<-|Hr']; [eauto|]. destruct (Hin r' Hr') as [t' Ht']. eauto.
    + intros r' t' [[= <- <-]|Hr']; [assumption | now apply Hout].
Qed.

Lemma apply_parse_time_str_Raise (cell : row -> string) (rows : DataFrame) r :
  In r rows -> parse_time_str (cell r) = Raise ->
  apply_parse_time_str (map cell rows) = Raise.
Proof.
  induction rows as [|r' rows IH]; [intros []|].
  intros [->|Hin] Hr; cbn [map apply_parse_time_str].
  - now rewrite Hr.
  - destruct (parse_time_str (cell r')); [|reflexivity]. cbn [mbind py_bind].
    now rewrite IH.
Qed.

Lemma today_rows_spec df room_id_ today :
  day_readable df room_id_ today ->
  exists l,
    today_rows df room_id_ today = Ret (map fst l)
    /\ parsed_pairs l /\ StronglySorted key_le l
    /\ (forall r, In r (map fst l) <->
                  In r df /\ room_id r = room_id_ /\ date r = isoformat today).
Proof.
  intros Hread. unfold today_rows.
  set (rows := List.filter _ df).
  assert (Hrows : forall r, In r rows <->
                  In r df /\ room_id r = room_id_ /\ date r = isoformat today).
  { intros r. unfold rows. rewrite filter_In, andb_true_iff, !String.eqb_eq. tauto. }
  assert (Hall : Forall (fun r => exists s e, row_times r = Ret (s, e)) rows).
  { rewrite List.Forall_forall. intros r Hr. apply Hrows in Hr as (? & ? & ?).
    now apply Hread. }
  clearbody rows.
  destruct (apply_parse_time_str_Ret start_time rows) as (starts & Hs & Hin & Hout).
  { eapply List.Forall_impl; [|exact Hall]. intros r (s & e & Hr).
    apply row_times_Ret in Hr as [? ?]. eauto. }
  destruct (apply_parse_time_str_Ret end_time rows) as (ends & He & _ & _).
  { eapply List.Forall_impl; [|exact Hall]. intros r (s & e & Hr).
    apply row_times_Ret in Hr as [? ?]. eauto. }
  destruct rows as [|r0 rows'].
  - exists []. split; [reflexivity|]. split; [constructor|]. split; [constructor|].
    intros r. rewrite <- Hrows. reflexivity.
  - cbv iota. remember (r0 :: rows') as rows eqn:Hrw. clear Hrw.
    rewrite Hs, He. cbn [mbind py_bind].
    exists (sort_by_start (combine rows starts)). split; [reflexivity|].
    split; [|split; [apply sort_by_start_sorted|]].
    + unfold parsed_pairs. rewrite List.Forall_forall. intros [r t] Hp.
      rewrite sort_by_start_In in Hp. cbn [fst snd]. split; [now apply Hout|].
      apply in_combine_l in Hp. rewrite List.Forall_forall in Hall.
      destruct (Hall r Hp) as (s & e & Hr). apply row_times_Ret in Hr as [_ ?]. eauto.
    + intros r. rewrite <- Hrows, in_map_iff. split.
      * intros ([r' t] & <- & Hp). rewrite sort_by_start_In in Hp.
        now apply in_combine_l in Hp.
      * intros Hr. destruct (Hin r Hr) as [t Ht]. exists (r, t).
        split; [reflexivity | now apply sort_by_start_In].
Qed.

(** On rows that all start after [now], the loop finds no current row
    and keeps the first of them as the next one, unless it had one. *)
Lemma now_next_loop_upcoming today now l next_row :
  parsed_pairs l ->
  Forall (fun p => now < dt_ist today (snd p)) l ->
  now_next_loop today now (map fst l) next_row
  = Ret (None, match next_row with
               | Some n => Some n
               | None => match l with p :: _ => Some (fst p) | [] => None end
               end).
Proof.
  intros Hp Hup. revert next_row.
  induction l as [|[r t] l IH]; intros next_row; cbn [map now_next_loop fst].
  - now destruct next_row.
  - apply Forall_cons_1 in Hp as [[Ht [e He]] Hp].
    apply Forall_cons_1 in Hup as [Hlater Hup]. cbn [fst snd] in *.
    rewrite Ht, He. cbn [mbind py_bind].
    destruct (Z.leb_spec (dt_ist today t) now); [lia|]. cbn [andb].
    destruct (Z.gtb_spec (dt_ist today t) now); [|lia].
    rewrite (IH Hp Hup). now destruct next_row.
Qed.

(** What the loop finds on the sorted rows of the day. *)
Lemma now_next_loop_spec today now l :
  parsed_pairs l -> StronglySorted key_le l ->
  exists cur nxt,
    now_next_loop today now (map fst l) None = Ret (cur, nxt)
    /\ (forall c, cur = Some c ->
          nxt = None
          /\ exists t e, In (c, t) l /\ parse_time_str (end_time c) = Ret e
                         /\ holds_now today now t e)
    /\ (cur = None ->
          forall p e, In p l -> parse_time_str (end_time (fst p)) = Ret e ->
                      ~ holds_now today now (snd p) e)
    /\ (cur = None -> forall n, nxt = Some n ->
          exists t, In (n, t) l /\ now < dt_ist today t
                    /\ forall p, In p l -> now < dt_ist today (snd p) ->
                                 dt_ist today t <= dt_ist today (snd p))
    /\ (cur = None -> nxt = None ->
          forall p, In p l -> dt_ist today (snd p) <= now).
Proof.
  intros Hp Hs. induction l as [|[r t] l IH]; cbn [map now_next_loop fst].
  - exists None, None. split; [reflexivity|].
    split_and!; try discriminate; intros; contradiction.
  - apply Forall_cons_1 in Hp as [[Ht [e He]] Hp]. cbn [fst snd] in *.
    apply StronglySorted_inv in Hs as [Hs Hle].
    rewrite Ht, He. cbn [mbind py_bind].
    destruct (Z.leb_spec (dt_ist today t) now) as [Hstart|Hstart]; cbn [andb].
    + destruct (Z.ltb_spec now (dt_ist today e)) as [Hend|Hend].
      * exists (Some r), None. split; [reflexivity|].
        split_and!; try discriminate.
        intros c [= <-]. split; [reflexivity|].
        exists t, e. split_and!; [now left | assumption | split; assumption].
      * destruct (Z.gtb_spec (dt_ist today t) now); [lia|].
        destruct (IH Hp Hs) as (cur & nxt & Hloop & Hcur & Hnone & Hnext & Hlast).
        exists cur, nxt. split; [exact Hloop|]. split_and!.
        -- intros c Hc. destruct (Hcur c Hc) as (Hn & t' & e' & Hin & He' & Hh).
           split; [assumption|]. exists t', e'. split_and!; [now right | assumption..].
        -- intros Hc p e' [<-|Hin] He'; [|now apply (Hnone Hc p e')].
           cbn [fst snd] in *. assert (e' = e) as -> by congruence.
           unfold holds_now. lia.
        -- intros Hc n Hn. destruct (Hnext Hc n Hn) as (t' & Hin & Hlater & Hmin).
           exists t'. split_and!; [now right | assumption |].
           intros p [<-|Hp'] Hlate; [cbn [snd] in Hlate; lia | now apply Hmin].
        -- intros Hc Hn p [<-|Hin]; [assumption | now apply Hlast].
    + assert (Hvt : valid_time t) by now apply (parse_time_str_valid (start_time r)).
      assert (Hup : Forall (fun p => now < dt_ist today (snd p)) l).
      { rewrite List.Forall_forall in Hle, Hp |- *. intros p Hin.
        specialize (Hle p Hin). destruct (Hp p Hin) as [Hpt _].
        apply parse_time_str_valid in Hpt.
        pose proof (time_le_dt today t (snd p) Hvt Hpt Hle). lia. }
      destruct (Z.gtb_spec (dt_ist today t) now); [|lia].
      rewrite (now_next_loop_upcoming today now l (Some r) Hp Hup).
      exists None, (Some r). split; [reflexivity|]. split_and!; try discriminate.
      * intros _ p e' [<-|Hin] He'.
        -- cbn [snd]. unfold holds_now. lia.
        -- rewrite List.Forall_forall in Hup. specialize (Hup p Hin).
           unfold holds_now. lia.
      * intros _ n [= <-]. exists t. split_and!; [now left | assumption |].
        intros p [<-|Hin] _; [cbn [snd]; lia|].
        rewrite List.Forall_forall in Hle, Hp. specialize (Hle p Hin).
        destruct (Hp p Hin) as [Hpt _]. apply parse_time_str_valid in Hpt.
        now apply time_le_dt.
Qed.

(** The result of [room_status_for_today] on a readable day, in terms of
    the rows of the store. *)
Lemma room_status_spec now df room_id_ today :
  day_readable df room_id_ today ->
  exists cur nxt,
    room_status_for_today now df room_id_ today = Ret (status_result (cur, nxt))
    /\ (forall c, cur = Some c ->
          nxt = None
          /\ exists s e, row_of_day df room_id_ today c s e
                         /\ holds_now today now s e)
    /\ (cur = None ->
          forall r s e, row_of_day df room_id_ today r s e ->
                        ~ holds_now today now s e)
    /\ (cur = None -> forall n, nxt = Some n ->
          exists s, earliest_upcoming df room_id_ today now n s)
    /\ (cur = None -> nxt = None ->
          forall r s e, row_of_day df room_id_ today r s e ->
                        dt_ist today s <= now).
Proof.
  intros Hread.
  destruct (today_rows_spec df room_id_ today Hread) as (l & Hrows & Hp & Hs & Hin).
  destruct (now_next_loop_spec today now l Hp Hs)
    as (cur & nxt & Hloop & Hcur & Hnone & Hnext & Hlast).
  assert (Hpair : forall r t, In (r, t) l ->
            In r df /\ room_id r = room_id_ /\ date r = isoformat today
            /\ parse_time_str (start_time r) = Ret t).
  { intros r t Hrt. unfold parsed_pairs in Hp. rewrite List.Forall_forall in Hp.
    destruct (Hp _ Hrt) as [Ht _]. cbn [fst snd] in Ht.
    assert (Hr : In r (map fst l)) by (apply in_map_iff; exists (r, t); now split).
    apply Hin in Hr. tauto. }
  assert (Hrow : forall r s e, row_of_day df room_id_ today r s e -> In (r, s) l).
  { intros r s e (Hr & Hroom & Hdate & Ht).
    assert (Hr' : In r (map fst l)) by (apply Hin; tauto).
    apply in_map_iff in Hr' as ([r' t] & Hfst & Hrt). cbn [fst] in Hfst. subst r'.
    destruct (Hpair _ _ Hrt) as (_ & _ & _ & Hst).
    apply row_times_Ret in Ht as [Hst' _]. now assert (t = s) as -> by congruence. }
  exists cur, nxt. split.
  { unfold room_status_for_today. rewrite Hrows. cbn [mbind py_bind].
    now rewrite Hloop. }
  split_and!.
  - intros c Hc. destruct (Hcur c Hc) as (Hn & t & e & Hct & He & Hh).
    split; [assumption|]. exists t, e. split; [|assumption].
    destruct (Hpair _ _ Hct) as (? & ? & ? & Hst).
    unfold row_of_day. split_and!; try assumption. now apply row_times_Ret.
  - intros Hc r s e Hr. pose proof (Hrow r s e Hr) as Hrs.
    destruct Hr as (_ & _ & _ & Ht). apply row_times_Ret in Ht as [_ He].
    apply (Hnone Hc (r, s) e Hrs He).
  - intros Hc n Hn. destruct (Hnext Hc n Hn) as (t & Hnt & Hlater & Hmin).
    exists t. unfold earliest_upcoming. split_and!; [|assumption|].
    + destruct (Hpair _ _ Hnt) as (Hnd & Hroom & Hdate & Hst).
      destruct (Hread n Hnd Hroom Hdate) as (s & e & Ht).
      exists e. unfold row_of_day. split_and!; try assumption.
      apply row_times_Ret in Ht as [Hst' He]. apply row_times_Ret.
      split; [assumption | exact He].
    + intros r s' e' Hr Hl. apply (Hmin (r, s')); [now apply (Hrow r s' e') | exact Hl].
  - intros Hc Hn r s e Hr. apply (Hlast Hc Hn (r, s)). now apply (Hrow r s e).
Qed.

(** Every row of Meeting Room 1 in [day_rows] reads as two times. *)
Lemma day_rows_readable : day_readable day_rows "mr1" jan_1.
Proof.
  intros r [<-|[<-|[<-|[<-|[]]]]] _ _; eexists _, _; reflexivity.
Qed.

(** X14. Occupied means that a meeting is on: on a readable day,
    [room_status_for_today] returns, and its state is "occupied" exactly
    when some row of the room on that day has start <= now < end;
    otherwise the state is "available" with no current row.  The current
    row it returns is a row of the day whose interval holds now, and the
    label is built from its two time cells. *)
Theorem room_status_occupied_iff (now : Z) (df : DataFrame) (room_id_ : string)
    (today : Date) :
  day_readable df room_id_ today ->
  exists state label cur nxt,
    room_status_for_today now df room_id_ today = Ret (state, label, cur, nxt)
    /\ (state = "occupied" <->
        exists r s e, row_of_day df room_id_ today r s e /\ holds_now today now s e)
    /\ (state <> "occupied" -> state = "available" /\ cur = None)
    /\ (forall c, cur = Some c ->
          state = "occupied"
          /\ label = "Occupied · " +:+ start_time c +:+ "–" +:+ end_time c
          /\ exists s e, row_of_day df room_id_ today c s e
                         /\ holds_now today now s e).
Proof.
  intros Hread.
  destruct (room_status_spec now df room_id_ today Hread)
    as (cur & nxt & Hres & Hcur & Hnone & _ & _).
  destruct cur as [c|].
  - destruct (Hcur c eq_refl) as (-> & s & e & Hrow & Hh).
    eexists _, _, _, _. split; [exact Hres|]. split_and!.
    + split; [eauto | reflexivity].
    + intros Hne. now destruct Hne.
    + intros c' [= <-]. split_and!; try reflexivity. eauto.
  - destruct nxt as [n|]; eexists _, _, _, _; (split; [exact Hres|]); split_and!;
      try (split; [discriminate|]; intros (r & s & e & Hrow & Hh);
           now destruct (Hnone eq_refl r s e Hrow));
      try (intros _; now split); discriminate.
Qed.

(** X15. An occupied room shows no next meeting: on a readable day, when
    the state is "occupied" the next row returned is [None], whatever
    meetings follow - the loop stops at the current row, and the rows
    before it in the order of start do not start after now. *)
Theorem occupied_room_shows_no_next (now : Z) (df : DataFrame) (room_id_ : string)
    (today : Date) (label : string) (cur nxt : option row) :
  day_readable df room_id_ today ->
  room_status_for_today now df room_id_ today = Ret ("occupied", label, cur, nxt) ->
  nxt = None.
Proof.
  intros Hread Hres.
  destruct (room_status_spec now df room_id_ today Hread)
    as (cur' & nxt' & Hres' & Hcur & _).
  rewrite Hres' in Hres. destruct cur' as [c|].
  - destruct (Hcur c eq_refl) as [-> _]. unfold status_result in Hres.
    now inversion Hres.
  - destruct nxt'; unfold status_result in Hres; inversion Hres.
Qed.

(** X16. The next meeting of an available room: on a readable day, when
    the state is "available", the next row returned is a row of the day
    that starts after now and no row of the day that starts after now
    starts earlier; when there is none, the label is "Available all day"
    and every meeting of the day is over. *)
Theorem available_room_next_is_earliest (now : Z) (df : DataFrame)
    (room_id_ : string) (today : Date) (label : string) (cur nxt : option row) :
  day_readable df room_id_ today ->
  room_status_for_today now df room_id_ today = Ret ("available", label, cur, nxt) ->
  cur = None
  /\ (forall n, nxt = Some n ->
        label = "Available · Next: " +:+ start_time n +:+ "–" +:+ end_time n
        /\ exists s, earliest_upcoming df room_id_ today now n s)
  /\ (nxt = None ->
        label = "Available all day"
        /\ forall r s e, row_of_day df room_id_ today r s e ->
                         dt_ist today s <= now /\ dt_ist today e <= now).
Proof.
  intros Hread Hres.
  destruct (room_status_spec now df room_id_ today Hread)
    as (cur' & nxt' & Hres' & _ & Hnone & Hnext & Hlast).
  rewrite Hres' in Hres. unfold status_result in Hres.
  destruct cur' as [c|]; [inversion Hres|].
  destruct nxt' as [n'|]; inversion Hres; subst label cur nxt.
  - split_and!; [reflexivity | | discriminate].
    intros n [= <-]. split; [reflexivity|]. now apply Hnext.
  - split_and!; [reflexivity | discriminate |].
    intros _. split; [reflexivity|]. intros r s e Hrow.
    pose proof (Hlast eq_refl eq_refl r s e Hrow) as Hs.
    pose proof (Hnone eq_refl r s e Hrow) as Hh. unfold holds_now in Hh.
    split; [assumption | lia].
Qed.

(** X17. One unreadable row stops the status: if a row of the room on the
    day has a time cell that [parse_time_str] does not read,
    [room_status_for_today] raises, whatever the other rows and the clock. *)
Theorem room_status_raises_on_unreadable (now : Z) (df : DataFrame)
    (room_id_ : string) (today : Date) (r : row) :
  In r df -> room_id r = room_id_ -> date r = isoformat today ->
  row_times r = Raise ->
  room_status_for_today now df room_id_ today = Raise.
Proof.
  intros Hin Hroom Hdate Hr. unfold room_status_for_today, today_rows.
  set (rows := List.filter _ df).
  assert (Hrows : In r rows).
  { unfold rows. rewrite filter_In, Hroom, Hdate, !String.eqb_refl. now split. }
  clearbody rows. destruct rows as [|r0 rows']; [destruct Hrows|].
  cbv iota. remember (r0 :: rows') as rows eqn:Hrw. clear Hrw.
  unfold row_times in Hr.
  destruct (parse_time_str (start_time r)) as [s|] eqn:Hs.
  - cbn [mbind py_bind] in Hr.
    destruct (parse_time_str (end_time r)) as [e|] eqn:He; [discriminate|].
    rewrite (apply_parse_time_str_Raise end_time rows r Hrows He).
    now destruct (apply_parse_time_str (map start_time rows)).
  - now rewrite (apply_parse_time_str_Raise start_time rows r Hrows Hs).
Qed.

(** At 10:30 a row of Meeting Room 1 holds the clock. *)
Lemma room_status_occupied_iff_witness :
  day_readable day_rows "mr1" jan_1
  /\ exists r s e, row_of_day day_rows "mr1" jan_1 r s e
                   /\ holds_now jan_1 (jan_1_at 10 30 0) s e.
Proof.
  split; [exact day_rows_readable|].
  destruct (room_status_occupied_iff (jan_1_at 10 30 0) day_rows "mr1" jan_1
              day_rows_readable)
    as (state & label & cur & nxt & Hres & Hiff & _).
  apply Hiff.
  assert (Hrun : room_status_for_today (jan_1_at 10 30 0) day_rows "mr1" jan_1
                 = Ret ("occupied", "Occupied · 10:00–11:00",
                        Some (booking "mr1" "2024-01-01" "10:00" "11:00"), None))
    by reflexivity.
  rewrite Hrun in Hres. now inversion Hres.
Defined.

(** At 10:30 Meeting Room 1 is occupied until 11:00 and the meeting of
    11:00-12:00 follows: no next row is returned. *)
Lemma occupied_room_shows_no_next_witness :
  day_readable day_rows "mr1" jan_1
  /\ In (booking "mr1" "2024-01-01" "11:00" "12:00") day_rows
  /\ exists label cur,
       room_status_for_today (jan_1_at 10 30 0) day_rows "mr1" jan_1
       = Ret ("occupied", label, cur, None).
Proof.
  split_and!; [exact day_rows_readable | cbn; tauto |].
  assert (Hrun : room_status_for_today (jan_1_at 10 30 0) day_rows "mr1" jan_1
                 = Ret ("occupied", "Occupied · 10:00–11:00",
                        Some (booking "mr1" "2024-01-01" "10:00" "11:00"),
                        snd (status_result
                               (Some (booking "mr1" "2024-01-01" "10:00" "11:00"),
                                None))))
    by reflexivity.
  pose proof (occupied_room_shows_no_next _ _ _ _ _ _ _ day_rows_readable Hrun)
    as Hnone.
  eexists _, _. rewrite Hrun, Hnone. reflexivity.
Defined.

(** At 09:50 the next meeting of Meeting Room 1 is the one at 10:00,
    though the row of 14:00 comes first in the store. *)
Lemma available_room_next_is_earliest_witness :
  day_readable day_rows "mr1" jan_1
  /\ room_status_for_today (jan_1_at 9 50 0) day_rows "mr1" jan_1
     = Ret ("available", "Available · Next: 10:00–11:00", None,
            Some (booking "mr1" "2024-01-01" "10:00" "11:00"))
  /\ exists s, earliest_upcoming day_rows "mr1" jan_1 (jan_1_at 9 50 0)
                 (booking "mr1" "2024-01-01" "10:00" "11:00") s.
Proof.
  split_and!; [exact day_rows_readable | reflexivity |].
  apply (proj1 (proj2 (available_room_next_is_earliest (jan_1_at 9 50 0) day_rows
                         "mr1" jan_1 "Available · Next: 10:00–11:00" None
                         (Some (booking "mr1" "2024-01-01" "10:00" "11:00"))
                         day_rows_readable eq_refl))
           _ eq_refl).
Defined.

(** A row of 11h-12h among the rows of the room stops the status. *)
Lemma room_status_raises_on_unreadable_witness :
  row_times (booking "mr1" "2024-01-01" "11h" "12h") = Raise
  /\ room_status_for_today (jan_1_at 9 50 0)
       (day_rows ++ [booking "mr1" "2024-01-01" "11h" "12h"]) "mr1" jan_1 = Raise.
Proof.
  split; [reflexivity|].
  apply (room_status_raises_on_unreadable _ _ _ _
           (booking "mr1" "2024-01-01" "11h" "12h")); try reflexivity.
  apply in_or_app. right. now left.
Defined.

(* ------------------------------------------------------------------ *)
(** * Further properties: the head of [room_card] and the form defaults *)

Lemma pills_distinct :
  span_pill "pill-red" "Occupied" <> span_pill "pill-amber" "Starting Soon"
  /\ span_pill "pill-red" "Occupied" <> span_pill "pill-green" "Available"
  /\ span_pill "pill-amber" "Starting Soon" <> span_pill "pill-green" "Available".
Proof. split_and!; intros Heq; vm_compute in Heq; discriminate. Qed.

(** Two earliest upcoming rows start at the same instant. *)
Lemma earliest_upcoming_start df room_id_ today now n s n' s' :
  earliest_upcoming df room_id_ today now n s ->
  earliest_upcoming df room_id_ today now n' s' ->
  dt_ist today s = dt_ist today s'.
Proof.
  intros ([e He] & Hl & Hmin) ([e' He'] & Hl' & Hmin').
  pose proof (Hmin _ _ _ He' Hl'). pose proof (Hmin' _ _ _ He Hl). lia.
Qed.

(** X18. The pill of a room card: on a readable day [room_card] shows
    the red pill exactly when a row of the room holds the clock as
    [room_status_for_today] read it; the amber pill exactly when no row
    holds it and the earliest row that starts after it starts within
    [STARTING_SOON_MIN] minutes of, and strictly after, the clock as
    [room_card] reads it next; the green pill otherwise. *)
Theorem room_card_pill_cases (now now2 : Z) (df : DataFrame) (room : Room)
    (today : Date) :
  day_readable df (id room) today ->
  exists pill,
    room_card_pill now now2 df room today = Ret pill
    /\ (pill = span_pill "pill-red" "Occupied" <->
        exists r s e, row_of_day df (id room) today r s e
                      /\ holds_now today now s e)
    /\ (pill = span_pill "pill-amber" "Starting Soon" <->
        (forall r s e, row_of_day df (id room) today r s e ->
                       ~ holds_now today now s e)
        /\ exists n s, earliest_upcoming df (id room) today now n s
                       /\ 0 < dt_ist today s - now2 <= 60 * STARTING_SOON_MIN)
    /\ (pill = span_pill "pill-red" "Occupied"
        \/ pill = span_pill "pill-amber" "Starting Soon"
        \/ pill = span_pill "pill-green" "Available").
Proof.
  intros Hread.
  destruct pills_distinct as (Hra & Hrg & Hag).
  destruct (room_status_spec now df (id room) today Hread)
    as (cur & nxt & Hres & Hcur & Hnone & Hnext & Hlast).
  unfold room_card_pill. rewrite Hres. cbn [mbind py_bind].
  destruct cur as [c|].
  - destruct (Hcur c eq_refl) as (-> & s & e & Hrow & Hh).
    unfold status_result. cbn [mbind py_bind].
    change (status_pill "occupied" false) with (span_pill "pill-red" "Occupied").
    eexists. split; [reflexivity|]. split_and!.
    + split; [eauto | reflexivity].
    + split; [intros Heq; now destruct (Hra Heq)|].
      intros [Hno _]. now destruct (Hno c s e Hrow).
    + now left.
  - destruct nxt as [n|].
    + destruct (Hnext eq_refl n eq_refl) as (s & Hup).
      pose proof Hup as ([e Hrow] & Hlater & _).
      destruct Hrow as (_ & _ & _ & Ht). apply row_times_Ret in Ht as [Hs _].
      unfold status_result.
      change (String.eqb "available" "available") with true. cbv iota.
      rewrite Hs. cbn [mbind py_bind].
      change (status_pill "available") with
        (fun b : bool => if b then span_pill "pill-amber" "Starting Soon"
                         else span_pill "pill-green" "Available").
      cbv beta.
      destruct ((dt_ist today s - now2 <=? STARTING_SOON_MIN * 60)
                && (dt_ist today s - now2 >? 0)) eqn:Hsoon;
        (eexists; split; [reflexivity|]); split_and!.
      * split; [intros Heq; symmetry in Heq; now destruct (Hra Heq)|].
        intros (r & s' & e' & Hr & Hh). now destruct (Hnone eq_refl r s' e' Hr).
      * split; [intros _|reflexivity]. split; [exact (Hnone eq_refl)|].
        exists n, s. split; [assumption|].
        apply andb_true_iff in Hsoon as [H1%Z.leb_le H2%Z.gtb_lt]. lia.
      * right. now left.
      * split; [intros Heq; symmetry in Heq; now destruct (Hrg Heq)|].
        intros (r & s' & e' & Hr & Hh). now destruct (Hnone eq_refl r s' e' Hr).
      * split; [intros Heq; symmetry in Heq; now destruct (Hag Heq)|].
        intros (_ & n' & s' & Hup' & Hsoon').
        rewrite <- (earliest_upcoming_start _ _ _ _ _ _ _ _ Hup Hup') in Hsoon'.
        apply andb_false_iff in Hsoon as [H1%Z.leb_gt | H2]; [lia|].
        rewrite Z.gtb_ltb in H2. apply Z.ltb_ge in H2. lia.
      * right. now right.
    + unfold status_result. cbn [mbind py_bind].
      change (status_pill "available" false)
        with (span_pill "pill-green" "Available").
      eexists. split; [reflexivity|]. split_and!.
      * split; [intros Heq; symmetry in Heq; now destruct (Hrg Heq)|].
        intros (r & s' & e' & Hr & Hh). now destruct (Hnone eq_refl r s' e' Hr).
      * split; [intros Heq; symmetry in Heq; now destruct (Hag Heq)|].
        intros (_ & n' & s' & ([e' Hr] & Hl & _) & _).
        pose proof (Hlast eq_refl eq_refl n' s' e' Hr). lia.
      * right. now right.
Qed.

(** At 09:50 the meeting of 10:00 is ten minutes away: the pill is amber;
    a second before 10:00 it still is. *)
Lemma room_card_pill_cases_witness :
  day_readable day_rows (id (mk_room "mr1" "Meeting Room 1")) jan_1
  /\ room_card_pill (jan_1_at 9 50 0) (jan_1_at 9 50 1) day_rows
       (mk_room "mr1" "Meeting Room 1") jan_1
     = Ret (span_pill "pill-amber" "Starting Soon")
  /\ exists n s, earliest_upcoming day_rows "mr1" jan_1 (jan_1_at 9 50 0) n s
                 /\ 0 < dt_ist jan_1 s - jan_1_at 9 50 1 <= 60 * STARTING_SOON_MIN.
Proof.
  split_and!; [exact day_rows_readable | reflexivity |].
  destruct (room_card_pill_cases (jan_1_at 9 50 0) (jan_1_at 9 50 1) day_rows
              (mk_room "mr1" "Meeting Room 1") jan_1 day_rows_readable)
    as (pill & Hres & _ & Hamber & _).
  assert (Hrun : room_card_pill (jan_1_at 9 50 0) (jan_1_at 9 50 1) day_rows
                   (mk_room "mr1" "Meeting Room 1") jan_1
                 = Ret (span_pill "pill-amber" "Starting Soon")) by reflexivity.
  rewrite Hrun in Hres. injection Hres as <-.
  exact (proj2 (proj1 Hamber eq_refl)).
Defined.

Lemma defaults_ok_all :
  forallb (fun h => forallb (fun m => defaults_ok (Z.of_nat h) (Z.of_nat m))
                            (seq 0 60)) (seq 0 24) = true.
Proof. vm_compute. reflexivity. Qed.

(** X19. The default times of the Quick Book form: for a clock time
    [now_time], both defaults are times of day on the slot grid and the
    end is one slot after the start, around midnight if need be.  In the
    first half of an hour the start is the full hour that has begun, which
    is before the clock from its first minute on; in the second half it is
    the half hour of the hour that follows. *)
Theorem form_defaults_on_grid (now_time : time) :
  valid_time now_time ->
  valid_time (start_default now_time) /\ valid_time (end_default now_time)
  /\ minute (start_default now_time) mod SLOT_MINUTES = 0
  /\ minute (end_default now_time) mod SLOT_MINUTES = 0
  /\ 60 * hour (end_default now_time) + minute (end_default now_time)
     = (60 * hour (start_default now_time) + minute (start_default now_time)
        + SLOT_MINUTES) mod 1440
  /\ (minute now_time < 30 -> start_default now_time = mk_time (hour now_time) 0)
  /\ (0 < minute now_time < 30 ->
      time_lt (start_default now_time) now_time = true)
  /\ (30 <= minute now_time ->
      start_default now_time = mk_time ((hour now_time + 1) mod 24) 30).
Proof.
  destruct now_time as [h m]. intros [Hh Hm]. cbn [hour minute] in Hh, Hm |- *.
  pose proof defaults_ok_all as Hall.
  rewrite forallb_forall in Hall.
  specialize (Hall (Z.to_nat h)). rewrite forallb_forall in Hall.
  assert (Hr : defaults_ok (Z.of_nat (Z.to_nat h)) (Z.of_nat (Z.to_nat m)) = true).
  { apply Hall; apply in_seq; lia. }
  rewrite !Z2Nat.id in Hr by lia. unfold defaults_ok in Hr. cbv zeta in Hr.
  destruct (start_default (mk_time h m)) as [sh sm].
  destruct (end_default (mk_time h m)) as [eh em].
  unfold valid_time, time_lt, SLOT_MINUTES. cbn [hour minute] in Hr |- *.
  repeat (apply andb_true_iff in Hr as [Hr ?]).
  repeat match goal with
         | H : (_ <=? _) = true |- _ => apply Z.leb_le in H
         | H : (_ <? _) = true |- _ => apply Z.ltb_lt in H
         | H : (_ =? _) = true |- _ => apply Z.eqb_eq in H
         | H : (_ || _) = true |- _ => apply orb_true_iff in H as [H|H]
         end;
    (destruct (Z.ltb_spec m 30) as [Hlt|Hge];
     match goal with
     | H : (_ && _) = true |- _ =>
         apply andb_true_iff in H as [->%Z.eqb_eq ->%Z.eqb_eq]
     end;
     split_and!; try lia; try reflexivity; try (subst; reflexivity);
     try (intros _; reflexivity);
     try (intros ?; apply orb_true_iff; right; apply andb_true_iff;
          split; [apply Z.eqb_eq | apply Z.ltb_lt]; lia)).
Qed.

(** At 10:15 the form proposes 10:00-10:30; at 23:45 it proposes
    00:30-01:00. *)
Lemma form_defaults_on_grid_witness :
  valid_time (mk_time 10 15)
  /\ start_default (mk_time 10 15) = mk_time 10 0
  /\ end_default (mk_time 10 15) = mk_time 10 30
  /\ start_default (mk_time 23 45) = mk_time 0 30
  /\ time_lt (start_default (mk_time 10 15)) (mk_time 10 15) = true.
Proof.
  assert (Hv : valid_time (mk_time 10 15)) by (unfold valid_time; cbn; lia).
  split_and!; [exact Hv | reflexivity | reflexivity | reflexivity |].
  destruct (form_defaults_on_grid (mk_time 10 15) Hv)
    as (_ & _ & _ & _ & _ & _ & Hpast & _).
  apply Hpast. cbn. lia.
Defined.

Example parse_0915 : parse_time_str "09:15" = Ret (mk_time 9 15).
Proof. reflexivity. Qed.
Example parse_blank_sign : parse_time_str " +9 :1_5" = Ret (mk_time 9 15).
Proof. reflexivity. Qed.
Example parse_bad : parse_time_str "24:00" = Raise.
Proof. reflexivity. Qed.
Example strptime_ok : strptime_HM "9:5" = Ret (mk_time 9 5).
Proof. reflexivity. Qed.
Example strptime_bad : strptime_HM " 9:05" = Raise.
Proof. reflexivity. Qed.
Example fmt_ok : fmt_time (mk_time 9 5) = "09:05".
Proof. reflexivity. Qed.
